(** * ShadowLog: the AI-result cache and the background enrichment flow

    A shallow embedding of

      - [generateCacheKey]            (backend/src/utils/helpers.ts)
      - [AIService]                   (backend/src/services/ai.ts)
      - [DatabaseService]             (services/database.ts)
      - [processAIAnalysis]           (backend/src/routes/entries.ts)

    Strings are sequences of bytes (the UTF-8 encoding that Node's
    [Hash.update] applies to a JavaScript string); time is the number of
    milliseconds returned by [Date.now()]; an [async] function is a
    function from the state of the process and of its collaborators to a
    result, returned or thrown, and a new state. *)

From Stdlib Require Import ZArith QArith.QArith_base String Ascii List Lia.
From stdpp Require Import base option gmap strings list fin_maps pretty.
Import ListNotations.

Local Open Scope Z_scope.
Local Open Scope string_scope.
Local Set Warnings "-register-all".

(** ** SHA-256 (FIPS 180-4), the digest behind [crypto.createHash('sha256')] *)

Module SHA256.

(** 32-bit words are integers reduced modulo 2^32. *)
Definition wrap32 (x : Z) : Z := x mod 2 ^ 32.
Definition add32 (x y : Z) : Z := wrap32 (x + y).
Definition not32 (x : Z) : Z := Z.lxor x 0xFFFFFFFF.
Definition rotr (n x : Z) : Z :=
  Z.lor (Z.shiftr x n) (wrap32 (Z.shiftl x (32 - n))).

Definition Ch (x y z : Z) : Z := Z.lxor (Z.land x y) (Z.land (not32 x) z).
Definition Maj (x y z : Z) : Z :=
  Z.lxor (Z.lxor (Z.land x y) (Z.land x z)) (Z.land y z).
Definition bsig0 (x : Z) : Z := Z.lxor (Z.lxor (rotr 2 x) (rotr 13 x)) (rotr 22 x).
Definition bsig1 (x : Z) : Z := Z.lxor (Z.lxor (rotr 6 x) (rotr 11 x)) (rotr 25 x).
Definition ssig0 (x : Z) : Z := Z.lxor (Z.lxor (rotr 7 x) (rotr 18 x)) (Z.shiftr x 3).
Definition ssig1 (x : Z) : Z := Z.lxor (Z.lxor (rotr 17 x) (rotr 19 x)) (Z.shiftr x 10).

(** Round constants, four per line. *)
Definition round_constants : list Z :=
  [ 0x428A2F98; 0x71374491; 0xB5C0FBCF; 0xE9B5DBA5
  ; 0x3956C25B; 0x59F111F1; 0x923F82A4; 0xAB1C5ED5
  ; 0xD807AA98; 0x12835B01; 0x243185BE; 0x550C7DC3
  ; 0x72BE5D74; 0x80DEB1FE; 0x9BDC06A7; 0xC19BF174
  ; 0xE49B69C1; 0xEFBE4786; 0x0FC19DC6; 0x240CA1CC
  ; 0x2DE92C6F; 0x4A7484AA; 0x5CB0A9DC; 0x76F988DA
  ; 0x983E5152; 0xA831C66D; 0xB00327C8; 0xBF597FC7
  ; 0xC6E00BF3; 0xD5A79147; 0x06CA6351; 0x14292967
  ; 0x27B70A85; 0x2E1B2138; 0x4D2C6DFC; 0x53380D13
  ; 0x650A7354; 0x766A0ABB; 0x81C2C92E; 0x92722C85
  ; 0xA2BFE8A1; 0xA81A664B; 0xC24B8B70; 0xC76C51A3
  ; 0xD192E819; 0xD6990624; 0xF40E3585; 0x106AA070
  ; 0x19A4C116; 0x1E376C08; 0x2748774C; 0x34B0BCB5
  ; 0x391C0CB3; 0x4ED8AA4A; 0x5B9CCA4F; 0x682E6FF3
  ; 0x748F82EE; 0x78A5636F; 0x84C87814; 0x8CC70208
  ; 0x90BEFFFA; 0xA4506CEB; 0xBEF9A3F7; 0xC67178F2 ].

(** The eight working variables, also the chaining value. *)
Record hash : Type := Hash {
  ha : Z; hb : Z; hc : Z; hd : Z; he : Z; hf : Z; hg : Z; hh : Z }.

Definition initial_hash : hash :=
  Hash 0x6A09E667 0xBB67AE85 0x3C6EF372 0xA54FF53A
       0x510E527F 0x9B05688C 0x1F83D9AB 0x5BE0CD19.

(** Padding: a 1 bit, zeros up to 56 mod 64 bytes, the bit length on 64 bits. *)
Definition be_bytes (width : nat) (x : Z) : list Z :=
  map (fun i => Z.land (Z.shiftr x (8 * Z.of_nat i)) 0xFF) (rev (seq 0 width)).

Definition pad (msg : list Z) : list Z :=
  let len := Z.of_nat (length msg) in
  msg ++ [0x80] ++ repeat 0 (Z.to_nat ((55 - len) mod 64)) ++ be_bytes 8 (8 * len).

Fixpoint be_words (bytes : list Z) : list Z :=
  match bytes with
  | b0 :: b1 :: b2 :: b3 :: rest =>
      (Z.shiftl b0 24 + Z.shiftl b1 16 + Z.shiftl b2 8 + b3) :: be_words rest
  | _ => []
  end.

(** Message schedule: sixteen block words extended to sixty-four. *)
Fixpoint extend (n : nat) (w : list Z) : list Z :=
  match n with
  | O => w
  | S n' =>
      let t := length w in
      let at_ (k : nat) := nth (t - k) w 0 in
      extend n' (w ++ [add32 (add32 (ssig1 (at_ 2%nat)) (at_ 7%nat))
                             (add32 (ssig0 (at_ 15%nat)) (at_ 16%nat))])
  end.

Definition schedule (block : list Z) : list Z := extend 48 (be_words block).

Definition round (s : hash) (kw : Z * Z) : hash :=
  let t1 := add32 (add32 (add32 (hh s) (bsig1 (he s)))
                         (add32 (Ch (he s) (hf s) (hg s)) (fst kw))) (snd kw) in
  let t2 := add32 (bsig0 (ha s)) (Maj (ha s) (hb s) (hc s)) in
  Hash (add32 t1 t2) (ha s) (hb s) (hc s) (add32 (hd s) t1) (he s) (hf s) (hg s).

Definition compress (h : hash) (block : list Z) : hash :=
  let s := fold_left round (combine round_constants (schedule block)) h in
  Hash (add32 (ha h) (ha s)) (add32 (hb h) (hb s)) (add32 (hc h) (hc s))
       (add32 (hd h) (hd s)) (add32 (he h) (he s)) (add32 (hf h) (hf s))
       (add32 (hg h) (hg s)) (add32 (hh h) (hh s)).

Fixpoint blocks (n : nat) (bytes : list Z) : list (list Z) :=
  match n with
  | O => []
  | S n' => firstn 64 bytes :: blocks n' (skipn 64 bytes)
  end.

Definition digest (msg : list Z) : hash :=
  let p := pad msg in
  fold_left compress (blocks (length p / 64) p) initial_hash.

(** Lower-case hexadecimal, two characters per byte, as [digest('hex')]. *)
Definition hex_digit (n : Z) : ascii :=
  if (n <? 10)%Z then ascii_of_N (Z.to_N (48 + n)) else ascii_of_N (Z.to_N (87 + n)).

Definition hex_word (w : Z) (rest : string) : string :=
  String (hex_digit (Z.land (Z.shiftr w 28) 15))
 (String (hex_digit (Z.land (Z.shiftr w 24) 15))
 (String (hex_digit (Z.land (Z.shiftr w 20) 15))
 (String (hex_digit (Z.land (Z.shiftr w 16) 15))
 (String (hex_digit (Z.land (Z.shiftr w 12) 15))
 (String (hex_digit (Z.land (Z.shiftr w 8) 15))
 (String (hex_digit (Z.land (Z.shiftr w 4) 15))
 (String (hex_digit (Z.land w 15)) rest))))))).

Definition hex (h : hash) : string :=
  hex_word (ha h) (hex_word (hb h) (hex_word (hc h) (hex_word (hd h)
 (hex_word (he h) (hex_word (hf h) (hex_word (hg h) (hex_word (hh h) ""))))))).

Definition bytes_of_string (s : string) : list Z :=
  map (fun c => Z.of_N (N_of_ascii c)) (list_ascii_of_string s).

Definition sha256_hex (s : string) : string := hex (digest (bytes_of_string s)).

End SHA256.

(** ** utils/helpers.ts *)

(** [generateCacheKey(content, type)]: the template literal [`${type}:${content}`]
    hashed with SHA-256 and rendered in hexadecimal. *)
Definition generateCacheKey (content type : string) : string :=
  SHA256.sha256_hex (type ++ ":" ++ content).
Arguments generateCacheKey : simpl never.

(** ** JavaScript values, errors and built-ins *)

(** A JSON value, as [JSON.parse] produces it and Prisma stores it in a
    [Json] column. A number [JNum m e] denotes [m * 10^e]; JavaScript's
    [null] is [JNull]. *)
Inductive JSON : Type :=
  | JNull
  | JBool (b : bool)
  | JNum (mantissa exponent : Z)
  | JStr (s : string)
  | JArr (items : list JSON)
  | JObj (fields : list (string * JSON)).

(** [ToBoolean], the test behind [if (x)] and [x || y]. *)
Definition string_truthy (s : string) : bool :=
  match s with EmptyString => false | String _ _ => true end.

Definition truthy (v : JSON) : bool :=
  match v with
  | JNull => false
  | JBool b => b
  | JNum m _ => negb (m =? 0)%Z
  | JStr s => string_truthy s
  | JArr _ | JObj _ => true
  end.

(** The same test on a string that may be [null] or [undefined]. *)
Definition opt_truthy (x : option string) : bool :=
  match x with Some s => string_truthy s | None => false end.

(** [x || fallback] where [x] is a string, [undefined] or [null]. *)
Definition or_default (x : option string) (fallback : string) : string :=
  match x with
  | Some s => if string_truthy s then s else fallback
  | None => fallback
  end.

(** [haystack.includes(needle)] *)
Fixpoint includes (needle haystack : string) : bool :=
  if String.prefix needle haystack then true
  else match haystack with
       | EmptyString => false
       | String _ rest => includes needle rest
       end.

(** Thrown values, all of them instances of [Error]. [AppError] is the
    class of utils/helpers.ts; [ReferenceError], [TypeError] and
    [SyntaxError] come from the runtime; [PlainError] is an [Error] that
    carries a message only, as [getEnvVar] and the clients of Redis, Prisma
    and the analysis provider raise. *)
Inductive JSError : Type :=
  | AppError (message : string) (statusCode : Z)
  | ReferenceError (message : string)
  | TypeError (message : string)
  | SyntaxError (message : string)
  | PlainError (message : string).

Definition error_message (e : JSError) : string :=
  match e with
  | AppError m _ | ReferenceError m | TypeError m | SyntaxError m | PlainError m => m
  end.

(** The built-ins the code calls and this development does not interpret:
    every theorem holds for any behaviour of [JSON.stringify], [JSON.parse]
    ([None]: a [SyntaxError]) and [parseInt] ([None]: [NaN]). *)
Class JSBuiltins : Type := {
  JSON_stringify : JSON -> string;
  JSON_parse : string -> option JSON;
  parseInt : string -> option Z;
}.

(** ** The process and its collaborators *)

(** A key of the volatile tier: the text written by [SETEX] and the instant
    (in milliseconds) at which Redis drops it. *)
Record RedisEntry : Type := { redis_value : string; redis_deadline : Z }.

(** The ioredis client. Its commands are fallible: a read or a write is
    rejected when the corresponding flag is off (connection refused, a
    read-only or full server). *)
Record RedisClient : Type := {
  redis_data : gmap string RedisEntry;
  redis_reads_ok : bool;
  redis_writes_ok : bool;
}.

(** A row of the [ai_cache] table ([AICacheModel]); the table is keyed by
    its unique column [key]. *)
Record AICacheRow : Type := {
  row_result : JSON;
  row_type : string;
  row_expiresAt : Z;
}.

(** A row of the diary table ([DiaryEntryModel]). *)
Record DiaryEntry : Type := {
  title : string;
  entry_content : string;
  userId : string;
  aiSentiment : option JSON;
  aiTags : option (list string);
  aiSummary : option string;
}.

(** What [openai.chat.completions.create] does with one request: it rejects,
    or it resolves and [response.choices[0]?.message?.content] is a string
    or missing. *)
Inductive ProviderReply : Type :=
  | Rejected (e : JSError)
  | Completed (content : option string).

(** The provider answers a request, identified by the analysis it serves and
    the user content. *)
Definition Provider : Type := string -> string -> ProviderReply.

Inductive LogLevel : Type := LogInfo | LogWarn | LogError.

Record World : Type := {
  openai : option Provider;                     (* this.openai *)
  redis : option RedisClient;                   (* this.redis *)
  db_up : bool;                                 (* the database answers *)
  ai_cache : option (gmap string AICacheRow);   (* None: table not created *)
  diary_entries : gmap string DiaryEntry;
  process_env : gmap string string;
  now : Z;                                      (* Date.now() *)
  console : list (LogLevel * string);
  provider_calls : list (string * string);      (* requests sent so far *)
}.

Definition set_redis (r : option RedisClient) (w : World) : World :=
  {| openai := openai w; redis := r; db_up := db_up w; ai_cache := ai_cache w;
     diary_entries := diary_entries w; process_env := process_env w;
     now := now w; console := console w; provider_calls := provider_calls w |}.

Definition set_ai_cache (t : option (gmap string AICacheRow)) (w : World) : World :=
  {| openai := openai w; redis := redis w; db_up := db_up w; ai_cache := t;
     diary_entries := diary_entries w; process_env := process_env w;
     now := now w; console := console w; provider_calls := provider_calls w |}.

Definition set_diary_entries (d : gmap string DiaryEntry) (w : World) : World :=
  {| openai := openai w; redis := redis w; db_up := db_up w; ai_cache := ai_cache w;
     diary_entries := d; process_env := process_env w;
     now := now w; console := console w; provider_calls := provider_calls w |}.

Definition set_console (c : list (LogLevel * string)) (w : World) : World :=
  {| openai := openai w; redis := redis w; db_up := db_up w; ai_cache := ai_cache w;
     diary_entries := diary_entries w; process_env := process_env w;
     now := now w; console := c; provider_calls := provider_calls w |}.

Definition set_provider_calls (c : list (string * string)) (w : World) : World :=
  {| openai := openai w; redis := redis w; db_up := db_up w; ai_cache := ai_cache w;
     diary_entries := diary_entries w; process_env := process_env w;
     now := now w; console := console w; provider_calls := c |}.

(** The clock moves between calls, never inside one. *)
Definition advance (ms : Z) (w : World) : World :=
  {| openai := openai w; redis := redis w; db_up := db_up w; ai_cache := ai_cache w;
     diary_entries := diary_entries w; process_env := process_env w;
     now := now w + ms; console := console w; provider_calls := provider_calls w |}.

(** ** Awaited computations: state and exceptions *)

Inductive Outcome (A : Type) : Type :=
  | Returned (a : A)
  | Thrown (e : JSError).
Arguments Returned {A} a.
Arguments Thrown {A} e.

Definition M (A : Type) : Type := World -> Outcome A * World.

Definition ret {A} (a : A) : M A := fun w => (Returned a, w).
Definition throw {A} (e : JSError) : M A := fun w => (Thrown e, w).
Definition bind {A B} (m : M A) (k : A -> M B) : M B :=
  fun w => match m w with
           | (Returned a, w') => k a w'
           | (Thrown e, w') => (Thrown e, w')
           end.
(** [try { body } catch (error) { handler }] *)
Definition try_catch {A} (body : M A) (handler : JSError -> M A) : M A :=
  fun w => match body w with
           | (Returned a, w') => (Returned a, w')
           | (Thrown e, w') => handler e w'
           end.

Notation "'await' x ':=' m 'in' k" := (bind m (fun x => k))
  (at level 10, x name, m at level 100, k at level 200).
Notation "'await_' m 'in' k" := (bind m (fun _ => k))
  (at level 10, m at level 100, k at level 200).

Definition console_write (lvl : LogLevel) (msg : string) : M unit :=
  fun w => (Returned tt, set_console (console w ++ [(lvl, msg)]) w).
Definition console_log := console_write LogInfo.
Definition console_warn := console_write LogWarn.
Definition console_error := console_write LogError.

Definition Date_now : M Z := fun w => (Returned (now w), w).
Definition this_redis : M (option RedisClient) := fun w => (Returned (redis w), w).
Definition this_openai : M (option Provider) := fun w => (Returned (openai w), w).

(** [getEnvVar(name, defaultValue)] of utils/helpers.ts *)
Definition getEnvVar (name : string) (defaultValue : option string) : M string :=
  fun w =>
    let value := process_env w !! name in
    if negb (opt_truthy value) && negb (opt_truthy defaultValue)
    then (Thrown (PlainError ("Environment variable " ++ name ++ " is required")), w)
    else (Returned (or_default value (or_default defaultValue "")), w).

(** *** The volatile store (Redis) *)

(** What the server holds under [key] at [date]: the text while its expiry
    lies ahead, nothing otherwise. *)
Definition redis_lookup (c : RedisClient) (key : string) (date : Z) : option string :=
  match redis_data c !! key with
  | Some e => if (date <? redis_deadline e)%Z then Some (redis_value e) else None
  | None => None
  end.
Arguments redis_lookup : simpl never.

(** [redis.get(key)]: a string, or [null]. *)
Definition redis_get (key : string) : M (option string) :=
  fun w =>
    match redis w with
    | None => (Thrown (TypeError "Cannot read properties of null (reading 'get')"), w)
    | Some c =>
        if redis_reads_ok c then (Returned (redis_lookup c key (now w)), w)
        else (Thrown (PlainError "Reached the max retries per request limit"), w)
    end.

(** The client after a successful [SETEX key seconds text] issued at [date]. *)
Definition redis_after_setex (c : RedisClient) (key : string) (seconds date : Z)
    (text : string) : RedisClient :=
  {| redis_data := <[key := {| redis_value := text;
                               redis_deadline := date + seconds * 1000 |}]> (redis_data c);
     redis_reads_ok := redis_reads_ok c;
     redis_writes_ok := redis_writes_ok c |}.

(** [redis.setex(key, seconds, text)]: Redis refuses an expire time that is
    not a positive integer ([None] is [NaN]). *)
Definition redis_setex (key : string) (seconds : option Z) (text : string) : M unit :=
  fun w =>
    match redis w with
    | None => (Thrown (TypeError "Cannot read properties of null (reading 'setex')"), w)
    | Some c =>
        match seconds with
        | Some s =>
            if redis_writes_ok c && (0 <? s)%Z then
              (Returned tt,
               set_redis (Some (redis_after_setex c key s (now w) text)) w)
            else (Thrown (PlainError "ERR invalid expire time or write refused"), w)
        | None => (Thrown (PlainError "ERR value is not an integer or out of range"), w)
        end
    end.

(** *** The durable store (Prisma) *)

Definition table_missing : JSError :=
  PlainError "The table ai_cache does not exist in the current database.".
Definition db_unreachable : JSError :=
  PlainError "Can't reach database server".

(** Every query goes through the connection and needs the table. *)
Definition with_ai_cache {A} (q : gmap string AICacheRow -> World -> Outcome A * World)
  : M A :=
  fun w =>
    if db_up w then
      match ai_cache w with
      | Some rows => q rows w
      | None => (Thrown table_missing, w)
      end
    else (Thrown db_unreachable, w).

(** [aICache.findFirst({ where: { key, type, expiresAt: { gt: date } } })] *)
Definition aICache_findFirst (key type : string) (date : Z) : M (option AICacheRow) :=
  with_ai_cache (fun rows w =>
    (Returned (match rows !! key with
               | Some row =>
                   if String.eqb (row_type row) type && (date <? row_expiresAt row)%Z
                   then Some row else None
               | None => None
               end), w)).

(** [aICache.upsert({ where: { key }, update: {...}, create: {...} })];
    an invalid [Date] ([None]) is refused. *)
Definition aICache_upsert (key : string) (result : JSON) (type : string)
    (expiresAt : option Z) : M unit :=
  with_ai_cache (fun rows w =>
    match expiresAt with
    | Some t =>
        (Returned tt,
         set_ai_cache (Some (<[key := {| row_result := result; row_type := type;
                                         row_expiresAt := t |}]> rows)) w)
    | None => (Thrown (PlainError "Provided Date object is invalid"), w)
    end).

(** [aICache.deleteMany({ where: { expiresAt: { lt: date } } })], which
    resolves to the number of rows deleted. *)
Definition aICache_deleteMany_lt (date : Z) : M nat :=
  with_ai_cache (fun rows w =>
    let kept := filter (fun kv => ¬ (row_expiresAt kv.2 < date)%Z) rows in
    (Returned (size rows - size kept)%nat, set_ai_cache (Some kept) w)).

(** [$queryRaw`SELECT 1 FROM ai_cache LIMIT 1`] *)
Definition queryRaw_probe_ai_cache : M unit :=
  with_ai_cache (fun _ w => (Returned tt, w)).

(** The columns [aiTags String[]] and [aiSummary String] accept only values
    of their type. *)
Fixpoint as_strings (items : list JSON) : option (list string) :=
  match items with
  | [] => Some []
  | JStr s :: rest => option_map (cons s) (as_strings rest)
  | _ :: _ => None
  end.

Definition as_string_array (v : JSON) : option (list string) :=
  match v with JArr items => as_strings items | _ => None end.

Definition as_string (v : JSON) : option string :=
  match v with JStr s => Some s | _ => None end.

(** [diaryEntry.update({ where: { id }, data: { aiSentiment, aiTags, aiSummary } })]:
    one statement that sets the three columns of one row. *)
Definition diaryEntry_update (id : string) (sentiment tags summary : JSON) : M unit :=
  fun w =>
    if db_up w then
      match diary_entries w !! id with
      | None => (Thrown (PlainError "Record to update not found."), w)
      | Some e =>
          match as_string_array tags, as_string summary with
          | Some ts, Some s =>
              (Returned tt,
               set_diary_entries
                 (<[id := {| title := title e; entry_content := entry_content e;
                             userId := userId e; aiSentiment := Some sentiment;
                             aiTags := Some ts; aiSummary := Some s |}]>
                    (diary_entries w)) w)
          | _, _ => (Thrown (PlainError "Invalid value provided"), w)
          end
      end
    else (Thrown db_unreachable, w).

(** *** The analysis provider (OpenAI) *)

(** [this.openai.chat.completions.create({...})] followed by
    [response.choices[0]?.message?.content]. Reading [chat] off a [null]
    client is a [TypeError]; a request that leaves the process is recorded. *)
Definition chat_completions_create (kind content : string) : M (option string) :=
  fun w =>
    match openai w with
    | None => (Thrown (TypeError "Cannot read properties of null (reading 'chat')"), w)
    | Some provider =>
        let w' := set_provider_calls (provider_calls w ++ [(kind, content)]) w in
        match provider kind content with
        | Rejected e => (Thrown e, w')
        | Completed c => (Returned c, w')
        end
    end.

(** ** services/ai.ts: [AIService] *)

Section AIService.
Context {js : JSBuiltins}.

(** [JSON.parse(text)], a [SyntaxError] on text that is not JSON. *)
Definition JSON_parse_or_throw (text : string) : M JSON :=
  match JSON_parse text with
  | Some v => ret v
  | None => throw (SyntaxError "Unexpected token in JSON")
  end.

(** Evaluating an identifier that no scope declares. *)
Definition undeclared (name : string) : M string :=
  throw (ReferenceError (name ++ " is not defined")).

(** [getCachedResult(key, type)]. The [return] inside the Redis branch
    leaves the function: [hit] carries it out of the branch. *)
Definition getCachedResult (key type : string) : M JSON :=
  try_catch
    (await r := this_redis in
     await hit :=
       match r with
       | Some _ =>
           await redisResult := redis_get key in
           match redisResult with
           | Some text =>
               if string_truthy text then
                 await v := JSON_parse_or_throw text in
                 ret (Some v)
               else ret None
           | None => ret None
           end
       | None => ret None
       end in
     match hit with
     | Some v => ret v
     | None =>
         await date := Date_now in
         await dbResult := aICache_findFirst key type date in
         match dbResult with
         | Some row =>
             await r' := this_redis in
             await_ match r' with
                    | Some _ => redis_setex key (Some 3600)
                                  (JSON_stringify (row_result row))
                    | None => ret tt
                    end in
             ret (row_result row)
         | None => ret JNull
         end
     end)
    (fun error =>
       await_ console_error "Cache retrieval failed:" in
       ret JNull).

(** A time value: [Date.now()] and every valid [Date] lie within
    8.64e15 milliseconds of the epoch. *)
Definition max_time : Z := 8640000000000000.

Definition valid_time (t : Z) : bool := (Z.abs t <=? max_time)%Z.

(** [new Date(value)]: an invalid [Date] ([None]) for [NaN] and for a value
    beyond the range of time values. Numbers are integers here: with the
    clock a time value, the sum [Date.now() + ttl * 1000] is a valid date in
    exact arithmetic exactly when the doubles of the code give one, and
    then with the same value. *)
Definition new_Date (value : option Z) : option Z :=
  match value with
  | Some t => if valid_time t then Some t else None
  | None => None
  end.

(** [cacheResult(key, type, result)] *)
Definition cacheResult (key type : string) (result : JSON) : M unit :=
  await text := getEnvVar "AI_CACHE_TTL" (Some "3600") in
  let ttl := parseInt text in
  await date := Date_now in
  let expiresAt := new_Date (option_map (fun s => date + s * 1000) ttl) in
  try_catch
    (await r := this_redis in
     await_ match r with
            | Some _ => redis_setex key ttl (JSON_stringify result)
            | None => ret tt
            end in
     aICache_upsert key result type expiresAt)
    (fun error => console_error "Cache storage failed:").

Definition neutral_sentiment : JSON :=
  JObj [("score", JNum 0 0); ("label", JStr "neutral");
        ("confidence", JNum 0 0); ("emotions", JArr [])].

(** [analyzeSentiment(content)]. The function declares no [cacheKey]. *)
Definition analyzeSentiment (content : string) : M JSON :=
  await client := this_openai in
  match client with
  | None =>
      await_ console_warn "OpenAI not available, returning neutral sentiment" in
      ret neutral_sentiment
  | Some _ =>
      try_catch
        (await response := chat_completions_create "sentiment" content in
         await result := JSON_parse_or_throw (or_default response "{}") in
         await cacheKey := undeclared "cacheKey" in
         await_ cacheResult cacheKey "sentiment" result in
         ret result)
        (fun error =>
           await_ console_error "Sentiment analysis failed:" in
           throw (AppError "Failed to analyze sentiment" 500))
  end.

(** [generateTags(content)]. The function declares no [cacheKey]. *)
Definition generateTags (content : string) : M JSON :=
  await client := this_openai in
  match client with
  | None =>
      await_ console_warn "OpenAI not available, returning empty tags" in
      ret (JArr [])
  | Some _ =>
      try_catch
        (await response := chat_completions_create "tags" content in
         await result := JSON_parse_or_throw (or_default response "[]") in
         await cacheKey := undeclared "cacheKey" in
         await_ cacheResult cacheKey "tags" result in
         ret result)
        (fun error =>
           await_ console_error "Tag generation failed:" in
           throw (AppError "Failed to generate tags" 500))
  end.

(** [generateSummary(content)] *)
Definition generateSummary (content : string) : M JSON :=
  let cacheKey := generateCacheKey content "summary" in
  await cached := getCachedResult cacheKey "summary" in
  if truthy cached then ret cached
  else
    try_catch
      (await response := chat_completions_create "summary" content in
       let result := JStr (or_default response "") in
       await_ cacheResult cacheKey "summary" result in
       ret result)
      (fun error =>
         await_ console_error "Summary generation failed:" in
         throw (AppError "Failed to generate summary" 500)).

End AIService.

(** ** services/database.ts: [DatabaseService] *)

(** [cleanupExpiredCache()], with the probe of the table before the delete. *)
Definition cleanupExpiredCache : M unit :=
  try_catch
    (await_ queryRaw_probe_ai_cache in
     await date := Date_now in
     await count := aICache_deleteMany_lt date in
     if (0 <? count)%nat
     then console_log ("Cleaned up " ++ pretty count ++ " expired cache entries")
     else ret tt)
    (fun error =>
       if includes "does not exist" (error_message error)
       then console_log "AI cache table not yet created, skipping cleanup"
       else console_error "Cache cleanup failed:").

(** The second copy of the service, without the probe. *)
Definition cleanupExpiredCache_unprobed : M unit :=
  try_catch
    (await date := Date_now in
     await count := aICache_deleteMany_lt date in
     if (0 <? count)%nat
     then console_log ("Cleaned up " ++ pretty count ++ " expired cache entries")
     else ret tt)
    (fun error => console_error "Cache cleanup failed:").

(** The callback that [startServer] hands to [setInterval]. *)
Definition scheduledCleanup : M unit :=
  try_catch cleanupExpiredCache
    (fun error => console_error "Scheduled cache cleanup failed:").

(** ** routes/entries.ts: [processAIAnalysis] *)

(** The three methods of the [ai] singleton that the route calls. *)
Record AnalysisService : Type := {
  svc_analyzeSentiment : string -> M JSON;
  svc_generateTags : string -> M JSON;
  svc_generateSummary : string -> M JSON;
}.

Definition AIService_getInstance {js : JSBuiltins} : AnalysisService :=
  {| svc_analyzeSentiment := analyzeSentiment;
     svc_generateTags := generateTags;
     svc_generateSummary := generateSummary |}.

(** [Promise.all([p1, p2, p3])]: the three calls are all started and each
    runs to its end whatever the others do; the result is the triple of
    values, or the rejection of the first call that failed. The calls are
    run in array order and the result is taken once the three have
    settled: [Promise.all] hands a rejection over as soon as it occurs,
    so the lines that the caller and the remaining calls write to the
    console may come in another order than here. *)
Definition Promise_all3 {A B C} (p1 : M A) (p2 : M B) (p3 : M C) : M (A * B * C) :=
  fun w =>
    let '(r1, w1) := p1 w in
    let '(r2, w2) := p2 w1 in
    let '(r3, w3) := p3 w2 in
    match r1, r2, r3 with
    | Returned a, Returned b, Returned c => (Returned (a, b, c), w3)
    | Thrown e, _, _ => (Thrown e, w3)
    | _, Thrown e, _ => (Thrown e, w3)
    | _, _, Thrown e => (Thrown e, w3)
    end.

Definition processAIAnalysis_with (ai : AnalysisService) (entryId content : string)
  : M unit :=
  try_catch
    (await results := Promise_all3 (svc_analyzeSentiment ai content)
                                   (svc_generateTags ai content)
                                   (svc_generateSummary ai content) in
     let '(sentiment, tags, summary) := results in
     await_ diaryEntry_update entryId sentiment tags summary in
     console_log ("AI analysis completed for entry: " ++ entryId))
    (fun error => console_error ("AI analysis failed for entry: " ++ entryId)).

Definition processAIAnalysis {js : JSBuiltins} : string -> string -> M unit :=
  processAIAnalysis_with AIService_getInstance.

(** ** Reference built-ins

    An executable [JSON.stringify] (compact output), [JSON.parse] (the same
    compact grammar) and [parseInt], on which the model is run at concrete
    inputs. *)

Module Reference.

Definition dquote : ascii := "034"%char.
Definition backslash : ascii := "092"%char.

Fixpoint escape (s : string) : string :=
  match s with
  | EmptyString => EmptyString
  | String c rest =>
      if Ascii.eqb c dquote || Ascii.eqb c backslash
      then String backslash (String c (escape rest))
      else String c (escape rest)
  end.

Definition quote (s : string) : string :=
  String dquote (escape s ++ String dquote EmptyString).

Fixpoint stringify (v : JSON) : string :=
  match v with
  | JNull => "null"
  | JBool true => "true"
  | JBool false => "false"
  | JNum m e => if (e =? 0)%Z then pretty m else pretty m ++ "e" ++ pretty e
  | JStr s => quote s
  | JArr items =>
      "[" ++ (fix go (l : list JSON) : string :=
                match l with
                | [] => ""
                | [x] => stringify x
                | x :: rest => stringify x ++ "," ++ go rest
                end) items ++ "]"
  | JObj fields =>
      "{" ++ (fix go (l : list (string * JSON)) : string :=
                match l with
                | [] => ""
                | [(k, x)] => quote k ++ ":" ++ stringify x
                | (k, x) :: rest => quote k ++ ":" ++ stringify x ++ "," ++ go rest
                end) fields ++ "}"
  end.

Definition digit_of (c : ascii) : option Z :=
  let n := Z.of_N (N_of_ascii c) in
  if (48 <=? n)%Z && (n <=? 57)%Z then Some (n - 48) else None.

(** The longest prefix of decimal digits, read into [acc]. *)
Fixpoint digits (s : string) (acc : Z) (seen : bool) : Z * bool * string :=
  match s with
  | EmptyString => (acc, seen, s)
  | String c rest =>
      match digit_of c with
      | Some d => digits rest (10 * acc + d) true
      | None => (acc, seen, s)
      end
  end.

Definition signed (s : string) : option (Z * string) :=
  let '(negative, body) :=
    match s with
    | String "-"%char rest => (true, rest)
    | _ => (false, s)
    end in
  match digits body 0 false with
  | (n, true, rest) => Some (if negative : bool then - n else n, rest)
  | (_, false, _) => None
  end.

Definition number (s : string) : option (JSON * string) :=
  match signed s with
  | Some (m, String "e"%char rest) =>
      match signed rest with
      | Some (e, rest') => Some (JNum m e, rest')
      | None => None
      end
  | Some (m, rest) => Some (JNum m 0, rest)
  | None => None
  end.

(** The body of a string literal, up to its closing quote. *)
Fixpoint string_body (s : string) : option (string * string) :=
  match s with
  | EmptyString => None
  | String c rest =>
      if Ascii.eqb c dquote then Some (EmptyString, rest)
      else if Ascii.eqb c backslash then
        match rest with
        | String c' rest' =>
            match string_body rest' with
            | Some (body, tail) => Some (String c' body, tail)
            | None => None
            end
        | EmptyString => None
        end
      else
        match string_body rest with
        | Some (body, tail) => Some (String c body, tail)
        | None => None
        end
  end.

Definition keyword (word : string) (v : JSON) (s : string) : option (JSON * string) :=
  if String.prefix word s
  then Some (v, String.substring (String.length word)
                                 (String.length s - String.length word) s)
  else None.

Fixpoint value (fuel : nat) (s : string) : option (JSON * string) :=
  match fuel with
  | O => None
  | S fuel' =>
      match s with
      | String "n"%char _ => keyword "null" JNull s
      | String "t"%char _ => keyword "true" (JBool true) s
      | String "f"%char _ => keyword "false" (JBool false) s
      | String "["%char (String "]"%char rest) => Some (JArr [], rest)
      | String "["%char rest =>
          match items fuel' rest with
          | Some (l, rest') => Some (JArr l, rest')
          | None => None
          end
      | String "{"%char (String "}"%char rest) => Some (JObj [], rest)
      | String "{"%char rest =>
          match members fuel' rest with
          | Some (l, rest') => Some (JObj l, rest')
          | None => None
          end
      | String c rest =>
          if Ascii.eqb c dquote then
            match string_body rest with
            | Some (body, tail) => Some (JStr body, tail)
            | None => None
            end
          else number s
      | EmptyString => None
      end
  end
with items (fuel : nat) (s : string) : option (list JSON * string) :=
  match fuel with
  | O => None
  | S fuel' =>
      match value fuel' s with
      | Some (v, String ","%char rest) =>
          match items fuel' rest with
          | Some (l, rest') => Some (v :: l, rest')
          | None => None
          end
      | Some (v, String "]"%char rest) => Some ([v], rest)
      | _ => None
      end
  end
with members (fuel : nat) (s : string) : option (list (string * JSON) * string) :=
  match fuel with
  | O => None
  | S fuel' =>
      match s with
      | String c rest =>
          if Ascii.eqb c dquote then
            match string_body rest with
            | Some (k, String ":"%char rest1) =>
                match value fuel' rest1 with
                | Some (v, String ","%char rest2) =>
                    match members fuel' rest2 with
                    | Some (l, rest') => Some ((k, v) :: l, rest')
                    | None => None
                    end
                | Some (v, String "}"%char rest2) => Some ([(k, v)], rest2)
                | _ => None
                end
            | _ => None
            end
          else None
      | EmptyString => None
      end
  end.

Definition parse (s : string) : option JSON :=
  match value (S (String.length s)) s with
  | Some (v, EmptyString) => Some v
  | _ => None
  end.

Definition is_space (c : ascii) : bool :=
  let n := N_of_ascii c in ((9 <=? n)%N && (n <=? 13)%N) || (n =? 32)%N.

Fixpoint skip_spaces (s : string) : string :=
  match s with
  | String c rest => if is_space c then skip_spaces rest else s
  | EmptyString => s
  end.

Definition hex_digit_of (c : ascii) : option Z :=
  let n := Z.of_N (N_of_ascii c) in
  if (48 <=? n)%Z && (n <=? 57)%Z then Some (n - 48)
  else if (97 <=? n)%Z && (n <=? 102)%Z then Some (n - 87)
  else if (65 <=? n)%Z && (n <=? 70)%Z then Some (n - 55)
  else None.

Fixpoint hex_digits (s : string) (acc : Z) (seen : bool) : Z * bool :=
  match s with
  | EmptyString => (acc, seen)
  | String c rest =>
      match hex_digit_of c with
      | Some d => hex_digits rest (16 * acc + d) true
      | None => (acc, seen)
      end
  end.

(** [parseInt(text)] without a radix: leading white space, a sign, then
    the longest run of digits, hexadecimal after [0x] or [0X] and decimal
    otherwise; [NaN] when there is no digit. *)
Definition parse_int (s : string) : option Z :=
  let body := skip_spaces s in
  let '(negative, body) :=
    match body with
    | String "-"%char rest => (true, rest)
    | String "+"%char rest => (false, rest)
    | _ => (false, body)
    end in
  let '(n, seen) :=
    match body with
    | String "0"%char (String "x"%char rest)
    | String "0"%char (String "X"%char rest) => hex_digits rest 0 false
    | _ => let '(n, seen, _) := digits body 0 false in (n, seen)
    end in
  if seen : bool then Some (if negative : bool then - n else n) else None.

#[export] Instance builtins : JSBuiltins :=
  {| JSON_stringify := stringify; JSON_parse := parse; parseInt := parse_int |}.

End Reference.

(** ** Claims of the specification, as predicates on the model *)

(** A character of a lower-case hexadecimal rendering. *)
Definition is_lower_hex (c : ascii) : bool :=
  let n := N_of_ascii c in
  ((48 <=? n)%N && (n <=? 57)%N) || ((97 <=? n)%N && (n <=? 102)%N).

Fixpoint string_forall (p : ascii -> bool) (s : string) : bool :=
  match s with
  | EmptyString => true
  | String c rest => p c && string_forall p rest
  end.

(** A kind without a colon, as the three kinds of the service are. *)
Definition colon_free (s : string) : bool :=
  string_forall (fun c => negb (Ascii.eqb c ":"%char)) s.

(** Contents whose text [sentiment:content] is 55 and 56 bytes long: the
    longest that is hashed in one block and the shortest that needs two. *)
Definition one_block_content : string :=
  "aaaaaaaaaaaaaaaaaaaaaaaaaaaaaaaaaaaaaaaaaaaaa".
Definition two_block_content : string :=
  "aaaaaaaaaaaaaaaaaaaaaaaaaaaaaaaaaaaaaaaaaaaaaa".
Definition long_content : string :=
  "Had a great day at the park with the whole family, and then we walked home along the river.".

Definition result_of {A} (m : M A) (w : World) : Outcome A := fst (m w).
Definition world_after {A} (m : M A) (w : World) : World := snd (m w).

(** The stores a call may touch, leaving the console aside. *)
Definition same_stores (w w' : World) : Prop :=
  redis w' = redis w /\ ai_cache w' = ai_cache w /\
  diary_entries w' = diary_entries w /\ provider_calls w' = provider_calls w.

(** The text Redis would hand back for [key] right now. *)
Definition volatile_text (w : World) (key : string) : option string :=
  match redis w with
  | Some c => redis_lookup c key (now w)
  | None => None
  end.

(** The row the durable tier holds for [key], whatever its expiry. *)
Definition durable_row (w : World) (key : string) : option AICacheRow :=
  match ai_cache w with
  | Some rows => rows !! key
  | None => None
  end.

(** ** Scenarios *)

Definition healthy_redis : RedisClient :=
  {| redis_data := ∅; redis_reads_ok := true; redis_writes_ok := true |}.

(** A client whose server refuses writes (read-only replica, memory full). *)
Definition write_refusing_redis : RedisClient :=
  {| redis_data := ∅; redis_reads_ok := true; redis_writes_ok := false |}.

(** A client whose server cannot be reached. *)
Definition unreachable_redis : RedisClient :=
  {| redis_data := ∅; redis_reads_ok := false; redis_writes_ok := false |}.

Definition fresh_entry : DiaryEntry :=
  {| title := "Monday"; entry_content := "Had a great day at the park";
     userId := "u1"; aiSentiment := None; aiTags := None; aiSummary := None |}.

(** A process without provider credential, an empty cache, one new entry. *)
Definition unconfigured : World :=
  {| openai := None; redis := Some healthy_redis; db_up := true;
     ai_cache := Some ∅; diary_entries := {[ "e1" := fresh_entry ]};
     process_env := ∅; now := 0; console := []; provider_calls := [] |}.

(** A provider that answers every request with well-formed content. *)
Definition obliging_provider : Provider :=
  fun kind content =>
    if String.eqb kind "sentiment" then
      Completed (Some (Reference.stringify
                         (JObj [("score", JNum 1 0); ("label", JStr "positive");
                                ("confidence", JNum 1 0); ("emotions", JArr [])])))
    else if String.eqb kind "tags" then
      Completed (Some (Reference.stringify (JArr [JStr "park"; JStr "happy"])))
    else Completed (Some "A happy day outdoors.").

Definition configured : World :=
  {| openai := Some obliging_provider; redis := Some healthy_redis; db_up := true;
     ai_cache := Some ∅; diary_entries := {[ "e1" := fresh_entry ]};
     process_env := ∅; now := 0; console := []; provider_calls := [] |}.

(** A process without volatile client whose time to live, 9e12 seconds,
    puts every expiry beyond the range of dates. *)
Definition beyond_dates : World :=
  {| openai := None; redis := None; db_up := true; ai_cache := Some ∅;
     diary_entries := {[ "e1" := fresh_entry ]};
     process_env := {[ "AI_CACHE_TTL" := "9000000000000" ]};
     now := 0; console := []; provider_calls := [] |}.

Definition park_key : string := generateCacheKey "Had a great day at the park" "tags".
Definition park_tags : JSON := JArr [JStr "park"; JStr "happy"].

(** The world a failed cache operation leaves: nothing but a line on the
    error console. *)
Definition logged_error (msg : string) (w : World) : World :=
  set_console (console w ++ [(LogError, msg)]) w.

(** The volatile tier has nothing to return for [key]: no client, no entry,
    an entry past its expiry, or an empty text. *)
Definition volatile_misses (w : World) (key : string) : Prop :=
  opt_truthy (volatile_text w key) = false.

(** The volatile tier cannot be read: no client, or a client whose reads are
    rejected. *)
Definition volatile_unavailable (w : World) : Prop :=
  match redis w with
  | Some c => redis_reads_ok c = false
  | None => True
  end.

(** The durable tier answers and holds an unexpired [row] for [key], [type]. *)
Definition durable_live (w : World) (key type : string) (row : AICacheRow) : Prop :=
  db_up w = true /\ durable_row w key = Some row /\
  row_type row = type /\ (now w < row_expiresAt row)%Z.

Definition park_row : AICacheRow :=
  {| row_result := park_tags; row_type := "tags"; row_expiresAt := 3600000 |}.

(** One second after the tags of the park entry were stored in the durable
    tier alone; [r] is the volatile client of the process. *)
Definition warm_durable (r : option RedisClient) : World :=
  {| openai := None; redis := r; db_up := true;
     ai_cache := Some {[ park_key := park_row ]};
     diary_entries := {[ "e1" := fresh_entry ]};
     process_env := ∅; now := 1000; console := []; provider_calls := [] |}.

Section ClaimsAsStated.
Context {js : JSBuiltins}.

(** The time to live that [cacheResult] reads from the environment. *)
Definition cache_ttl (w : World) : option Z :=
  parseInt (or_default (process_env w !! "AI_CACHE_TTL") "3600").

(** Section 4.2, [get] on a durable hit, as the specification words it:
    whenever the volatile tier misses or is unavailable and the durable
    tier holds an unexpired row, that row's result is returned, also when
    the repopulation write fails. *)
Definition durable_hit_returns_row (w : World) (key type : string) : Prop :=
  forall row,
    durable_live w key type row ->
    volatile_misses w key \/ volatile_unavailable w ->
    result_of (getCachedResult key type) w = Returned (row_result row).

(** Section 4.2, [put], as worded: whatever happens to the volatile write,
    the call returns and the durable tier holds the row with
    [expiresAt = now + ttl]. *)
Definition put_always_upserts (w : World) (key type : string) (result : JSON)
  : Prop :=
  forall ttl,
    db_up w = true -> is_Some (ai_cache w) ->
    cache_ttl w = Some ttl ->
    result_of (cacheResult key type result) w = Returned tt
    /\ durable_row (world_after (cacheResult key type result) w) key
       = Some {| row_result := result; row_type := type;
                 row_expiresAt := now w + ttl * 1000 |}.

(** Section 8, round trip, as worded: a [put] followed by a [get] before
    [ttl] seconds have passed returns the written result, whatever the
    state of the volatile tier. *)
Definition put_get_round_trip (w : World) (key type : string) (result : JSON)
  : Prop :=
  forall ttl elapsed,
    db_up w = true -> is_Some (ai_cache w) ->
    cache_ttl w = Some ttl ->
    (0 < ttl)%Z -> (0 <= elapsed < ttl * 1000)%Z ->
    result_of (getCachedResult key type)
              (advance elapsed (world_after (cacheResult key type result) w))
    = Returned result.

(** Section 8, expiry, first half as worded: a durable row whose
    [expiresAt] is in the past is never returned by [get]. *)
Definition expired_row_never_returned (w : World) (key type : string) : Prop :=
  forall row,
    durable_row w key = Some row -> (row_expiresAt row < now w)%Z ->
    result_of (getCachedResult key type) w = Returned JNull.

End ClaimsAsStated.

(** Section 4.2, [sweep], as worded: after a sweep on a reachable table no
    row with [expiresAt <= now] is left. *)
Definition sweep_deletes_up_to_now (w : World) : Prop :=
  db_up w = true -> is_Some (ai_cache w) ->
  forall key row,
    durable_row (world_after cleanupExpiredCache w) key = Some row ->
    (now w < row_expiresAt row)%Z.

(** The tags of the park entry are cached in both tiers; Redis restarts and
    loses them; one second before the durable row expires a lookup
    repopulates the volatile tier; two seconds later the durable row is past
    its expiry. *)
Definition stale_volatile : World :=
  let stored :=
    world_after (cacheResult (js := Reference.builtins) park_key "tags" park_tags)
                unconfigured in
  let restarted := set_redis (Some healthy_redis) stored in
  let looked_up :=
    world_after (getCachedResult (js := Reference.builtins) park_key "tags")
                (advance 3599000 restarted) in
  advance 2000 looked_up.

(** The instant at which the durable row of [warm_durable] expires. *)
Definition at_expiry : World := advance 3599000 (warm_durable None).

Definition park_content : string := "Had a great day at the park".

Definition park_sentiment : JSON :=
  JObj [("score", JNum 1 0); ("label", JStr "positive");
        ("confidence", JNum 1 0); ("emotions", JArr [])].

(** A configured process whose two cache tiers already hold the sentiment
    of the park entry. *)
Definition cached_sentiment : World :=
  world_after (cacheResult (js := Reference.builtins)
                 (generateCacheKey park_content "sentiment") "sentiment"
                 park_sentiment)
              configured.

(** A configured process whose two cache tiers hold a summary of the park
    entry. *)
Definition cached_summary : World :=
  world_after (cacheResult (js := Reference.builtins)
                 (generateCacheKey park_content "summary") "summary"
                 (JStr "A happy day outdoors."))
              configured.

(** ** The enrichment pass *)

(** The three analyses of one pass, each run to its end, in array order,
    with the world they leave. *)
Definition settled (ai : AnalysisService) (content : string) (w : World)
  : Outcome JSON * Outcome JSON * Outcome JSON * World :=
  let '(r1, w1) := svc_analyzeSentiment ai content w in
  let '(r2, w2) := svc_generateTags ai content w1 in
  let '(r3, w3) := svc_generateSummary ai content w2 in
  (r1, r2, r3, w3).

(** The entry after a single update that sets the three fields. *)
Definition enriched (e : DiaryEntry) (sentiment : JSON) (tags : list string)
    (summary : string) : DiaryEntry :=
  {| title := title e; entry_content := entry_content e; userId := userId e;
     aiSentiment := Some sentiment; aiTags := Some tags; aiSummary := Some summary |}.

(** Section 4.3 as worded: after the pass the entry carries exactly the
    fields whose analysis succeeded, the others keep their previous value. *)
Definition persists_exactly_succeeded (ai : AnalysisService) (w : World)
    (entryId content : string) : Prop :=
  forall e,
    diary_entries w !! entryId = Some e ->
    let '(r1, r2, r3, _) := settled ai content w in
    exists e',
      diary_entries (world_after (processAIAnalysis_with ai entryId content) w)
        !! entryId = Some e'
      /\ aiSentiment e' = match r1 with
                          | Returned s => Some s
                          | Thrown _ => aiSentiment e
                          end
      /\ aiTags e' = match r2 with
                     | Returned t => as_string_array t
                     | Thrown _ => aiTags e
                     end
      /\ aiSummary e' = match r3 with
                        | Returned m => as_string m
                        | Thrown _ => aiSummary e
                        end.

(** A service whose [generateTags] fails while the two other analyses
    succeed. *)
Definition tags_failing_service : AnalysisService :=
  {| svc_analyzeSentiment := fun _ => ret park_sentiment;
     svc_generateTags := fun _ => throw (AppError "Failed to generate tags" 500);
     svc_generateSummary := fun _ => ret (JStr "A happy day outdoors.") |}.

(** A process without credential whose cache holds a summary of the park
    entry (written while a credential was configured). *)
Definition unconfigured_with_summary : World :=
  {| openai := None; redis := redis cached_summary; db_up := true;
     ai_cache := ai_cache cached_summary;
     diary_entries := diary_entries cached_summary;
     process_env := ∅; now := 1000; console := []; provider_calls := [] |}.

(** ** What the cache operations amount to *)

(** The rows the sweep keeps: those that do not expire before [date]. *)
Definition swept (date : Z) (rows : gmap string AICacheRow) : gmap string AICacheRow :=
  filter (fun kv => ¬ (row_expiresAt kv.2 < date)%Z) rows.

Section Effects.
Context {js : JSBuiltins}.

(** The second tier on its own: what the lookup does once the volatile
    tier has been passed. *)
Definition durable_phase (key type : string) (w : World) : Outcome JSON * World :=
  if db_up w then
    match ai_cache w with
    | Some rows =>
        match rows !! key with
        | Some row =>
            if String.eqb (row_type row) type && (now w <? row_expiresAt row)%Z then
              match redis w with
              | Some c =>
                  if redis_writes_ok c then
                    (Returned (row_result row),
                     set_redis (Some (redis_after_setex c key 3600 (now w)
                                        (JSON_stringify (row_result row)))) w)
                  else (Returned JNull, logged_error "Cache retrieval failed:" w)
              | None => (Returned (row_result row), w)
              end
            else (Returned JNull, w)
        | None => (Returned JNull, w)
        end
    | None => (Returned JNull, logged_error "Cache retrieval failed:" w)
    end
  else (Returned JNull, logged_error "Cache retrieval failed:" w).

Definition stored_row (w : World) (type : string) (result : JSON) (ttl : Z)
  : AICacheRow :=
  {| row_result := result; row_type := type; row_expiresAt := now w + ttl * 1000 |}.

(** The world one [cacheResult] leaves behind. *)
Definition after_put (key type : string) (result : JSON) (w : World) : World :=
  let failed := logged_error "Cache storage failed:" in
  let upsert (ttl : option Z) (w1 : World) : World :=
    if db_up w then
      match ai_cache w, ttl with
      | Some rows, Some s =>
          if valid_time (now w + s * 1000)
          then set_ai_cache (Some (<[key := stored_row w type result s]> rows)) w1
          else failed w1
      | _, _ => failed w1
      end
    else failed w1 in
  match redis w with
  | Some c =>
      match cache_ttl w with
      | Some s =>
          if redis_writes_ok c && (0 <? s)%Z then
            upsert (Some s)
              (set_redis (Some (redis_after_setex c key s (now w)
                                  (JSON_stringify result))) w)
          else failed w
      | None => failed w
      end
  | None => upsert (cache_ttl w) w
  end.

(** The world once the volatile write of a [cacheResult] has been made:
    unchanged when the process has no client. *)
Definition after_volatile_put (key : string) (result : JSON) (w : World) : World :=
  match redis w, cache_ttl w with
  | Some c, Some s =>
      set_redis (Some (redis_after_setex c key s (now w) (JSON_stringify result))) w
  | _, _ => w
  end.

(** The volatile write does not stop the call: there is no client, or the
    client accepts the write and the time to live is positive. *)
Definition volatile_write_passes (w : World) : Prop :=
  match redis w with
  | Some c => redis_writes_ok c = true /\ exists s, cache_ttl w = Some s /\ (0 < s)%Z
  | None => True
  end.

(** The durable write fails: the database cannot be reached, the table is
    missing, or the expiry is not a valid date. *)
Definition durable_write_fails (w : World) : Prop :=
  db_up w = false \/ ai_cache w = None
  \/ new_Date (option_map (fun s => now w + s * 1000)%Z (cache_ttl w)) = None.

End Effects.

(** * Further code: utilities, routes, authentication, error handling, start

    Beyond the cache and the enrichment flow, this part embeds

      - [truncateText], [sanitizeText], [calculatePagination],
        [createPaginationResponse]                 (backend/src/utils/helpers.ts)
      - [assistWriting]                             (backend/src/services/ai.ts)
      - the routes of                               backend/src/routes/ai.ts
      - [errorHandler], [notFoundHandler]           (middleware/errorHandler.ts)
      - [connect], [healthCheck]                    (services/database.ts)
      - [GET /health], [startServer]                (index.ts)
      - [verifyToken], [generateToken]              (backend/src/utils/helpers.ts)
      - [authenticateToken], [optionalAuth]         (middleware/auth.ts)
      - [GET /me], [POST /refresh], [POST /login]   (routes/auth.ts)
      - [GET], [POST], [PUT], [DELETE] of one entry (backend/src/routes/entries.ts) *)

(** ** utils/helpers.ts: text and pagination utilities

    For these functions a JavaScript string is the sequence of its UTF-16
    code units: [length], [substring], [trim] and the class [\s] of a
    regular expression all work on code units. *)

Definition Text : Type := list N.

(** White space and line terminators of ECMAScript: what [trim] removes and
    [\s] matches. *)
Definition is_white (u : N) : bool :=
  ((9 <=? u) && (u <=? 13) || (u =? 32) || (u =? 160) || (u =? 0x1680)
   || (0x2000 <=? u) && (u <=? 0x200A) || (u =? 0x2028) || (u =? 0x2029)
   || (u =? 0x202F) || (u =? 0x205F) || (u =? 0x3000) || (u =? 0xFEFF))%N.

Arguments is_white : simpl never.

Definition space : N := 32%N.
Definition ellipsis : Text := [46; 46; 46]%N.

(** [text.substring(0, end)]: [end] is clamped to [0 .. text.length]. *)
Definition substring_from_start (text : Text) (stop : Z) : Text :=
  firstn (Z.to_nat stop) text.

(** [truncateText(text, maxLength)] *)
Definition truncateText (text : Text) (maxLength : Z) : Text :=
  if (Z.of_nat (length text) <=? maxLength)%Z then text
  else (substring_from_start text (maxLength - 3) ++ ellipsis)%list.

Fixpoint trimStart (text : Text) : Text :=
  match text with
  | u :: rest => if is_white u then trimStart rest else text
  | [] => []
  end.

(** [text.trimEnd()]: the units up to the last one that is not white. *)
Fixpoint trimEnd (text : Text) : Text :=
  match text with
  | [] => []
  | u :: rest =>
      match trimEnd rest with
      | [] => if is_white u then [] else [u]
      | kept => u :: kept
      end
  end.

(** [text.trim()] *)
Definition trim (text : Text) : Text := trimEnd (trimStart text).

(** [text.replace(/\s+/g, ' ')]: every maximal run of white space becomes
    one space; [in_run] tells that the previous unit was white. *)
Fixpoint collapse_runs (in_run : bool) (text : Text) : Text :=
  match text with
  | [] => []
  | u :: rest =>
      if is_white u then
        if in_run then collapse_runs true rest else space :: collapse_runs true rest
      else u :: collapse_runs false rest
  end.

(** [sanitizeText(text)] *)
Definition sanitizeText (text : Text) : Text := collapse_runs false (trim text).

(** A text in the form [sanitizeText] produces: no white space at either
    end, and inside only single spaces. [after_white] tells that the
    previous unit was white, or that the text starts here. *)
Fixpoint single_spaced (after_white : bool) (text : Text) : bool :=
  match text with
  | [] => negb after_white
  | u :: rest =>
      if is_white u then (u =? space)%N && negb after_white && single_spaced true rest
      else single_spaced false rest
  end.

Definition sanitized (text : Text) : bool :=
  match text with
  | [] => true
  | _ :: _ => single_spaced true text
  end.

(** The units of a text that are not white space. *)
Definition ink (text : Text) : Text :=
  List.filter (fun u => negb (is_white u)) text.

(** The last unit of [text] is not white; for an empty [text], [a] tells
    whether the unit before it was. *)
Fixpoint ends_ink (a : bool) (text : Text) : bool :=
  match text with
  | [] => negb a
  | u :: rest => ends_ink (is_white u) rest
  end.

(** ** Pagination *)

(** Numbers are integers here. The code computes with doubles: its sums,
    differences and products are exact as long as operands and result are
    safe integers (at most [2^53 - 1] in absolute value), and for safe
    integers [Math.ceil(a / b)] is the exact ceiling of the quotient. The
    theorems below assume that range; beyond it the doubles round and the
    functions of this section no longer give the values of the code. *)
Definition max_safe_integer : Z := 2 ^ 53 - 1.

Definition safe_integer (n : Z) : Prop :=
  - max_safe_integer <= n <= max_safe_integer.

(** The value of a division or of [Math.ceil] applied to it. *)
Inductive JSNumber : Type :=
  | Finite (z : Z)
  | PlusInfinity
  | MinusInfinity
  | NotANumber.

(** [Math.ceil(a / b)] on safe integers *)
Definition Math_ceil_div (a b : Z) : JSNumber :=
  if (b =? 0)%Z then
    if (a =? 0)%Z then NotANumber
    else if (0 <? a)%Z then PlusInfinity else MinusInfinity
  else Finite (- ((- a) / b)).

(** [x < y] where [y] may not be finite *)
Definition lt_number (x : Z) (y : JSNumber) : bool :=
  match y with
  | Finite z => (x <? z)%Z
  | PlusInfinity => true
  | MinusInfinity | NotANumber => false
  end.

(** [calculatePagination(page = 1, limit = 10)]: a missing argument takes
    its default. The product is that of the code when it is a safe
    integer. *)
Definition calculatePagination (page limit : option Z) : Z * Z :=
  let page := default 1 page in
  let limit := default 10 limit in
  ((page - 1) * limit, limit).

Record PaginationResponse : Type := {
  pg_page : Z;
  pg_limit : Z;
  pg_total : Z;
  pg_totalPages : JSNumber;
  pg_hasNext : bool;
  pg_hasPrev : bool;
}.

(** [createPaginationResponse(page, limit, total)] *)
Definition createPaginationResponse (page limit total : Z) : PaginationResponse :=
  let totalPages := Math_ceil_div total limit in
  {| pg_page := page; pg_limit := limit; pg_total := total;
     pg_totalPages := totalPages;
     pg_hasNext := lt_number page totalPages;
     pg_hasPrev := (1 <? page)%Z |}.

(** [x || fallback] on a number that may be missing: [0] is falsy. *)
Definition number_or (x : option Z) (fallback : Z) : Z :=
  match x with
  | Some n => if (n =? 0)%Z then fallback else n
  | None => fallback
  end.

(** The window of [GET /api/entries]: [page], [limit], then
    [calculatePagination(page, limit)]. *)
Definition entries_window (query_page query_limit : option Z) : Z * Z * (Z * Z) :=
  let page := number_or query_page 1 in
  let limit := Z.min (number_or query_limit 10) 50 in
  (page, limit, calculatePagination (Some page) (Some limit)).

(** A query accepted by [getEntriesQuerySchema]: [page] missing or at
    least 1, [limit] missing or between 1 and 100. The model takes the
    integers among the numbers the schema admits. *)
Definition accepted_page (x : option Z) : Prop :=
  match x with Some n => 1 <= n | None => True end.

Definition accepted_limit (x : option Z) : Prop :=
  match x with Some n => 1 <= n <= 100 | None => True end.

(** ** HTTP: responses, errors on their way to the error handler *)

(** What [res.status(code).json(body)] sends. A body is a JSON value: the
    order of the keys of an object carries no meaning. *)
Record Response : Type := { res_status : Z; res_body : JSON }.

(** [object[name]] on a parsed JSON value: a property of an object, nothing
    on any other value. The keys of an object are distinct. *)
Fixpoint assoc_property (fields : list (string * JSON)) (name : string) : option JSON :=
  match fields with
  | [] => None
  | (k, v) :: rest => if String.eqb k name then Some v else assoc_property rest name
  end.

Definition get_property (v : JSON) (name : string) : option JSON :=
  match v with
  | JObj fields => assoc_property fields name
  | _ => None
  end.

(** An object literal whose [undefined] properties are left out, as
    [JSON.stringify] does. *)
Fixpoint object_of (fields : list (string * option JSON)) : list (string * JSON) :=
  match fields with
  | [] => []
  | (k, Some v) :: rest => (k, v) :: object_of rest
  | (_, None) :: rest => object_of rest
  end.

(** One issue of a [ZodError]: the path into the input and the message. *)
Record ZodIssue : Type := { issue_path : list string; issue_message : string }.

(** What a schema makes of an input: the parsed data or a [ZodError]. *)
Inductive Parsed (A : Type) : Type :=
  | Valid (data : A)
  | Invalid (issues : list ZodIssue).
Arguments Valid {A} data.
Arguments Invalid {A} issues.

(** The errors the error handler tells apart: by class ([ZodError],
    [AppError], through [Raised]) or by name. *)
Inductive RouteError : Type :=
  | ZodError (issues : list ZodIssue)
  | Raised (e : JSError)
  | PrismaClientKnownRequestError (code message : string)
  | JsonWebTokenError (message : string)
  | TokenExpiredError (message : string).

Definition route_error_message (e : RouteError) : string :=
  match e with
  | ZodError _ => "Validation failed"
  | Raised e => error_message e
  | PrismaClientKnownRequestError _ m | JsonWebTokenError m | TokenExpiredError m => m
  end.

Definition is_AppError (e : RouteError) : bool :=
  match e with Raised (AppError _ _) => true | _ => false end.

(** A route handler ends by sending a response or by calling [next(error)]. *)
Inductive Handled : Type :=
  | Responded (r : Response)
  | Next (e : RouteError).

Definition failure (status : Z) (message : string) : Response :=
  {| res_status := status;
     res_body := JObj [("success", JBool false); ("error", JStr message)] |}.

(** [path.join('.')] *)
Fixpoint join_dots (path : list string) : string :=
  match path with
  | [] => ""
  | [p] => p
  | p :: rest => p ++ "." ++ join_dots rest
  end.

(** ** middleware/errorHandler.ts *)

(** [errorHandler(error, req, res, next)] *)
Definition errorHandler (error : RouteError) : M Response :=
  await_ console_error "Error:" in
  match error with
  | ZodError issues =>
      ret {| res_status := 400;
             res_body :=
               JObj [("success", JBool false); ("error", JStr "Validation failed");
                     ("details",
                      JArr (map (fun i =>
                                   JObj [("field", JStr (join_dots (issue_path i)));
                                         ("message", JStr (issue_message i))])
                                issues))] |}
  | Raised (AppError message statusCode) => ret (failure statusCode message)
  | PrismaClientKnownRequestError code _ =>
      if String.eqb code "P2002"
      then ret (failure 409 "A record with this information already exists")
      else if String.eqb code "P2025"
      then ret (failure 404 "Record not found")
      else ret (failure 500 "Database error occurred")
  | JsonWebTokenError _ => ret (failure 401 "Invalid token")
  | TokenExpiredError _ => ret (failure 401 "Token expired")
  | Raised e =>
      fun w =>
        (Returned
           (failure 500
              (match process_env w !! "NODE_ENV" with
               | Some env => if String.eqb env "production"
                             then "Internal server error" else error_message e
               | None => error_message e
               end)), w)
  end.

(** [notFoundHandler(req, res, next)] *)
Definition notFoundHandler (method path : string) : Response :=
  failure 404 ("Route " ++ method ++ " " ++ path ++ " not found").

(** A route followed by [app.use(errorHandler)]: what the client receives. *)
Definition serve (route : M Handled) : M Response :=
  await outcome := route in
  match outcome with
  | Responded r => ret r
  | Next e => errorHandler e
  end.

(** ** services/ai.ts: [assistWriting] *)

Definition newline : string := String "010"%char EmptyString.

(** The request of [assistWriting]: its system message and its
    [max_tokens], a number [m * 10^e] as a request body carries it. *)
Definition writing_request (maxTokens : Z * Z) : string :=
  "writing-assist max_tokens=" ++ pretty (fst maxTokens) ++ "e" ++ pretty (snd maxTokens).

(** The message sent for a prompt and an optional context. *)
Definition writing_message (prompt : string) (context : option string) : string :=
  match context with
  | Some c =>
      if string_truthy c
      then "Context: " ++ c ++ newline ++ newline ++ "Prompt: " ++ prompt
      else prompt
  | None => prompt
  end.

Section Routes.
Context {js : JSBuiltins}.

(** [assistWriting(prompt, context?, maxTokens = 500)] *)
Definition assistWriting (prompt : string) (context : option string)
    (maxTokens : option (Z * Z)) : M JSON :=
  let maxTokens := default (500, 0) maxTokens in
  try_catch
    (let userMessage :=
       if opt_truthy context
       then "Context: " ++ or_default context "" ++ newline ++ newline
            ++ "Prompt: " ++ prompt
       else prompt in
     await response := chat_completions_create (writing_request maxTokens) userMessage in
     await result := JSON_parse_or_throw (or_default response "[]") in
     ret (match result with
          | JArr _ => result
          | _ => JArr [result]
          end))
    (fun error =>
       await_ console_error "Writing assistance failed:" in
       throw (AppError "Failed to provide writing assistance" 500)).

(** ** routes/ai.ts *)

(** The schemas of utils/validation.ts that the routes apply, as Zod
    evaluates them: any behaviour. *)
Class Schemas : Type := {
  aiAnalysisSchema : JSON -> Parsed (string * list string);
  writingAssistSchema : JSON -> Parsed (string * option string * option (Z * Z));
}.

Context {zod : Schemas}.

Definition success (data : JSON) (message : string) : Response :=
  {| res_status := 200;
     res_body := JObj [("success", JBool true); ("data", data);
                       ("message", JStr message)] |}.

(** [const { content } = req.body]: a [TypeError] when the body is [null]. *)
Definition destructure (body : JSON) (name : string) : M (option JSON) :=
  match body with
  | JNull => throw (TypeError "Cannot destructure property of null")
  | _ => ret (get_property body name)
  end.

(** [!content || typeof content !== 'string'] fails exactly on a string
    that is not empty. *)
Definition content_string (content : option JSON) : option string :=
  match content with
  | Some (JStr s) => if string_truthy s then Some s else None
  | _ => None
  end.

(** The three routes that run one analysis: [/sentiment], [/tags],
    [/summary]. *)
Definition single_analysis (analysis : string -> M JSON) (field message : string)
    (body : JSON) : M Handled :=
  try_catch
    (await content := destructure body "content" in
     match content_string content with
     | None =>
         ret (Responded (failure 400 "Content is required and must be a string"))
     | Some text =>
         await result := analysis text in
         ret (Responded (success (JObj [(field, result)]) message))
     end)
    (fun error => ret (Next (Raised error))).

Definition post_sentiment : JSON -> M Handled :=
  single_analysis analyzeSentiment "sentiment" "Sentiment analysis completed".
Definition post_tags : JSON -> M Handled :=
  single_analysis generateTags "tags" "Tags generated successfully".
Definition post_summary : JSON -> M Handled :=
  single_analysis generateSummary "summary" "Summary generated successfully".

(** [Promise.all(promises)] on a list: every promise runs to its end; the
    result is the list of values or the first rejection in list order. The
    promises are run in list order and the result is taken once all have
    settled: [Promise.all] hands a rejection over as soon as it occurs, so
    the response may be sent, and the error logged, before the lines of
    the analyses that are still running. *)
Fixpoint Promise_all {A} (promises : list (M A)) : M (list A) :=
  match promises with
  | [] => ret []
  | p :: rest =>
      fun w =>
        let '(r, w1) := p w in
        let '(rs, w2) := Promise_all rest w1 in
        (match r, rs with
         | Returned a, Returned l => Returned (a :: l)
         | Thrown e, _ => Thrown e
         | Returned _, Thrown e => Thrown e
         end, w2)
  end.

(** [AIAnalysisResponse]: the [results] object the callbacks fill. *)
Record AIAnalysisResponse : Type := {
  an_sentiment : option JSON;
  an_tags : option JSON;
  an_summary : option JSON;
}.

Definition no_results : AIAnalysisResponse :=
  {| an_sentiment := None; an_tags := None; an_summary := None |}.

Definition set_sentiment (v : JSON) (r : AIAnalysisResponse) : AIAnalysisResponse :=
  {| an_sentiment := Some v; an_tags := an_tags r; an_summary := an_summary r |}.
Definition set_tags (v : JSON) (r : AIAnalysisResponse) : AIAnalysisResponse :=
  {| an_sentiment := an_sentiment r; an_tags := Some v; an_summary := an_summary r |}.
Definition set_summary (v : JSON) (r : AIAnalysisResponse) : AIAnalysisResponse :=
  {| an_sentiment := an_sentiment r; an_tags := an_tags r; an_summary := Some v |}.

Definition results_json (r : AIAnalysisResponse) : JSON :=
  JObj (object_of [("sentiment", an_sentiment r); ("tags", an_tags r);
                   ("summary", an_summary r)]).

(** [features.includes(name)] *)
Definition includes_feature (features : list string) (name : string) : bool :=
  existsb (String.eqb name) features.

(** The promises pushed for the requested features; each resolves to the
    assignment its [then] callback makes on [results]. *)
Definition feature_promises (content : string) (features : list string)
  : list (M (AIAnalysisResponse -> AIAnalysisResponse)) :=
  (if includes_feature features "sentiment"
   then [await v := analyzeSentiment content in ret (set_sentiment v)] else [])
  ++ (if includes_feature features "tags"
      then [await v := generateTags content in ret (set_tags v)] else [])
  ++ (if includes_feature features "summary"
      then [await v := generateSummary content in ret (set_summary v)] else []).

(** [POST /analyze] *)
Definition post_analyze (body : JSON) : M Handled :=
  match aiAnalysisSchema body with
  | Invalid issues => ret (Next (ZodError issues))
  | Valid (content, features) =>
      try_catch
        (await assignments := Promise_all (feature_promises content features) in
         let results := fold_left (fun r assign => assign r) assignments no_results in
         ret (Responded (success (results_json results)
                           "AI analysis completed successfully")))
        (fun error => ret (Next (Raised error)))
  end.

(** [POST /writing-assist] *)
Definition post_writing_assist (body : JSON) : M Handled :=
  match writingAssistSchema body with
  | Invalid issues => ret (Next (ZodError issues))
  | Valid (prompt, context, maxTokens) =>
      try_catch
        (await suggestions := assistWriting prompt context maxTokens in
         ret (Responded (success (JObj [("suggestions", suggestions)])
                           "Writing assistance provided successfully")))
        (fun error => ret (Next (Raised error)))
  end.

End Routes.

(** ** Reference schemas

    An executable reading of [aiAnalysisSchema] and [writingAssistSchema]
    on which the routes are run at concrete inputs; lengths are counted in
    characters of the model. *)

Module ReferenceSchemas.

Definition issue (path : list string) (message : string) : ZodIssue :=
  {| issue_path := path; issue_message := message |}.

Definition length_within (lo hi : Z) (s : string) : bool :=
  (lo <=? Z.of_nat (String.length s))%Z && (Z.of_nat (String.length s) <=? hi)%Z.

Definition is_feature (v : JSON) : option string :=
  match v with
  | JStr s =>
      if String.eqb s "sentiment" || String.eqb s "tags" || String.eqb s "summary"
      then Some s else None
  | _ => None
  end.

Fixpoint features_of (items : list JSON) : option (list string) :=
  match items with
  | [] => Some []
  | v :: rest =>
      match is_feature v, features_of rest with
      | Some f, Some fs => Some (f :: fs)
      | _, _ => None
      end
  end.

Definition aiAnalysis (body : JSON) : Parsed (string * list string) :=
  match get_property body "content", get_property body "features" with
  | Some (JStr content), Some (JArr (first :: others)) =>
      if length_within 1 10000 content then
        match features_of (first :: others) with
        | Some features => Valid (content, features)
        | None => Invalid [issue ["features"] "Invalid enum value"]
        end
      else Invalid [issue ["content"] "String length out of bounds"]
  | Some (JStr _), _ => Invalid [issue ["features"] "Invalid input"]
  | _, _ => Invalid [issue ["content"] "Invalid input"]
  end.

Definition optional_string (hi : Z) (v : option JSON) : option (option string) :=
  match v with
  | None => Some None
  | Some (JStr s) => if length_within 0 hi s then Some (Some s) else None
  | Some _ => None
  end.

(** [lo <= m * 10^e <= hi] *)
Definition number_within (lo hi m e : Z) : bool :=
  if (0 <=? e)%Z then (lo <=? m * 10 ^ e)%Z && (m * 10 ^ e <=? hi)%Z
  else (lo * 10 ^ (- e) <=? m)%Z && (m <=? hi * 10 ^ (- e))%Z.

Definition optional_number (lo hi : Z) (v : option JSON) : option (option (Z * Z)) :=
  match v with
  | None => Some None
  | Some (JNum m e) => if number_within lo hi m e then Some (Some (m, e)) else None
  | Some _ => None
  end.

Definition writingAssist (body : JSON)
  : Parsed (string * option string * option (Z * Z)) :=
  match get_property body "prompt" with
  | Some (JStr prompt) =>
      if length_within 1 1000 prompt then
        match optional_string 5000 (get_property body "context"),
              optional_number 10 2000 (get_property body "maxTokens") with
        | Some context, Some maxTokens => Valid (prompt, context, maxTokens)
        | None, _ => Invalid [issue ["context"] "Invalid input"]
        | _, None => Invalid [issue ["maxTokens"] "Invalid input"]
        end
      else Invalid [issue ["prompt"] "String length out of bounds"]
  | _ => Invalid [issue ["prompt"] "Invalid input"]
  end.

#[export] Instance schemas : Schemas :=
  {| aiAnalysisSchema := aiAnalysis; writingAssistSchema := writingAssist |}.

End ReferenceSchemas.

(** ** services/database.ts: connection *)

(** [connect()] *)
Definition DatabaseService_connect : M unit :=
  fun w =>
    if db_up w then console_log "Database connected successfully" w
    else (await_ console_error "Database connection failed:" in
          throw (AppError "Database connection failed" 500)) w.

(** [healthCheck()] *)
Definition healthCheck : M bool :=
  fun w =>
    if db_up w then (Returned true, w)
    else (await_ console_error "Database health check failed:" in ret false) w.

(** ** index.ts: the health endpoint and the start of the server *)

Section Server.
Context {js : JSBuiltins}.

(** [date.toISOString()], left uninterpreted. *)
Variable toISOString : Z -> string.

(** [GET /health] *)
Definition get_health : M Response :=
  try_catch
    (await dbHealthy := healthCheck in
     await date := Date_now in
     fun w =>
       (Returned
          {| res_status := 200;
             res_body :=
               JObj (object_of
                 [("success", Some (JBool true));
                  ("status", Some (JStr "healthy"));
                  ("timestamp", Some (JStr (toISOString date)));
                  ("services",
                   Some (JObj [("database",
                                JStr (if dbHealthy : bool then "healthy" else "unhealthy"));
                               ("ai", JStr "healthy")]));
                  ("environment", option_map JStr (process_env w !! "NODE_ENV"));
                  ("version", Some (JStr "1.0.0"))]) |}, w))
    (fun error =>
       ret {| res_status := 500;
              res_body := JObj [("success", JBool false); ("status", JStr "unhealthy");
                                ("error", JStr "Health check failed")] |}).

(** The process around the services: whether the HTTP server listens, how
    many hourly sweeps are scheduled, and the code it exited with. *)
Record Process : Type := {
  proc_world : World;
  listening : bool;
  sweep_timers : nat;
  exit_code : option Z;
}.

(** [PORT], read when the module is loaded. *)
Definition server_port (w : World) : option Z :=
  parseInt (or_default (process_env w !! "PORT") "3001").

(** The callback of [app.listen]. *)
Definition listening_banner : M unit :=
  fun w =>
    let port := match server_port w with Some p => pretty p | None => "NaN" end in
    (await_ console_log ("ShadowLog API Server running on port " ++ port) in
     await_ console_log ("Environment: "
                         ++ or_default (process_env w !! "NODE_ENV") "development") in
     await_ console_log ("CORS enabled for: "
                         ++ or_default (process_env w !! "FRONTEND_URL")
                                       "http://localhost:3000") in
     await_ console_log ("Health check: http://localhost:" ++ port ++ "/health") in
     console_log ("API Documentation: http://localhost:" ++ port ++ "/")) w.

(** [startServer()]. [listen_ok] tells whether [app.listen] returns or
    throws (a port out of range). *)
Definition startServer (listen_ok : bool) (p : Process) : Process :=
  let failed (w : World) :=
    {| proc_world := snd (console_error "Failed to start server:" w);
       listening := listening p; sweep_timers := sweep_timers p;
       exit_code := Some 1 |} in
  match DatabaseService_connect (proc_world p) with
  | (Thrown _, w1) => failed w1
  | (Returned _, w1) =>
      match cleanupExpiredCache w1 with
      | (Thrown _, w2) => failed w2
      | (Returned _, w2) =>
          if listen_ok then
            {| proc_world := snd (listening_banner w2); listening := true;
               sweep_timers := S (sweep_timers p); exit_code := exit_code p |}
          else failed w2
      end
  end.

End Server.

(** ** Requests and worlds on which the routes are run *)

(** A request that lists a feature twice. *)
Definition twice_sentiment_request : JSON :=
  JObj [("content", JStr park_content);
        ("features", JArr [JStr "sentiment"; JStr "tags"; JStr "sentiment"])].

(** A provider that answers every request with a bare number. *)
Definition terse_world : World :=
  {| openai := Some (fun _ _ => Completed (Some "42")); redis := None; db_up := true;
     ai_cache := Some ∅; diary_entries := ∅; process_env := ∅; now := 0;
     console := []; provider_calls := [] |}.

(** ** The cache over time *)

(** A provider that answers every request with an empty completion. *)
Definition silent_world : World :=
  {| openai := Some (fun _ _ => Completed None); redis := None; db_up := true;
     ai_cache := Some ∅; diary_entries := ∅; process_env := ∅; now := 0;
     console := []; provider_calls := [] |}.

(** A provider that answers every request with the same sentence. *)
Definition steady_world : World :=
  {| openai := Some (fun _ _ => Completed (Some "A happy day outdoors."));
     redis := None; db_up := true; ai_cache := Some ∅; diary_entries := ∅;
     process_env := ∅; now := 0; console := []; provider_calls := [] |}.

(** * Authentication: middleware/auth.ts and routes/auth.ts

    The table of users is a parameter of the functions below: they read
    it and never write it. *)

(** A row of the table of users ([createdAt] as JSON renders a date). *)
Record User : Type := {
  user_id : string;
  user_email : string;
  user_name : option string;
  user_password : string;
  user_createdAt : string;
}.

(** [req.user] as [authenticateToken] sets it: the columns it selects. *)
Record RequestUser : Type := {
  ru_id : string;
  ru_email : string;
  ru_name : option string;
}.

Definition request_user (u : User) : RequestUser :=
  {| ru_id := user_id u; ru_email := user_email u; ru_name := user_name u |}.

(** A column that may be [null]. *)
Definition nullable (x : option string) : JSON :=
  match x with Some s => JStr s | None => JNull end.

(** The errors of [jwt.verify], by name. *)
Inductive JwtRefusal : Type :=
  | Malformed (message : string)
  | Expired (message : string)
  | NotYetValid (message : string).

(** The libraries the authentication code calls and this development does
    not interpret: every theorem holds for any behaviour of [jwt.verify]
    (a payload or a refusal), [jwt.sign] (a token, or an [Error] with its
    message), [bcrypt.compare] and the base64 decoding of [Buffer.from]. *)
Class AuthLibraries : Type := {
  jwt_verify : string -> string -> JwtRefusal + JSON;
  jwt_sign : JSON -> string -> string -> string + string;
  bcrypt_compare : string -> string -> bool;
  Buffer_from_base64 : string -> string;
}.

(** A computation that returns or throws, without state. *)
Definition Attempt (A : Type) : Type := RouteError + A.

Definition attempt_bind {A B} (m : Attempt A) (k : A -> Attempt B) : Attempt B :=
  match m with
  | inl e => inl e
  | inr a => k a
  end.

Notation "'attempt' x ':=' m 'in' k" := (attempt_bind m (fun x => k))
  (at level 10, x name, m at level 100, k at level 200).

Definition refusal_error (r : JwtRefusal) : RouteError :=
  match r with
  | Malformed m => JsonWebTokenError m
  | Expired m => TokenExpiredError m
  | NotYetValid m => Raised (PlainError m)
  end.

(** [text.split(separator)] for a separator of one character. *)
Fixpoint split_on (separator : ascii) (text : string) : list string :=
  match text with
  | EmptyString => [EmptyString]
  | String c rest =>
      if Ascii.eqb c separator then EmptyString :: split_on separator rest
      else match split_on separator rest with
           | first :: others => String c first :: others
           | [] => [String c EmptyString]
           end
  end.

(** [authHeader && authHeader.split(' ')[1]], followed by the test
    [!token]: the second field of the header when it is not empty. *)
Definition bearer_token (authorization : option string) : option string :=
  match authorization with
  | Some header =>
      if string_truthy header then
        match nth_error (split_on " " header) 1 with
        | Some token => if string_truthy token then Some token else None
        | None => None
        end
      else None
  | None => None
  end.

(** [object.name] on a value that may be [null]: a [TypeError] on [null],
    [undefined] on a value without that property. *)
Definition member (v : JSON) (name : string) : Attempt (option JSON) :=
  match v with
  | JNull => inl (Raised (TypeError "Cannot read properties of null"))
  | _ => inr (get_property v name)
  end.

Section Authentication.
Context {js : JSBuiltins} {lib : AuthLibraries}.

(** [verifyToken(token)] of utils/helpers.ts *)
Definition verifyToken (token : string) (w : World) : Attempt JSON :=
  match process_env w !! "JWT_SECRET" with
  | Some secret =>
      if string_truthy secret then
        match jwt_verify token secret with
        | inr payload => inr payload
        | inl refusal => inl (refusal_error refusal)
        end
      else inl (Raised (PlainError "JWT_SECRET is not defined"))
  | None => inl (Raised (PlainError "JWT_SECRET is not defined"))
  end.

(** [generateToken(payload)] of utils/helpers.ts *)
Definition generateToken (payload : JSON) (w : World) : Attempt string :=
  match process_env w !! "JWT_SECRET" with
  | Some secret =>
      if string_truthy secret then
        match jwt_sign payload secret
                (or_default (process_env w !! "JWT_EXPIRES_IN") "7d") with
        | inr token => inr token
        | inl message => inl (Raised (PlainError message))
        end
      else inl (Raised (PlainError "JWT_SECRET is not defined"))
  | None => inl (Raised (PlainError "JWT_SECRET is not defined"))
  end.

(** [user.findUnique({ where: { id } })]: Prisma refuses an [id] that is
    not a string before it asks the database. *)
Definition user_findUnique_id (users : list User) (id : option JSON) (w : World)
  : Attempt (option User) :=
  match id with
  | Some (JStr id) =>
      if db_up w then inr (find (fun u => String.eqb (user_id u) id) users)
      else inl (Raised db_unreachable)
  | _ => inl (Raised (PlainError "Invalid prisma.user.findUnique() invocation"))
  end.

(** [user.findUnique({ where: { email } })] *)
Definition user_findUnique_email (users : list User) (email : string) (w : World)
  : Attempt (option User) :=
  if db_up w then inr (find (fun u => String.eqb (user_email u) email) users)
  else inl (Raised db_unreachable).

(** What the middleware does with a request: it calls [next()] with
    [req.user] set, or it answers. *)
Inductive Authentication : Type :=
  | Authenticated (user : RequestUser)
  | Denied (r : Response).

(** [authenticateToken(req, res, next)] *)
Definition authenticateToken (users : list User) (authorization : option string)
    (w : World) : Authentication :=
  let outcome : Attempt RequestUser :=
    attempt token := match bearer_token authorization with
                 | Some token => inr token
                 | None => inl (Raised (AppError "Access token required" 401))
                 end in
    attempt decoded := verifyToken token w in
    attempt id := member decoded "id" in
    attempt user := user_findUnique_id users id w in
    match user with
    | None => inl (Raised (AppError "User not found" 401))
    | Some u => inr (request_user u)
    end in
  match outcome with
  | inr user => Authenticated user
  | inl (Raised (AppError message statusCode)) => Denied (failure statusCode message)
  | inl _ => Denied (failure 401 "Invalid or expired token")
  end.

(** [optionalAuth(req, res, next)]: [req.user] when [next()] is called. *)
Definition optionalAuth (authorization : option string) (w : World) : option JSON :=
  match bearer_token authorization with
  | None => None
  | Some token =>
      match verifyToken token w with
      | inr decoded => Some decoded
      | inl _ => None
      end
  end.

(** [JSON.parse(Buffer.from(token.split('.')[1], 'base64').toString())] *)
Definition unverified_payload (token : string) : Attempt JSON :=
  match nth_error (split_on "." token) 1 with
  | None => inl (Raised (TypeError "The first argument must be of type string"))
  | Some segment =>
      match JSON_parse (Buffer_from_base64 segment) with
      | Some v => inr v
      | None => inl (Raised (SyntaxError "Unexpected token in JSON"))
      end
  end.

(** The end of a route: [res.json(response)] or [next(error)]. *)
Definition handled (a : Attempt Response) : M Handled :=
  ret (match a with inr r => Responded r | inl e => Next e end).

(** [GET /me] *)
Definition get_me (users : list User) (authorization : option string) : M Handled :=
  fun w =>
    handled
      (attempt token := match bearer_token authorization with
                    | Some token => inr token
                    | None => inl (Raised (AppError "Access token required" 401))
                    end in
       attempt decoded := unverified_payload token in
       attempt id := member decoded "id" in
       attempt user := user_findUnique_id users id w in
       match user with
       | None => inl (Raised (AppError "User not found" 404))
       | Some u =>
           inr {| res_status := 200;
                  res_body :=
                    JObj [("success", JBool true);
                          ("data",
                           JObj [("id", JStr (user_id u));
                                 ("email", JStr (user_email u));
                                 ("name", nullable (user_name u));
                                 ("createdAt", JStr (user_createdAt u))])] |}
       end) w.

(** [POST /refresh] *)
Definition post_refresh (users : list User) (authorization : option string)
  : M Handled :=
  fun w =>
    handled
      (attempt token := match bearer_token authorization with
                    | Some token => inr token
                    | None => inl (Raised (AppError "Access token required" 401))
                    end in
       attempt decoded := unverified_payload token in
       attempt id := member decoded "id" in
       attempt user := user_findUnique_id users id w in
       match user with
       | None => inl (Raised (AppError "User not found" 401))
       | Some u =>
           attempt newToken := generateToken (JObj [("id", JStr (user_id u));
                                                ("email", JStr (user_email u))]) w in
           inr (success (JObj [("token", JStr newToken)])
                        "Token refreshed successfully")
       end) w.

(** [loginSchema] of utils/validation.ts, as Zod evaluates it: any
    behaviour. *)
Class AuthSchemas : Type := {
  loginSchema : JSON -> Parsed (string * string);
}.

Context {zod : AuthSchemas}.

(** [POST /login] *)
Definition post_login (users : list User) (body : JSON) : M Handled :=
  fun w =>
    handled
      (match loginSchema body with
       | Invalid issues => inl (ZodError issues)
       | Valid (email, password) =>
           attempt user := user_findUnique_email users email w in
           match user with
           | None => inl (Raised (AppError "Invalid email or password" 401))
           | Some u =>
               if bcrypt_compare password (user_password u) then
                 attempt token := generateToken (JObj [("id", JStr (user_id u));
                                                   ("email", JStr (user_email u))]) w in
                 inr (success
                        (JObj [("user", JObj [("id", JStr (user_id u));
                                              ("email", JStr (user_email u));
                                              ("name", nullable (user_name u))]);
                               ("token", JStr token)])
                        "Login successful")
               else inl (Raised (AppError "Invalid email or password" 401))
           end
       end) w.

End Authentication.


(** ** An instance on which the authentication code is run

    The base64 decoding is the standard one, on texts of the alphabet
    (both [+/] and [-_]); the other library functions are stand-ins: a
    verifier that refuses every token, a signer that only labels the
    payload, passwords compared as they are. *)

Module ReferenceAuth.

Definition base64_digit (c : ascii) : option N :=
  let n := N_of_ascii c in
  if ((65 <=? n) && (n <=? 90))%N then Some (n - 65)%N
  else if ((97 <=? n) && (n <=? 122))%N then Some (n - 71)%N
  else if ((48 <=? n) && (n <=? 57))%N then Some (n + 4)%N
  else if ((n =? 43) || (n =? 45))%N then Some 62%N
  else if ((n =? 47) || (n =? 95))%N then Some 63%N
  else None.

(** [pending] holds the [bits] bits read and not yet written. *)
Fixpoint base64_bytes (text : string) (pending : N) (bits : N) : string :=
  match text with
  | EmptyString => EmptyString
  | String c rest =>
      match base64_digit c with
      | None => base64_bytes rest pending bits
      | Some d =>
          let pending := (pending * 64 + d)%N in
          let bits := (bits + 6)%N in
          if (8 <=? bits)%N then
            String (ascii_of_N (pending / 2 ^ (bits - 8))%N)
                   (base64_bytes rest (pending mod 2 ^ (bits - 8))%N (bits - 8)%N)
          else base64_bytes rest pending bits
      end
  end.

Definition base64_decode (text : string) : string := base64_bytes text 0%N 0%N.

#[export] Instance libraries : AuthLibraries :=
  {| jwt_verify := fun _ _ => inl (Malformed "invalid signature");
     jwt_sign := fun payload secret _ =>
                   inr ("signed." ++ Reference.stringify payload ++ "." ++ secret);
     bcrypt_compare := String.eqb;
     Buffer_from_base64 := base64_decode |}.

Definition login (body : JSON) : Parsed (string * string) :=
  match get_property body "email", get_property body "password" with
  | Some (JStr email), Some (JStr password) =>
      if string_truthy password then Valid (email, password)
      else Invalid [{| issue_path := ["password"];
                       issue_message := "Password is required" |}]
  | Some (JStr _), _ =>
      Invalid [{| issue_path := ["password"]; issue_message := "Required" |}]
  | _, _ => Invalid [{| issue_path := ["email"]; issue_message := "Required" |}]
  end.

#[export] Instance schemas : AuthSchemas := {| loginSchema := login |}.

(** One user; a token nobody signed, whose middle segment is the base64
    text of an object with that user's [id]. *)
Definition ada : User :=
  {| user_id := "u1"; user_email := "ada@example.org"; user_name := None;
     user_password := "correct horse"; user_createdAt := "2024-01-01T00:00:00.000Z" |}.

Definition forged_header : option string := Some "Bearer h.eyJpZCI6InUxIn0.s".

Definition keyed_world : World :=
  {| openai := None; redis := None; db_up := true; ai_cache := Some ∅;
     diary_entries := ∅; process_env := {[ "JWT_SECRET" := "k" ]}; now := 0;
     console := []; provider_calls := [] |}.

(** The same process while the database cannot be reached. *)
Definition keyed_world_offline : World :=
  {| openai := None; redis := None; db_up := false; ai_cache := Some ∅;
     diary_entries := ∅; process_env := {[ "JWT_SECRET" := "k" ]}; now := 0;
     console := []; provider_calls := [] |}.

End ReferenceAuth.

(** * The routes of one entry: routes/entries.ts

    [owner] is [req.user.id], set by [authenticateToken]. *)

(** [diaryEntry.findFirst({ where: { id, userId } })] *)
Definition diaryEntry_findFirst (id owner : string) : M (option DiaryEntry) :=
  fun w =>
    if db_up w then
      (Returned (match diary_entries w !! id with
                 | Some e => if String.eqb (userId e) owner then Some e else None
                 | None => None
                 end), w)
    else (Thrown db_unreachable, w).

(** [diaryEntry.create({ data: { title, content, userId } })]; [id] is the
    identifier the database gives the new row. *)
Definition diaryEntry_create (id new_title new_content owner : string)
  : M DiaryEntry :=
  fun w =>
    if db_up w then
      match diary_entries w !! id with
      | Some _ => (Thrown (PlainError "Unique constraint failed on the fields: (id)"), w)
      | None =>
          let e := {| title := new_title; entry_content := new_content;
                      userId := owner; aiSentiment := None; aiTags := None;
                      aiSummary := None |} in
          (Returned e, set_diary_entries (<[id := e]> (diary_entries w)) w)
      end
    else (Thrown db_unreachable, w).

(** [diaryEntry.update({ where: { id }, data })] where [data] holds the
    title and the content that are given and not empty. *)
Definition diaryEntry_update_text (id : string) (new_title new_content : option string)
  : M DiaryEntry :=
  fun w =>
    if db_up w then
      match diary_entries w !! id with
      | None => (Thrown (PlainError "Record to update not found."), w)
      | Some e =>
          let e' := {| title := or_default new_title (title e);
                       entry_content := or_default new_content (entry_content e);
                       userId := userId e; aiSentiment := aiSentiment e;
                       aiTags := aiTags e; aiSummary := aiSummary e |} in
          (Returned e', set_diary_entries (<[id := e']> (diary_entries w)) w)
      end
    else (Thrown db_unreachable, w).

(** [diaryEntry.delete({ where: { id } })] *)
Definition diaryEntry_delete (id : string) : M unit :=
  fun w =>
    if db_up w then
      match diary_entries w !! id with
      | None => (Thrown (PlainError "Record to delete does not exist."), w)
      | Some _ => (Returned tt, set_diary_entries (delete id (diary_entries w)) w)
      end
    else (Thrown db_unreachable, w).

(** [createEntrySchema] and [updateEntrySchema] of utils/validation.ts, as
    Zod evaluates them: any behaviour. *)
Class EntrySchemas : Type := {
  createEntrySchema : JSON -> Parsed (string * string);
  updateEntrySchema : JSON -> Parsed (option string * option string);
}.

(** The row [owner] may see under [id]. *)
Definition owned_entry (w : World) (id owner : string) : option DiaryEntry :=
  match diary_entries w !! id with
  | Some e => if String.eqb (userId e) owner then Some e else None
  | None => None
  end.

Section EntryRoutes.
Context {js : JSBuiltins} {zod : EntrySchemas}.

(** [transformedEntry]: the selected columns of a row as the response
    carries them. The dates of a row and the form of a column that was
    never set come from the database schema; they are left uninterpreted. *)
Variable transformedEntry : string -> DiaryEntry -> JSON.

(** [processAIAnalysis(id, content).catch(...)]: the pass is started and
    not awaited; the world is taken once it has settled. *)
Definition background_analysis (id content : string) : M unit :=
  try_catch (processAIAnalysis id content)
    (fun error => console_error "AI analysis failed for entry:").

(** [GET /:id] *)
Definition get_entry (owner id : string) : M Handled :=
  try_catch
    (if string_truthy id then
       await entry := diaryEntry_findFirst id owner in
       match entry with
       | None => throw (AppError "Entry not found" 404)
       | Some e =>
           ret (Responded {| res_status := 200;
                             res_body := JObj [("success", JBool true);
                                               ("data", transformedEntry id e)] |})
       end
     else ret (Responded (failure 400 "Entry ID is required")))
    (fun error => ret (Next (Raised error))).

(** [POST /] *)
Definition post_entry (owner new_id : string) (body : JSON) : M Handled :=
  match createEntrySchema body with
  | Invalid issues => ret (Next (ZodError issues))
  | Valid (new_title, new_content) =>
      try_catch
        (await entry := diaryEntry_create new_id new_title new_content owner in
         await_ background_analysis new_id new_content in
         ret (Responded
                {| res_status := 201;
                   res_body := JObj [("success", JBool true);
                                     ("data", transformedEntry new_id entry);
                                     ("message", JStr "Entry created successfully")] |}))
        (fun error => ret (Next (Raised error)))
  end.

(** [PUT /:id] *)
Definition put_entry (owner id : string) (body : JSON) : M Handled :=
  if string_truthy id then
    match updateEntrySchema body with
    | Invalid issues => ret (Next (ZodError issues))
    | Valid (new_title, new_content) =>
        try_catch
          (await existingEntry := diaryEntry_findFirst id owner in
           match existingEntry with
           | None => throw (AppError "Entry not found" 404)
           | Some _ =>
               await updatedEntry := diaryEntry_update_text id new_title new_content in
               await_ (if opt_truthy new_content
                       then background_analysis id (or_default new_content "")
                       else ret tt) in
               ret (Responded (success (transformedEntry id updatedEntry)
                                       "Entry updated successfully"))
           end)
          (fun error => ret (Next (Raised error)))
    end
  else ret (Responded (failure 400 "Entry ID is required")).

(** [DELETE /:id] *)
Definition delete_entry (owner id : string) : M Handled :=
  try_catch
    (if string_truthy id then
       await existingEntry := diaryEntry_findFirst id owner in
       match existingEntry with
       | None => throw (AppError "Entry not found" 404)
       | Some _ =>
           await_ diaryEntry_delete id in
           ret (Responded (success JNull "Entry deleted successfully"))
       end
     else ret (Responded (failure 400 "Entry ID is required")))
    (fun error => ret (Next (Raised error))).

End EntryRoutes.


(** ** An instance on which the routes of one entry are run *)

Module ReferenceEntries.

Definition text_field (body : JSON) (name : string) : option string :=
  match get_property body name with
  | Some (JStr s) => if string_truthy s then Some s else None
  | _ => None
  end.

Definition createEntry (body : JSON) : Parsed (string * string) :=
  match text_field body "title", text_field body "content" with
  | Some t, Some c => Valid (t, c)
  | None, _ => Invalid [{| issue_path := ["title"]; issue_message := "Title is required" |}]
  | _, None =>
      Invalid [{| issue_path := ["content"]; issue_message := "Content is required" |}]
  end.

Definition updateEntry (body : JSON) : Parsed (option string * option string) :=
  match body with
  | JObj _ => Valid (text_field body "title", text_field body "content")
  | _ => Invalid [{| issue_path := []; issue_message := "Expected object" |}]
  end.

#[export] Instance schemas : EntrySchemas :=
  {| createEntrySchema := createEntry; updateEntrySchema := updateEntry |}.

(** A rendering that shows the text of a row and whether it was analysed. *)
Definition rendered (id : string) (e : DiaryEntry) : JSON :=
  JObj [("id", JStr id); ("title", JStr (title e)); ("content", JStr (entry_content e));
        ("aiSummary", match aiSummary e with Some s => JStr s | None => JNull end)].

(** The entry of another user beside the one of the scenarios. *)
Definition shared_table : World :=
  {| openai := Some obliging_provider; redis := None; db_up := true;
     ai_cache := Some ∅;
     diary_entries :=
       {[ "e1" := fresh_entry;
          "e2" := {| title := "Private"; entry_content := "Nobody else reads this";
                     userId := "someone-else"; aiSentiment := None; aiTags := None;
                     aiSummary := None |} ]};
     process_env := ∅; now := 0; console := []; provider_calls := [] |}.

End ReferenceEntries.
(** * Properties *)

Ltac step :=
  unfold result_of, world_after, bind, try_catch, ret, throw, this_redis,
    this_openai, Date_now, console_error, console_warn, console_log,
    console_write in *; cbn beta iota in *.

Ltac unfold_cache :=
  unfold getCachedResult, cacheResult, redis_get, redis_setex, aICache_findFirst,
    aICache_upsert, with_ai_cache, JSON_parse_or_throw, getEnvVar,
    logged_error; step.


(** ** Cache-key derivation *)

Lemma hex_length (h : SHA256.hash) : String.length (SHA256.hex h) = 64%nat.
Proof. destruct h; reflexivity. Qed.

Lemma nibble_range (w k : Z) : (0 <= Z.land (Z.shiftr w k) 15 < 16)%Z.
Proof.
  change 15%Z with (Z.ones 4). rewrite Z.land_ones by lia.
  apply Z.mod_pos_bound. lia.
Qed.

Lemma hex_digit_lower_hex (n : Z) :
  (0 <= n < 16)%Z -> is_lower_hex (SHA256.hex_digit n) = true.
Proof.
  intros Hn. unfold is_lower_hex, SHA256.hex_digit.
  destruct (Z.ltb_spec n 10) as [Hdec|Hhex];
    rewrite N_ascii_embedding by lia; apply orb_true_iff; [left|right];
    apply andb_true_iff; split; apply N.leb_le; lia.
Qed.

Lemma hex_word_lower_hex (w : Z) (rest : string) :
  string_forall is_lower_hex rest = true ->
  string_forall is_lower_hex (SHA256.hex_word w rest) = true.
Proof.
  intros Hrest. unfold SHA256.hex_word. cbn [string_forall].
  rewrite !hex_digit_lower_hex, Hrest; try apply nibble_range; [reflexivity|].
  rewrite <- (Z.shiftr_0_r w) at 1. apply nibble_range.
Qed.

Lemma hex_lower_hex (h : SHA256.hash) : string_forall is_lower_hex (SHA256.hex h) = true.
Proof. unfold SHA256.hex. repeat apply hex_word_lower_hex. reflexivity. Qed.

Example sha256_abc :
  SHA256.sha256_hex "abc"
  = "ba7816bf8f01cfea414140de5dae2223b00361a396177a9cb410ff61f20015ad".
Proof. vm_compute. reflexivity. Qed.

Example sha256_empty :
  SHA256.sha256_hex ""
  = "e3b0c44298fc1c149afbf4c8996fb92427ae41e4649b934ca495991b7852b855".
Proof. vm_compute. reflexivity. Qed.

Example sha256_two_blocks :
  SHA256.sha256_hex "abcdbcdecdefdefgefghfghighijhijkijkljklmklmnlmnomnopnopq"
  = "248d6a61d20638b8e5c026930c3e6039a33ce45964ff2167f6ecedd419db06c1".
Proof. vm_compute. reflexivity. Qed.

Example key_of_park_tags :
  generateCacheKey "Had a great day at the park" "tags"
  = "6c3cabf891ee5f17a74453fb4bc72dff693170bc18609419347b1275efc359e8".
Proof. vm_compute. reflexivity. Qed.

Lemma joined_text_injective (type type' content content' : string) :
  colon_free type = true -> colon_free type' = true ->
  type' ++ ":" ++ content' = type ++ ":" ++ content ->
  type' = type /\ content' = content.
Proof.
  unfold colon_free. revert type'.
  induction type as [|c rest IH]; intros [|c' rest'] Hfree Hfree' Hjoined.
  - change (String ":" content' = String ":" content) in Hjoined.
    injection Hjoined as ->. split; reflexivity.
  - change (String c' (rest' ++ ":" ++ content') = String ":" content) in Hjoined.
    injection Hjoined as -> _. discriminate.
  - change (String ":" content' = String c (rest ++ ":" ++ content)) in Hjoined.
    injection Hjoined as <- _. discriminate.
  - change (String c' (rest' ++ ":" ++ content') = String c (rest ++ ":" ++ content))
      in Hjoined.
    injection Hjoined as -> Hrest. cbn in Hfree, Hfree'.
    apply andb_true_iff in Hfree as [_ Hfree], Hfree' as [_ Hfree'].
    destruct (IH rest' Hfree Hfree' Hrest) as [-> ->]. split; reflexivity.
Qed.

(** C8. The key of [(content, type)] is the hexadecimal SHA-256 digest of
    [type ++ ":" ++ content]: it depends on the pair through that text
    only, so equal pairs have equal keys, and for kinds without a colon
    (the three kinds of the service) different pairs hash different texts.
    A key is 64 lower-case hexadecimal characters long. The digest is
    SHA-256: it gives the digests of FIPS 180-4 for its three sample
    messages, and the keys that [sha256sum] gives for the scenario of the
    specification and for texts of 55, 56 and 99 bytes, which are hashed in
    one, two and two blocks. *)
Theorem generateCacheKey_is_sha256_hex (content type content' type' : string) :
  generateCacheKey content type
    = SHA256.hex (SHA256.digest (SHA256.bytes_of_string (type ++ ":" ++ content)))
  /\ (type' ++ ":" ++ content' = type ++ ":" ++ content ->
      generateCacheKey content' type' = generateCacheKey content type)
  /\ (colon_free type = true -> colon_free type' = true ->
      type' ++ ":" ++ content' = type ++ ":" ++ content ->
      type' = type /\ content' = content)
  /\ String.length (generateCacheKey content type) = 64%nat
  /\ string_forall is_lower_hex (generateCacheKey content type) = true
  /\ SHA256.sha256_hex "abc"
     = "ba7816bf8f01cfea414140de5dae2223b00361a396177a9cb410ff61f20015ad"
  /\ SHA256.sha256_hex ""
     = "e3b0c44298fc1c149afbf4c8996fb92427ae41e4649b934ca495991b7852b855"
  /\ SHA256.sha256_hex "abcdbcdecdefdefgefghfghighijhijkijkljklmklmnlmnomnopnopq"
     = "248d6a61d20638b8e5c026930c3e6039a33ce45964ff2167f6ecedd419db06c1"
  /\ generateCacheKey "Had a great day at the park" "tags"
     = "6c3cabf891ee5f17a74453fb4bc72dff693170bc18609419347b1275efc359e8"
  /\ generateCacheKey "Had a great day at the park" "sentiment"
     = "e6e44e2b380cc50228b8c2ae490258de9b7cd5f0a7e71980242ae7e1953a1011"
  /\ generateCacheKey one_block_content "sentiment"
     = "e00875bb58a0ef77217aa4140c662d1f014e397061b0bab16310d70c5b02a968"
  /\ generateCacheKey two_block_content "sentiment"
     = "b4c4cc7226d986aa3c1546fd230fd38c264e6b7605f0f43f1c8dec4fd5308e40"
  /\ generateCacheKey long_content "summary"
     = "9cad14b53af8d01d2eea8c1a3003f2e9db274e65525273d49164dd0b51824a64".
Proof.
  split; [reflexivity|]. split.
  { intros Hjoined. unfold generateCacheKey. f_equal. exact Hjoined. }
  split; [apply joined_text_injective|].
  split; [apply hex_length|]. split; [apply hex_lower_hex|].
  repeat split; vm_compute; reflexivity.
Qed.

Lemma generateCacheKey_is_sha256_hex_witness :
  generateCacheKey "Had a great day at the park" "tags"
    = "6c3cabf891ee5f17a74453fb4bc72dff693170bc18609419347b1275efc359e8"
  /\ generateCacheKey "Had a great day at the park" "tags"
     <> generateCacheKey "Had a great day at the park" "sentiment"
  /\ String.length (generateCacheKey "Had a great day at the park" "tags") = 64%nat
  /\ ("tags" = "tags" /\ "Had a great day at the park" = "Had a great day at the park").
Proof.
  destruct (generateCacheKey_is_sha256_hex
              "Had a great day at the park" "tags"
              "Had a great day at the park" "tags")
    as (_ & _ & Hpair & Hlength & _ & _ & _ & _ & Htags & Hsentiment & _).
  split; [exact Htags|]. split; [|split; [exact Hlength|]].
  - rewrite Htags, Hsentiment. discriminate.
  - apply Hpair; reflexivity.
Defined.

(** ** Sentiment and tags *)

Section Configured.
Context {js : JSBuiltins}.

Lemma analyzeSentiment_configured w content provider :
  openai w = Some provider ->
  analyzeSentiment content w
    = (Thrown (AppError "Failed to analyze sentiment" 500),
       logged_error "Sentiment analysis failed:"
         (set_provider_calls (provider_calls w ++ [("sentiment", content)]) w)).
Proof.
  intros Hp. unfold analyzeSentiment, chat_completions_create,
    JSON_parse_or_throw, undeclared, logged_error. step. rewrite Hp. cbn.
  rewrite Hp. destruct (provider "sentiment" content) as [e|c]; cbn; [reflexivity|].
  destruct (JSON_parse (or_default c "{}")); reflexivity.
Qed.

Lemma generateTags_configured w content provider :
  openai w = Some provider ->
  generateTags content w
    = (Thrown (AppError "Failed to generate tags" 500),
       logged_error "Tag generation failed:"
         (set_provider_calls (provider_calls w ++ [("tags", content)]) w)).
Proof.
  intros Hp. unfold generateTags, chat_completions_create,
    JSON_parse_or_throw, undeclared, logged_error. step. rewrite Hp. cbn.
  rewrite Hp. destruct (provider "tags" content) as [e|c]; cbn; [reflexivity|].
  destruct (JSON_parse (or_default c "[]")); reflexivity.
Qed.

Lemma analyzeSentiment_unconfigured w content :
  openai w = None ->
  analyzeSentiment content w
    = (Returned neutral_sentiment,
       set_console
         (console w ++ [(LogWarn, "OpenAI not available, returning neutral sentiment")])
         w).
Proof. intros Hp. unfold analyzeSentiment. step. rewrite Hp. reflexivity. Qed.

Lemma generateTags_unconfigured w content :
  openai w = None ->
  generateTags content w
    = (Returned (JArr []),
       set_console
         (console w ++ [(LogWarn, "OpenAI not available, returning empty tags")]) w).
Proof. intros Hp. unfold generateTags. step. rewrite Hp. reflexivity. Qed.

(** C4. With a provider configured, [analyzeSentiment] and [generateTags]
    return nothing: whatever the provider answers, the call is rejected
    with the [AppError] of status 500 of its [catch] block. *)
Theorem configured_analysis_always_rejects (w : World) (content : string) :
  is_Some (openai w) ->
  result_of (analyzeSentiment content) w
    = Thrown (AppError "Failed to analyze sentiment" 500)
  /\ result_of (generateTags content) w
    = Thrown (AppError "Failed to generate tags" 500).
Proof.
  intros [provider Hp]. unfold result_of.
  rewrite (analyzeSentiment_configured w content provider Hp).
  rewrite (generateTags_configured w content provider Hp).
  split; reflexivity.
Qed.

End Configured.

Lemma configured_analysis_always_rejects_witness :
  result_of (analyzeSentiment (js := Reference.builtins)
               "Had a great day at the park") configured
    = Thrown (AppError "Failed to analyze sentiment" 500)
  /\ result_of (generateTags (js := Reference.builtins)
                  "Had a great day at the park") configured
    = Thrown (AppError "Failed to generate tags" 500).
Proof.
  apply (configured_analysis_always_rejects (js := Reference.builtins)
           configured "Had a great day at the park").
  exists obliging_provider. reflexivity.
Defined.

(** ** The sweep *)

(** What one sweep does, in every world: it returns, and only the cache
    table can change. *)
Lemma cleanupExpiredCache_effect (w : World) :
  cleanupExpiredCache w =
    (Returned tt,
     match db_up w, ai_cache w with
     | true, Some rows =>
         let w' := set_ai_cache (Some (swept (now w) rows)) w in
         if (0 <? size rows - size (swept (now w) rows))%nat
         then set_console
                (console w ++
                   [(LogInfo, "Cleaned up "
                        ++ pretty (size rows - size (swept (now w) rows))%nat
                        ++ " expired cache entries")]) w'
         else w'
     | true, None =>
         set_console
           (console w ++ [(LogInfo, "AI cache table not yet created, skipping cleanup")]) w
     | false, _ =>
         set_console (console w ++ [(LogError, "Cache cleanup failed:")]) w
     end).
Proof.
  unfold cleanupExpiredCache, queryRaw_probe_ai_cache, aICache_deleteMany_lt,
    with_ai_cache. step.
  destruct (db_up w) eqn:Hup; [destruct (ai_cache w) as [rows|] eqn:Ht|].
  - cbn. rewrite Hup, Ht. cbn. fold (swept (now w) rows).
    destruct (size rows - size (swept (now w) rows))%nat; reflexivity.
  - reflexivity.
  - reflexivity.
Qed.

Lemma swept_lookup date rows key :
  swept date rows !! key
  = match rows !! key with
    | Some row => if (row_expiresAt row <? date)%Z then None else Some row
    | None => None
    end.
Proof.
  unfold swept. rewrite map_lookup_filter.
  destruct (rows !! key) as [row|]; [|reflexivity]. cbn.
  destruct (Z.ltb_spec (row_expiresAt row) date); case_guard; try reflexivity; lia.
Qed.

Lemma swept_nothing date rows :
  (forall key row, rows !! key = Some row -> (date <= row_expiresAt row)%Z) ->
  swept date rows = rows.
Proof.
  intros Hlive. apply map_filter_id. intros key row Hrow. cbn.
  specialize (Hlive _ _ Hrow). lia.
Qed.

(** The copy of the service without the probe returns as well and leaves
    the same table. *)
Lemma cleanupExpiredCache_unprobed_agrees (w : World) :
  result_of cleanupExpiredCache_unprobed w = Returned tt
  /\ ai_cache (world_after cleanupExpiredCache_unprobed w)
     = ai_cache (world_after cleanupExpiredCache w).
Proof.
  unfold result_of, world_after. rewrite cleanupExpiredCache_effect.
  unfold cleanupExpiredCache_unprobed, aICache_deleteMany_lt, with_ai_cache. step.
  destruct (db_up w) eqn:Hup; [destruct (ai_cache w) as [rows|] eqn:Ht|].
  - cbn. fold (swept (now w) rows).
    destruct (size rows - size (swept (now w) rows))%nat; split; reflexivity.
  - split; [reflexivity|]. cbn. congruence.
  - split; [reflexivity|]. cbn. reflexivity.
Qed.

(** C10. The sweep never raises, directly or from the hourly timer. On a
    table without a row that expired before now it deletes nothing; when the
    table does not exist it changes no store. *)
Theorem cleanupExpiredCache_never_raises (w : World) :
  result_of cleanupExpiredCache w = Returned tt
  /\ result_of scheduledCleanup w = Returned tt
  /\ (forall rows,
        db_up w = true -> ai_cache w = Some rows ->
        (forall key row, rows !! key = Some row -> (now w <= row_expiresAt row)%Z) ->
        world_after cleanupExpiredCache w = w)
  /\ (ai_cache w = None -> same_stores w (world_after cleanupExpiredCache w)).
Proof.
  unfold result_of, world_after, scheduledCleanup, try_catch.
  rewrite cleanupExpiredCache_effect. cbn [fst snd].
  split; [reflexivity|]. split; [reflexivity|]. split.
  - intros rows Hup Hrows Hlive. rewrite Hup, Hrows, (swept_nothing _ _ Hlive).
    rewrite Nat.sub_diag. destruct w; cbn in *. subst. reflexivity.
  - intros Hnone. rewrite Hnone. unfold same_stores.
    destruct (db_up w); cbn; auto.
Qed.

Lemma cleanupExpiredCache_never_raises_witness :
  result_of cleanupExpiredCache (warm_durable None) = Returned tt
  /\ world_after cleanupExpiredCache (warm_durable None) = warm_durable None
  /\ same_stores (set_ai_cache None unconfigured)
       (world_after cleanupExpiredCache (set_ai_cache None unconfigured)).
Proof.
  destruct (cleanupExpiredCache_never_raises (warm_durable None))
    as (Hret & _ & Hkeep & _).
  destruct (cleanupExpiredCache_never_raises (set_ai_cache None unconfigured))
    as (_ & _ & _ & Hmissing).
  split; [exact Hret|]. split.
  - apply (Hkeep {[ park_key := park_row ]}); [reflexivity|reflexivity|].
    intros key row Hrow. apply lookup_singleton_Some in Hrow as [_ <-].
    vm_compute. discriminate.
  - apply Hmissing. reflexivity.
Defined.

(** ** [getCachedResult] *)

Section Get.
Context {js : JSBuiltins}.

Ltac durable_cases w key type :=
  destruct (db_up w) eqn:Hup; cbn;
  [destruct (ai_cache w) as [rows|] eqn:Hrows; cbn;
   [destruct (rows !! key) as [row|] eqn:Hrow; cbn;
    [destruct (String.eqb (row_type row) type && (now w <? row_expiresAt row)%Z)
       eqn:Hsel; cbn|]|]|].

(** The lookup, tier by tier: the volatile tier decides when it answers
    with a non-empty text or rejects the read; otherwise the durable tier
    does. *)
Lemma getCachedResult_by_tier key type w :
  getCachedResult key type w
  = match redis w with
    | Some c =>
        if redis_reads_ok c then
          match redis_lookup c key (now w) with
          | Some text =>
              if string_truthy text then
                match JSON_parse text with
                | Some v => (Returned v, w)
                | None => (Returned JNull, logged_error "Cache retrieval failed:" w)
                end
              else durable_phase key type w
          | None => durable_phase key type w
          end
        else (Returned JNull, logged_error "Cache retrieval failed:" w)
    | None => durable_phase key type w
    end.
Proof.
  unfold durable_phase. unfold_cache.
  destruct (redis w) as [c|] eqn:Hr; cbn; rewrite ?Hr; cbn.
  - destruct (redis_reads_ok c); cbn; [|reflexivity].
    destruct (redis_lookup c key (now w)) as [[|a text]|]; cbn.
    2: { destruct (JSON_parse _); reflexivity. }
    all: durable_cases w key type; try reflexivity; repeat (rewrite Hr; cbn);
      destruct (redis_writes_ok c); reflexivity.
  - durable_cases w key type; try reflexivity. repeat (rewrite Hr; cbn). reflexivity.
Qed.

Lemma durable_phase_returns key type w :
  exists v, fst (durable_phase key type w) = Returned v.
Proof.
  unfold durable_phase. durable_cases w key type; eauto.
  destruct (redis w) as [c|]; [destruct (redis_writes_ok c)|]; eauto.
Qed.

(** The lookup absorbs every failure of either tier. *)
Lemma getCachedResult_never_raises (key type : string) (w : World) :
  exists v, result_of (getCachedResult key type) w = Returned v.
Proof.
  unfold result_of. rewrite getCachedResult_by_tier.
  pose proof (durable_phase_returns key type w) as Hdurable.
  destruct (redis w) as [c|]; [|exact Hdurable].
  destruct (redis_reads_ok c); [|eauto].
  destruct (redis_lookup c key (now w)) as [text|]; [|exact Hdurable].
  destruct (string_truthy text); [|exact Hdurable].
  destruct (JSON_parse text); eauto.
Qed.

(** A rejected read ends the lookup: the durable tier is not consulted. *)
Lemma getCachedResult_read_rejected key type w c :
  redis w = Some c -> redis_reads_ok c = false ->
  getCachedResult key type w
    = (Returned JNull, logged_error "Cache retrieval failed:" w).
Proof. intros Hr Hread. rewrite getCachedResult_by_tier, Hr, Hread. reflexivity. Qed.

(** A live, non-empty text in the volatile tier decides the lookup. *)
Lemma getCachedResult_volatile_hit key type w c text :
  redis w = Some c -> redis_reads_ok c = true ->
  volatile_text w key = Some text -> string_truthy text = true ->
  getCachedResult key type w
    = match JSON_parse text with
      | Some v => (Returned v, w)
      | None => (Returned JNull, logged_error "Cache retrieval failed:" w)
      end.
Proof.
  unfold volatile_text. intros Hr Hread Htext Htruthy.
  rewrite getCachedResult_by_tier, Hr in *. rewrite Hread, Htext, Htruthy.
  reflexivity.
Qed.

Lemma getCachedResult_volatile_miss key type w :
  volatile_misses w key ->
  (forall c, redis w = Some c -> redis_reads_ok c = true) ->
  getCachedResult key type w = durable_phase key type w.
Proof.
  unfold volatile_misses, volatile_text. intros Hmiss Hread.
  rewrite getCachedResult_by_tier.
  destruct (redis w) as [c|]; [|reflexivity]. rewrite (Hread c eq_refl).
  destruct (redis_lookup c key (now w)) as [text|]; [|reflexivity].
  cbn in Hmiss. rewrite Hmiss. reflexivity.
Qed.

(** The lookup touches the volatile tier and the console, nothing else. *)
Lemma getCachedResult_frame key type w :
  let w' := world_after (getCachedResult key type) w in
  openai w' = openai w /\ db_up w' = db_up w /\ ai_cache w' = ai_cache w /\
  diary_entries w' = diary_entries w /\ process_env w' = process_env w /\
  now w' = now w /\ provider_calls w' = provider_calls w.
Proof.
  assert (Hdurable :
    let w' := snd (durable_phase key type w) in
    openai w' = openai w /\ db_up w' = db_up w /\ ai_cache w' = ai_cache w /\
    diary_entries w' = diary_entries w /\ process_env w' = process_env w /\
    now w' = now w /\ provider_calls w' = provider_calls w).
  { unfold durable_phase. durable_cases w key type; try (repeat split; congruence).
    destruct (redis w) as [c|]; [destruct (redis_writes_ok c)|];
      cbn; repeat split; congruence. }
  unfold world_after. rewrite getCachedResult_by_tier.
  destruct (redis w) as [c|]; [|exact Hdurable].
  destruct (redis_reads_ok c); [|repeat split; reflexivity].
  destruct (redis_lookup c key (now w)) as [text|]; [|exact Hdurable].
  destruct (string_truthy text); [|exact Hdurable].
  destruct (JSON_parse text); repeat split; reflexivity.
Qed.

Lemma durable_phase_live key type w row :
  durable_live w key type row ->
  durable_phase key type w
    = match redis w with
      | Some c =>
          if redis_writes_ok c then
            (Returned (row_result row),
             set_redis (Some (redis_after_setex c key 3600 (now w)
                                (JSON_stringify (row_result row)))) w)
          else (Returned JNull, logged_error "Cache retrieval failed:" w)
      | None => (Returned (row_result row), w)
      end.
Proof.
  unfold durable_live, durable_row, durable_phase.
  intros (Hup & Hrow & Htype & Hlive). rewrite Hup.
  destruct (ai_cache w) as [rows|]; [|discriminate]. rewrite Hrow.
  rewrite Htype, String.eqb_refl.
  destruct (Z.ltb_spec (now w) (row_expiresAt row)); [reflexivity|lia].
Qed.

(** A row that has reached its expiry, or no row at all, is a miss. *)
Lemma durable_phase_expired key type w :
  (forall row, durable_row w key = Some row -> (row_expiresAt row <= now w)%Z) ->
  result_of (fun w => durable_phase key type w) w = Returned JNull.
Proof.
  unfold durable_row, durable_phase, result_of. intros Hexp.
  destruct (db_up w); [|reflexivity].
  destruct (ai_cache w) as [rows|]; [|reflexivity].
  destruct (rows !! key) as [row|]; [|reflexivity].
  specialize (Hexp row eq_refl).
  destruct (Z.ltb_spec (now w) (row_expiresAt row)); [lia|].
  rewrite andb_false_r. reflexivity.
Qed.

End Get.

Section DurableHit.
Context {js : JSBuiltins}.

(** C5, as the code has it. When the durable tier holds an unexpired row
    for the key and type:
    - without a volatile client, the row's result is returned;
    - with a client whose read finds nothing and whose write is accepted,
      the row's result is returned and the volatile tier holds its text
      for 3600 seconds;
    - with a client whose read finds nothing and whose write is rejected,
      nothing is raised and the lookup reports absent;
    - with a client whose read is rejected, nothing is raised, the durable
      tier is not consulted and the lookup reports absent. *)
Theorem getCachedResult_durable_hit (w : World) (key type : string)
    (row : AICacheRow) :
  durable_live w key type row ->
  (redis w = None ->
     getCachedResult key type w = (Returned (row_result row), w))
  /\ (forall c,
        redis w = Some c -> redis_reads_ok c = true -> volatile_misses w key ->
        redis_writes_ok c = true ->
        getCachedResult key type w
          = (Returned (row_result row),
             set_redis (Some (redis_after_setex c key 3600 (now w)
                                (JSON_stringify (row_result row)))) w))
  /\ (forall c,
        redis w = Some c -> redis_reads_ok c = true -> volatile_misses w key ->
        redis_writes_ok c = false ->
        getCachedResult key type w
          = (Returned JNull, logged_error "Cache retrieval failed:" w))
  /\ (forall c,
        redis w = Some c -> redis_reads_ok c = false ->
        getCachedResult key type w
          = (Returned JNull, logged_error "Cache retrieval failed:" w)).
Proof.
  intros Hlive. repeat split.
  - intros Hr. rewrite getCachedResult_volatile_miss.
    + rewrite (durable_phase_live _ _ _ _ Hlive), Hr. reflexivity.
    + unfold volatile_misses, volatile_text. rewrite Hr. reflexivity.
    + intros c Hc. congruence.
  - intros c Hr Hread Hmiss Hwrite. rewrite getCachedResult_volatile_miss.
    + rewrite (durable_phase_live _ _ _ _ Hlive), Hr, Hwrite. reflexivity.
    + exact Hmiss.
    + intros c' Hc'. congruence.
  - intros c Hr Hread Hmiss Hwrite. rewrite getCachedResult_volatile_miss.
    + rewrite (durable_phase_live _ _ _ _ Hlive), Hr, Hwrite. reflexivity.
    + exact Hmiss.
    + intros c' Hc'. congruence.
  - intros c Hr Hread. apply (getCachedResult_read_rejected _ _ _ c); assumption.
Qed.

End DurableHit.

Lemma warm_durable_live r : durable_live (warm_durable r) park_key "tags" park_row.
Proof.
  unfold durable_live, durable_row. repeat split; vm_compute; reflexivity.
Qed.

Lemma getCachedResult_durable_hit_witness :
  getCachedResult (js := Reference.builtins) park_key "tags"
      (warm_durable (Some healthy_redis))
    = (Returned park_tags,
       set_redis (Some (redis_after_setex healthy_redis park_key 3600 1000
                          (Reference.stringify park_tags)))
         (warm_durable (Some healthy_redis)))
  /\ getCachedResult (js := Reference.builtins) park_key "tags" (warm_durable None)
     = (Returned park_tags, warm_durable None).
Proof.
  split.
  - destruct (getCachedResult_durable_hit (js := Reference.builtins)
                (warm_durable (Some healthy_redis)) park_key "tags" park_row
                (warm_durable_live _)) as (_ & Hrepopulate & _).
    apply (Hrepopulate healthy_redis); reflexivity.
  - destruct (getCachedResult_durable_hit (js := Reference.builtins)
                (warm_durable None) park_key "tags" park_row
                (warm_durable_live _)) as (Hnone & _).
    apply Hnone. reflexivity.
Defined.

(** C5 as worded fails: an unexpired durable row, a volatile tier that
    misses, a repopulation write that is rejected, and [get] reports
    absent. *)
Lemma durable_hit_lost_on_rejected_repopulation :
  ~ durable_hit_returns_row (js := Reference.builtins)
      (warm_durable (Some write_refusing_redis)) park_key "tags".
Proof.
  intros Hclaim.
  specialize (Hclaim park_row (warm_durable_live _) (or_introl eq_refl)).
  vm_compute in Hclaim. discriminate.
Qed.

(** ** [cacheResult] *)

Section Put.
Context {js : JSBuiltins}.

Lemma cacheResult_effect key type result w :
  cacheResult key type result w = (Returned tt, after_put key type result w).
Proof.
  unfold after_put, cache_ttl, stored_row. unfold_cache.
  rewrite andb_false_r. cbn.
  destruct (parseInt (or_default (process_env w !! "AI_CACHE_TTL") "3600"))
    as [s|] eqn:Httl;
    destruct (redis w) as [c|] eqn:Hr; cbn; repeat (rewrite Hr; cbn).
  - destruct (redis_writes_ok c && (0 <? s)%Z); cbn; [|reflexivity].
    destruct (db_up w); cbn; [|reflexivity].
    destruct (ai_cache w) as [rows|]; cbn; [|reflexivity].
    destruct (valid_time (now w + s * 1000)); reflexivity.
  - destruct (db_up w); cbn; [|reflexivity].
    destruct (ai_cache w) as [rows|]; cbn; [|reflexivity].
    destruct (valid_time (now w + s * 1000)); reflexivity.
  - reflexivity.
  - destruct (db_up w); cbn; [|reflexivity].
    destruct (ai_cache w) as [rows|]; cbn; reflexivity.
Qed.

(** A [cacheResult] touches the two cache tiers and the console. *)
Lemma after_put_frame key type result w :
  let w' := after_put key type result w in
  openai w' = openai w /\ db_up w' = db_up w /\
  diary_entries w' = diary_entries w /\ process_env w' = process_env w /\
  now w' = now w /\ provider_calls w' = provider_calls w.
Proof.
  unfold after_put. generalize (stored_row w type result). intros row.
  generalize (JSON_stringify result). intros text.
  destruct (redis w) as [c|];
    [destruct (cache_ttl w) as [s|];
       [destruct (redis_writes_ok c && (0 <? s)%Z)|]|];
    destruct (db_up w) eqn:Hup; try destruct (ai_cache w);
    try destruct (cache_ttl w) as [s'|];
    try match goal with
        | |- context [valid_time ?t] => destruct (valid_time t)
        end; cbn; repeat split; congruence.
Qed.

End Put.

Section Summary.
Context {js : JSBuiltins}.

(** [generateSummary] on a cache miss, one case per answer of the
    provider. *)
Lemma generateSummary_on_miss content w v w1 :
  getCachedResult (generateCacheKey content "summary") "summary" w
    = (Returned v, w1) ->
  truthy v = false ->
  generateSummary content w
    = match openai w with
      | None =>
          (Thrown (AppError "Failed to generate summary" 500),
           logged_error "Summary generation failed:" w1)
      | Some provider =>
          let w2 := set_provider_calls
                      (provider_calls w1 ++ [("summary", content)]) w1 in
          match provider "summary" content with
          | Rejected e =>
              (Thrown (AppError "Failed to generate summary" 500),
               logged_error "Summary generation failed:" w2)
          | Completed c =>
              (Returned (JStr (or_default c "")),
               after_put (generateCacheKey content "summary") "summary"
                         (JStr (or_default c "")) w2)
          end
      end.
Proof.
  intros Hget Hfalsy.
  pose proof (getCachedResult_frame (generateCacheKey content "summary")
                "summary" w) as Hframe.
  unfold world_after in Hframe. rewrite Hget in Hframe. cbn in Hframe.
  destruct Hframe as (Hopenai & _).
  unfold generateSummary. unfold bind at 1. rewrite Hget, Hfalsy.
  unfold try_catch, bind at 1. unfold chat_completions_create.
  rewrite Hopenai. destruct (openai w) as [provider|]; [|reflexivity].
  destruct (provider "summary" content) as [e|c]; [reflexivity|].
  unfold bind. rewrite cacheResult_effect. reflexivity.
Qed.

Lemma generateSummary_on_hit content w v w1 :
  getCachedResult (generateCacheKey content "summary") "summary" w
    = (Returned v, w1) ->
  truthy v = true ->
  generateSummary content w = (Returned v, w1).
Proof.
  intros Hget Htruthy. unfold generateSummary. unfold bind at 1.
  rewrite Hget, Htruthy. reflexivity.
Qed.

(** C6, as the code has it. [cacheResult] never raises. A rejected
    volatile write (the client refuses it, or the time to live is not a
    positive number) is logged and ends the call: the durable tier is not
    written. With no volatile client, or an accepted volatile write, a
    reachable durable tier is upserted with [expiresAt = now + ttl] when
    that instant is a valid date; a failure of the durable write (database
    unreachable, table missing, expiry not a valid date) is logged and
    changes nothing else. And [generateSummary] returns the text the
    provider produced whatever happened to the cache. *)
Theorem cacheResult_failure_isolation (w : World) (key type : string)
    (result : JSON) :
  result_of (cacheResult key type result) w = Returned tt
  /\ (forall c,
        redis w = Some c ->
        redis_writes_ok c = false \/ cache_ttl w = None
        \/ (exists s, cache_ttl w = Some s /\ (s <= 0)%Z) ->
        world_after (cacheResult key type result) w
          = logged_error "Cache storage failed:" w)
  /\ (forall ttl rows,
        db_up w = true -> ai_cache w = Some rows -> cache_ttl w = Some ttl ->
        valid_time (now w + ttl * 1000) = true ->
        (redis w = None \/
         exists c, redis w = Some c /\ redis_writes_ok c = true /\ (0 < ttl)%Z) ->
        ai_cache (world_after (cacheResult key type result) w)
          = Some (<[key := stored_row w type result ttl]> rows))
  /\ (volatile_write_passes w -> durable_write_fails w ->
      world_after (cacheResult key type result) w
        = logged_error "Cache storage failed:" (after_volatile_put key result w))
  /\ (forall content provider c v w1,
        openai w = Some provider -> provider "summary" content = Completed c ->
        getCachedResult (generateCacheKey content "summary") "summary" w
          = (Returned v, w1) ->
        truthy v = false ->
        result_of (generateSummary content) w = Returned (JStr (or_default c ""))).
Proof.
  unfold result_of, world_after. rewrite cacheResult_effect. cbn [fst snd].
  split; [reflexivity|]. split; [|split; [|split]].
  - intros c Hr Hrefused. unfold after_put. rewrite Hr.
    destruct Hrefused as [Hwrite|[Hnone|(s & Hsome & Hs)]].
    + rewrite Hwrite. cbn. destruct (cache_ttl w); reflexivity.
    + rewrite Hnone. reflexivity.
    + rewrite Hsome. destruct (Z.ltb_spec 0 s); [lia|].
      rewrite andb_false_r. reflexivity.
  - intros ttl rows Hup Hrows Httl Hdate Hvolatile. unfold after_put.
    rewrite Hup, Hrows, Httl, Hdate.
    destruct Hvolatile as [Hr | (c & Hr & Hwrite & Hpos)]; rewrite Hr.
    + reflexivity.
    + rewrite Hwrite. destruct (Z.ltb_spec 0 ttl); [reflexivity|lia].
  - unfold volatile_write_passes, durable_write_fails, after_put,
      after_volatile_put, new_Date.
    intros Hpasses Hfails.
    destruct (redis w) as [c|].
    + destruct Hpasses as (Hwrite & s & Httl & Hpos). rewrite Httl in *.
      rewrite Hwrite. destruct (Z.ltb_spec 0 s); [|lia]. cbn in *.
      destruct Hfails as [Hdown|[Hmissing|Hdate]].
      * rewrite Hdown. reflexivity.
      * rewrite Hmissing. destruct (db_up w); reflexivity.
      * destruct (valid_time (now w + s * 1000)); [discriminate|].
        destruct (db_up w); [destruct (ai_cache w)|]; reflexivity.
    + destruct Hfails as [Hdown|[Hmissing|Hdate]].
      * rewrite Hdown. reflexivity.
      * rewrite Hmissing. destruct (db_up w); reflexivity.
      * destruct (cache_ttl w) as [s|]; cbn in Hdate.
        -- destruct (valid_time (now w + s * 1000)); [discriminate|].
           destruct (db_up w); [destruct (ai_cache w)|]; reflexivity.
        -- destruct (db_up w); [destruct (ai_cache w)|]; reflexivity.
  - intros content provider c v w1 Hp Hreply Hget Hfalsy.
    rewrite (generateSummary_on_miss _ _ _ _ Hget Hfalsy), Hp. cbn.
    rewrite Hreply. reflexivity.
Qed.

End Summary.

Lemma cacheResult_failure_isolation_witness :
  result_of (cacheResult (js := Reference.builtins) park_key "tags" park_tags)
            unconfigured = Returned tt
  /\ world_after (cacheResult (js := Reference.builtins) park_key "tags" park_tags)
                 (set_redis (Some write_refusing_redis) unconfigured)
     = logged_error "Cache storage failed:"
         (set_redis (Some write_refusing_redis) unconfigured)
  /\ ai_cache (world_after
                 (cacheResult (js := Reference.builtins) park_key "tags" park_tags)
                 unconfigured)
     = Some (<[park_key := stored_row unconfigured "tags" park_tags 3600]> ∅)
  /\ world_after (cacheResult (js := Reference.builtins) park_key "tags" park_tags)
                 (set_ai_cache None unconfigured)
     = logged_error "Cache storage failed:"
         (after_volatile_put (js := Reference.builtins) park_key park_tags
            (set_ai_cache None unconfigured))
  /\ result_of (generateSummary (js := Reference.builtins)
                  "Had a great day at the park") configured
     = Returned (JStr "A happy day outdoors.").
Proof.
  destruct (cacheResult_failure_isolation (js := Reference.builtins)
              unconfigured park_key "tags" park_tags) as (Hret & _ & Hupsert & _).
  destruct (cacheResult_failure_isolation (js := Reference.builtins)
              (set_redis (Some write_refusing_redis) unconfigured)
              park_key "tags" park_tags) as (_ & Hrefused & _).
  destruct (cacheResult_failure_isolation (js := Reference.builtins)
              (set_ai_cache None unconfigured)
              park_key "tags" park_tags) as (_ & _ & _ & Hdurable & _).
  destruct (cacheResult_failure_isolation (js := Reference.builtins)
              configured park_key "tags" park_tags) as (_ & _ & _ & _ & Hsummary).
  split; [exact Hret|]. split; [|split; [|split]].
  - apply (Hrefused write_refusing_redis); [reflexivity|left; reflexivity].
  - apply Hupsert; [reflexivity|reflexivity|reflexivity|reflexivity|].
    right. exists healthy_redis. repeat split; reflexivity.
  - apply Hdurable.
    + split; [reflexivity|]. exists 3600. split; [reflexivity|lia].
    + right. left. reflexivity.
  - apply (Hsummary "Had a great day at the park" obliging_provider
             (Some "A happy day outdoors.") JNull configured);
      [reflexivity|reflexivity|vm_compute; reflexivity|reflexivity].
Defined.

(** C6 as worded fails: the volatile write is rejected, the call returns,
    and the durable tier has no row for the key. *)
Lemma rejected_volatile_write_skips_durable_upsert :
  ~ put_always_upserts (js := Reference.builtins)
      (set_redis (Some write_refusing_redis) unconfigured) park_key "tags" park_tags.
Proof.
  intros Hclaim.
  destruct (Hclaim 3600) as (_ & Hrow);
    [reflexivity | eexists; reflexivity | reflexivity |].
  vm_compute in Hrow. discriminate.
Qed.

(** ** [cacheResult] followed by [getCachedResult] *)

Section RoundTrip.
Context {js : JSBuiltins}.

Lemma after_put_volatile key type result w c ttl :
  redis w = Some c -> cache_ttl w = Some ttl ->
  redis_writes_ok c = true -> (0 < ttl)%Z ->
  redis (after_put key type result w)
    = Some (redis_after_setex c key ttl (now w) (JSON_stringify result))
  /\ now (after_put key type result w) = now w.
Proof.
  intros Hr Httl Hwrite Hpos. unfold after_put. rewrite Hr, Httl, Hwrite.
  destruct (Z.ltb_spec 0 ttl); [|lia]. cbn.
  destruct (db_up w); [destruct (ai_cache w);
                       [destruct (valid_time (now w + ttl * 1000))|]|];
    split; reflexivity.
Qed.

(** C9, as the code has it. A [cacheResult] followed, before the time to
    live has passed, by a [getCachedResult] for the same key and type
    returns the written result, when the expiry [now + ttl] is a valid
    date,
    - through the durable tier when the process has no volatile client and
      the durable tier is reachable;
    - through the volatile tier when its client accepts the write and the
      read, for a result that [JSON.parse] reads back from its
      [JSON.stringify] text.
    When the client rejects the write, neither tier is written; when it
    also rejects the read, the lookup reports absent. When the expiry is
    not a valid date and the process has no volatile client, nothing is
    stored. *)
Theorem cacheResult_then_getCachedResult (w : World) (key type : string)
    (result : JSON) (ttl elapsed : Z) :
  cache_ttl w = Some ttl -> (0 < ttl)%Z -> (0 <= elapsed < ttl * 1000)%Z ->
  let w' := advance elapsed (world_after (cacheResult key type result) w) in
  (valid_time (now w + ttl * 1000) = true ->
   redis w = None -> db_up w = true -> is_Some (ai_cache w) ->
     result_of (getCachedResult key type) w' = Returned result)
  /\ (forall c,
        valid_time (now w + ttl * 1000) = true ->
        redis w = Some c -> redis_writes_ok c = true -> redis_reads_ok c = true ->
        JSON_parse (JSON_stringify result) = Some result ->
        string_truthy (JSON_stringify result) = true ->
        result_of (getCachedResult key type) w' = Returned result)
  /\ (forall c,
        redis w = Some c -> redis_writes_ok c = false ->
        same_stores w (world_after (cacheResult key type result) w)
        /\ (redis_reads_ok c = false ->
            result_of (getCachedResult key type) w' = Returned JNull))
  /\ (valid_time (now w + ttl * 1000) = false -> redis w = None ->
      same_stores w (world_after (cacheResult key type result) w)).
Proof.
  intros Httl Hpos Helapsed. unfold world_after. rewrite cacheResult_effect.
  cbn [snd]. split; [|split; [|split]].
  - intros Hdate Hr Hup [rows Hrows]. unfold after_put.
    rewrite Hr, Hup, Hrows, Httl, Hdate. unfold result_of.
    rewrite getCachedResult_volatile_miss.
    + rewrite (durable_phase_live _ _ _ (stored_row w type result ttl)).
      * cbn. rewrite Hr. reflexivity.
      * unfold durable_live, durable_row. cbn. rewrite lookup_insert_eq.
        repeat split; [assumption|lia].
    + unfold volatile_misses, volatile_text. cbn. rewrite Hr. reflexivity.
    + cbn. intros c Hc. congruence.
  - intros c Hdate Hr Hwrite Hread Hparse Htruthy.
    destruct (after_put_volatile key type result w c ttl Hr Httl Hwrite Hpos)
      as (Hr' & Hnow).
    unfold result_of.
    rewrite (getCachedResult_volatile_hit key type _
               (redis_after_setex c key ttl (now w) (JSON_stringify result))
               (JSON_stringify result)).
    + rewrite Hparse. reflexivity.
    + cbn. exact Hr'.
    + exact Hread.
    + unfold volatile_text, redis_lookup. cbn. rewrite Hr'. cbn.
      rewrite lookup_insert_eq. cbn.
      rewrite Hnow. destruct (Z.ltb_spec (now w + elapsed) (now w + ttl * 1000));
        [reflexivity|lia].
    + exact Htruthy.
  - intros c Hr Hwrite. unfold after_put. rewrite Hr, Httl, Hwrite. cbn.
    split; [repeat split; reflexivity|].
    intros Hread. unfold result_of.
    rewrite (getCachedResult_read_rejected key type _ c); [reflexivity| |exact Hread].
    cbn. exact Hr.
  - intros Hdate Hr. unfold after_put. rewrite Hr, Httl, Hdate.
    destruct (db_up w); [destruct (ai_cache w)|]; cbn;
      repeat split; try reflexivity; exact Hr.
Qed.

End RoundTrip.

Lemma cacheResult_then_getCachedResult_witness :
  result_of (getCachedResult (js := Reference.builtins) park_key "tags")
    (advance 1000
       (world_after (cacheResult (js := Reference.builtins) park_key "tags" park_tags)
                    (set_redis None unconfigured)))
    = Returned park_tags
  /\ result_of (getCachedResult (js := Reference.builtins) park_key "tags")
       (advance 1000
          (world_after (cacheResult (js := Reference.builtins) park_key "tags" park_tags)
                       unconfigured))
     = Returned park_tags
  /\ same_stores beyond_dates
       (world_after (cacheResult (js := Reference.builtins) park_key "tags" park_tags)
                    beyond_dates).
Proof.
  split; [|split].
  - destruct (cacheResult_then_getCachedResult (js := Reference.builtins)
                (set_redis None unconfigured) park_key "tags" park_tags 3600 1000)
      as (Hdurable & _); [reflexivity|lia|lia|].
    apply Hdurable; [reflexivity|reflexivity|reflexivity|eexists; reflexivity].
  - destruct (cacheResult_then_getCachedResult (js := Reference.builtins)
                unconfigured park_key "tags" park_tags 3600 1000)
      as (_ & Hvolatile & _); [reflexivity|lia|lia|].
    apply (Hvolatile healthy_redis); reflexivity.
  - destruct (cacheResult_then_getCachedResult (js := Reference.builtins)
                beyond_dates park_key "tags" park_tags 9000000000000 1000)
      as (_ & _ & _ & Hbeyond); [reflexivity|lia|lia|].
    apply Hbeyond; reflexivity.
Defined.

(** C9 as worded fails: with a volatile client whose commands are rejected
    (server unreachable) and a sound durable tier, the [put] writes nothing
    and the [get] that follows reports absent. *)
Lemma round_trip_lost_when_redis_unreachable :
  ~ put_get_round_trip (js := Reference.builtins)
      (set_redis (Some unreachable_redis) unconfigured) park_key "tags" park_tags.
Proof.
  intros Hclaim.
  specialize (Hclaim 3600 0 eq_refl (ex_intro _ _ eq_refl) eq_refl).
  assert (Hget := Hclaim ltac:(lia) ltac:(lia)).
  vm_compute in Hget. discriminate.
Qed.

(** ** Expiry *)

Lemma cleanupExpiredCache_durable_row w rows key :
  db_up w = true -> ai_cache w = Some rows ->
  durable_row (world_after cleanupExpiredCache w) key
    = match rows !! key with
      | Some row => if (row_expiresAt row <? now w)%Z then None else Some row
      | None => None
      end.
Proof.
  intros Hup Hrows. unfold world_after. rewrite cleanupExpiredCache_effect.
  cbn [snd]. rewrite Hup, Hrows. cbv zeta.
  transitivity (swept (now w) rows !! key); [|apply swept_lookup].
  destruct (0 <? size rows - size (swept (now w) rows))%nat; reflexivity.
Qed.

Section Expiry.
Context {js : JSBuiltins}.

(** C7, as the code has it. A durable row whose [expiresAt] is in the past
    is never selected by the durable lookup: [get] reports absent unless
    the volatile tier still answers for the key. A sweep that reaches the
    table deletes every row with [expiresAt < now], this one included,
    and keeps every row with [expiresAt >= now]. *)
Theorem expired_row_not_selected_then_swept (w : World) (key type : string)
    (row : AICacheRow) :
  durable_row w key = Some row -> (row_expiresAt row < now w)%Z ->
  (volatile_misses w key \/ volatile_unavailable w ->
     result_of (getCachedResult key type) w = Returned JNull)
  /\ (db_up w = true ->
        durable_row (world_after cleanupExpiredCache w) key = None)
  /\ (forall key' row',
        db_up w = true -> durable_row w key' = Some row' ->
        (now w <= row_expiresAt row')%Z ->
        durable_row (world_after cleanupExpiredCache w) key' = Some row').
Proof.
  intros Hrow Hpast. split; [|split].
  - intros Hvolatile. unfold result_of.
    destruct (redis w) as [c|] eqn:Hr.
    + destruct (redis_reads_ok c) eqn:Hread.
      * destruct Hvolatile as [Hmiss|Hun];
          [|unfold volatile_unavailable in Hun; rewrite Hr in Hun; congruence].
        rewrite getCachedResult_volatile_miss; [|exact Hmiss|congruence].
        apply (durable_phase_expired key type w).
        intros row0 Hrow0. rewrite Hrow in Hrow0. injection Hrow0 as <-. lia.
      * rewrite (getCachedResult_read_rejected _ _ _ c Hr Hread). reflexivity.
    + rewrite getCachedResult_volatile_miss.
      * apply (durable_phase_expired key type w).
        intros row0 Hrow0. rewrite Hrow in Hrow0. injection Hrow0 as <-. lia.
      * unfold volatile_misses, volatile_text. rewrite Hr. reflexivity.
      * congruence.
  - intros Hup. unfold durable_row in Hrow.
    destruct (ai_cache w) as [rows|] eqn:Hrows; [|discriminate].
    rewrite (cleanupExpiredCache_durable_row w rows key Hup Hrows), Hrow.
    destruct (Z.ltb_spec (row_expiresAt row) (now w)); [reflexivity|lia].
  - intros key' row' Hup Hrow' Hlive. unfold durable_row in Hrow'.
    destruct (ai_cache w) as [rows|] eqn:Hrows; [|discriminate].
    rewrite (cleanupExpiredCache_durable_row w rows key' Hup Hrows), Hrow'.
    destruct (Z.ltb_spec (row_expiresAt row') (now w)); [lia|reflexivity].
Qed.

End Expiry.

Lemma expired_row_not_selected_then_swept_witness :
  result_of (getCachedResult (js := Reference.builtins) park_key "tags")
            (advance 3600000 (warm_durable None)) = Returned JNull
  /\ durable_row (world_after cleanupExpiredCache (advance 3600000 (warm_durable None)))
                 park_key = None.
Proof.
  destruct (expired_row_not_selected_then_swept (js := Reference.builtins)
              (advance 3600000 (warm_durable None)) park_key "tags" park_row)
    as (Hget & Hsweep & _); [vm_compute; reflexivity | reflexivity |].
  split.
  - apply Hget. left. reflexivity.
  - apply Hsweep. reflexivity.
Defined.

(** C7 as worded fails twice. A row past its expiry is still served while
    the volatile tier holds the text a late repopulation wrote; and the
    sweep leaves the row whose [expiresAt] equals now. *)
Lemma expired_row_served_and_boundary_row_kept :
  ~ expired_row_never_returned (js := Reference.builtins)
      stale_volatile park_key "tags"
  /\ ~ sweep_deletes_up_to_now at_expiry.
Proof.
  split.
  - intros Hclaim.
    assert (Hget := Hclaim park_row ltac:(vm_compute; reflexivity)
                                    ltac:(vm_compute; reflexivity)).
    vm_compute in Hget. discriminate.
  - intros Hclaim.
    assert (Hlive := Hclaim eq_refl (ex_intro _ _ eq_refl) park_key park_row
                            ltac:(vm_compute; reflexivity)).
    vm_compute in Hlive. discriminate.
Qed.

(** The scenario of section 8 on a sound process: cold lookup, store,
    lookup, expiry, sweep. *)
Example park_scenario :
  let get := getCachedResult (js := Reference.builtins) park_key "tags" in
  let stored :=
    world_after (cacheResult (js := Reference.builtins) park_key "tags" park_tags)
                unconfigured in
  let later := advance 3600001 stored in
  result_of get unconfigured = Returned JNull
  /\ result_of get stored = Returned park_tags
  /\ result_of get later = Returned JNull
  /\ durable_row later park_key = Some park_row
  /\ durable_row (world_after cleanupExpiredCache later) park_key = None.
Proof. vm_compute. repeat split; reflexivity. Qed.

(** ** The three analyses *)

Section Analyses.
Context {js : JSBuiltins}.

(** C2, on the code. Without a provider, [analyzeSentiment] returns the
    neutral sentiment and [generateTags] the empty list, and nothing is
    raised; [generateSummary] has no such guard: unless the cache answers
    with a non-empty value, it reads [chat] off the [null] client and
    rejects with its [AppError] of status 500. *)
Theorem unconfigured_provider_results (w : World) (content : string) :
  openai w = None ->
  result_of (analyzeSentiment content) w = Returned neutral_sentiment
  /\ result_of (generateTags content) w = Returned (JArr [])
  /\ (forall v w1,
        getCachedResult (generateCacheKey content "summary") "summary" w
          = (Returned v, w1) ->
        truthy v = false ->
        result_of (generateSummary content) w
          = Thrown (AppError "Failed to generate summary" 500)).
Proof.
  intros Hp. unfold result_of.
  rewrite (analyzeSentiment_unconfigured _ _ Hp), (generateTags_unconfigured _ _ Hp).
  split; [reflexivity|]. split; [reflexivity|].
  intros v w1 Hget Hfalsy.
  rewrite (generateSummary_on_miss _ _ _ _ Hget Hfalsy), Hp. reflexivity.
Qed.

(** C3, on the code. With a provider configured, [analyzeSentiment] and
    [generateTags] send their request whatever the cache holds: they never
    look a key up. [generateSummary] does consult the cache first: on a
    hit with a non-empty value it returns that value and sends nothing; on
    a miss it sends one request. *)
Theorem only_generateSummary_consults_cache (w : World) (content : string) :
  is_Some (openai w) ->
  provider_calls (world_after (analyzeSentiment content) w)
    = (provider_calls w ++ [("sentiment", content)])%list
  /\ provider_calls (world_after (generateTags content) w)
    = (provider_calls w ++ [("tags", content)])%list
  /\ (forall v w1,
        getCachedResult (generateCacheKey content "summary") "summary" w
          = (Returned v, w1) ->
        (truthy v = true ->
           result_of (generateSummary content) w = Returned v
           /\ provider_calls (world_after (generateSummary content) w)
              = provider_calls w)
        /\ (truthy v = false ->
              provider_calls (world_after (generateSummary content) w)
              = (provider_calls w ++ [("summary", content)])%list)).
Proof.
  intros [provider Hp]. unfold result_of, world_after.
  rewrite (analyzeSentiment_configured _ _ _ Hp),
    (generateTags_configured _ _ _ Hp).
  split; [reflexivity|]. split; [reflexivity|].
  intros v w1 Hget.
  pose proof (getCachedResult_frame (generateCacheKey content "summary")
                "summary" w) as Hframe.
  unfold world_after in Hframe. rewrite Hget in Hframe. cbn in Hframe.
  destruct Hframe as (_ & _ & _ & _ & _ & _ & Hcalls).
  split.
  - intros Htruthy. rewrite (generateSummary_on_hit _ _ _ _ Hget Htruthy).
    split; [reflexivity|exact Hcalls].
  - intros Hfalsy. rewrite (generateSummary_on_miss _ _ _ _ Hget Hfalsy), Hp.
    cbn. destruct (provider "summary" content) as [e|c]; cbn.
    + rewrite Hcalls. reflexivity.
    + match goal with
      | |- provider_calls (after_put ?k ?t ?r ?w2) = _ =>
          destruct (after_put_frame k t r w2) as (_ & _ & _ & _ & _ & ->)
      end.
      cbn. rewrite Hcalls. reflexivity.
Qed.

End Analyses.

Lemma unconfigured_provider_results_witness :
  result_of (analyzeSentiment (js := Reference.builtins) park_content) unconfigured
    = Returned neutral_sentiment
  /\ result_of (generateTags (js := Reference.builtins) park_content) unconfigured
     = Returned (JArr [])
  /\ result_of (generateSummary (js := Reference.builtins) park_content) unconfigured
     = Thrown (AppError "Failed to generate summary" 500).
Proof.
  destruct (unconfigured_provider_results (js := Reference.builtins)
              unconfigured park_content eq_refl) as (Hsentiment & Htags & Hsummary).
  split; [exact Hsentiment|]. split; [exact Htags|].
  apply (Hsummary JNull unconfigured); [vm_compute; reflexivity|reflexivity].
Defined.

Lemma only_generateSummary_consults_cache_witness :
  result_of (getCachedResult (js := Reference.builtins)
               (generateCacheKey park_content "sentiment") "sentiment")
            cached_sentiment = Returned park_sentiment
  /\ provider_calls
       (world_after (analyzeSentiment (js := Reference.builtins) park_content)
                    cached_sentiment)
     = [("sentiment", park_content)]
  /\ result_of (generateSummary (js := Reference.builtins) park_content)
               cached_summary = Returned (JStr "A happy day outdoors.")
  /\ provider_calls
       (world_after (generateSummary (js := Reference.builtins) park_content)
                    cached_summary)
     = [].
Proof.
  destruct (only_generateSummary_consults_cache (js := Reference.builtins)
              cached_sentiment park_content (ex_intro _ _ eq_refl))
    as (Hsentiment & _ & _).
  destruct (only_generateSummary_consults_cache (js := Reference.builtins)
              cached_summary park_content (ex_intro _ _ eq_refl))
    as (_ & _ & Hsummary).
  destruct (Hsummary (JStr "A happy day outdoors.") cached_summary
              ltac:(vm_compute; reflexivity)) as (Hhit & _).
  destruct (Hhit eq_refl) as (Hvalue & Hcalls).
  split; [vm_compute; reflexivity|]. split; [exact Hsentiment|].
  split; [exact Hvalue|exact Hcalls].
Defined.

(** ** [processAIAnalysis] *)

Lemma processAIAnalysis_with_effect ai entryId content w :
  processAIAnalysis_with ai entryId content w =
    let '(r1, r2, r3, w3) := settled ai content w in
    let failed := logged_error ("AI analysis failed for entry: " ++ entryId) in
    match r1, r2, r3 with
    | Returned s, Returned t, Returned m =>
        match diaryEntry_update entryId s t m w3 with
        | (Returned _, w4) =>
            (Returned tt,
             set_console
               (console w4 ++ [(LogInfo, "AI analysis completed for entry: " ++ entryId)])
               w4)
        | (Thrown _, w4) => (Returned tt, failed w4)
        end
    | _, _, _ => (Returned tt, failed w3)
    end.
Proof.
  unfold processAIAnalysis_with, Promise_all3, settled, logged_error. step.
  destruct (svc_analyzeSentiment ai content w) as [r1 w1].
  destruct (svc_generateTags ai content w1) as [r2 w2].
  destruct (svc_generateSummary ai content w2) as [r3 w3].
  destruct r1 as [s|e1], r2 as [t|e2], r3 as [m|e3]; try reflexivity.
  destruct (diaryEntry_update entryId s t m w3) as [[[]|e] w4]; reflexivity.
Qed.

Lemma diaryEntry_update_entries entryId s t m w :
  diary_entries (snd (diaryEntry_update entryId s t m w))
  = if db_up w then
      match diary_entries w !! entryId, as_string_array t, as_string m with
      | Some e, Some ts, Some sm => <[entryId := enriched e s ts sm]> (diary_entries w)
      | _, _, _ => diary_entries w
      end
    else diary_entries w.
Proof.
  unfold diaryEntry_update, enriched.
  destruct (db_up w); [|reflexivity].
  destruct (diary_entries w !! entryId) as [e|]; [|reflexivity].
  destruct (as_string_array t); [|reflexivity].
  destruct (as_string m); reflexivity.
Qed.

Section RealService.
Context {js : JSBuiltins}.

Lemma after_put_entries key type result w :
  diary_entries (after_put key type result w) = diary_entries w.
Proof. apply after_put_frame. Qed.

Lemma generateSummary_entries content w :
  diary_entries (world_after (generateSummary content) w) = diary_entries w.
Proof.
  destruct (getCachedResult_never_raises (generateCacheKey content "summary")
              "summary" w) as [v Hv].
  pose proof (getCachedResult_frame (generateCacheKey content "summary")
                "summary" w) as Hframe.
  unfold result_of, world_after in *.
  destruct (getCachedResult (generateCacheKey content "summary") "summary" w)
    as [r w1] eqn:Hget.
  cbn in Hv, Hframe. subst r. destruct Hframe as (_ & _ & _ & Hentries & _).
  destruct (truthy v) eqn:Htruthy.
  - rewrite (generateSummary_on_hit _ _ _ _ Hget Htruthy). exact Hentries.
  - rewrite (generateSummary_on_miss _ _ _ _ Hget Htruthy).
    destruct (openai w) as [provider|]; cbn; [|exact Hentries].
    destruct (provider "summary" content); cbn; [exact Hentries|].
    rewrite after_put_entries. exact Hentries.
Qed.

(** The analyses of the real service never write the diary table. *)
Lemma settled_entries content w r1 r2 r3 w3 :
  settled AIService_getInstance content w = (r1, r2, r3, w3) ->
  diary_entries w3 = diary_entries w.
Proof.
  unfold settled. cbn [svc_analyzeSentiment svc_generateTags svc_generateSummary
                       AIService_getInstance].
  destruct (analyzeSentiment content w) as [o1 w1] eqn:H1.
  destruct (generateTags content w1) as [o2 w2] eqn:H2.
  destruct (generateSummary content w2) as [o3 w3'] eqn:H3.
  intros [= _ _ _ <-].
  pose proof (generateSummary_entries content w2) as E3.
  unfold world_after in E3. rewrite H3 in E3. cbn in E3. rewrite E3.
  assert (E2 : diary_entries w2 = diary_entries w1).
  { destruct (openai w1) as [p|] eqn:Hp.
    - rewrite (generateTags_configured _ _ _ Hp) in H2. injection H2 as _ <-.
      reflexivity.
    - rewrite (generateTags_unconfigured _ _ Hp) in H2. injection H2 as _ <-.
      reflexivity. }
  assert (E1 : diary_entries w1 = diary_entries w).
  { destruct (openai w) as [p|] eqn:Hp.
    - rewrite (analyzeSentiment_configured _ _ _ Hp) in H1. injection H1 as _ <-.
      reflexivity.
    - rewrite (analyzeSentiment_unconfigured _ _ Hp) in H1. injection H1 as _ <-.
      reflexivity. }
  congruence.
Qed.

End RealService.

(** C1, as the code has it. The pass never raises. It is all or nothing:
    if any of the three analyses fails, the entry table is left as the
    analyses left it, no field is persisted, and the failure is logged
    with the entry identifier: the pass adds that one line to the console
    and changes nothing else (the line is fixed up to the order of the
    console, in which the lines of analyses still running may follow it).
    If the three succeed, one update sets the three fields of the entry
    together and the completion is logged; an update that the database
    refuses is logged as a failure, with the entry identifier, and
    persists nothing. The analyses of [AIService] themselves never write
    the entry table. *)
Theorem processAIAnalysis_all_or_nothing (ai : AnalysisService) (w : World)
    (entryId content : string) (r1 r2 r3 : Outcome JSON) (w3 : World) :
  settled ai content w = (r1, r2, r3, w3) ->
  let final := world_after (processAIAnalysis_with ai entryId content) w in
  let failure_line := (LogError, "AI analysis failed for entry: " ++ entryId) in
  let completion_line := (LogInfo, "AI analysis completed for entry: " ++ entryId) in
  result_of (processAIAnalysis_with ai entryId content) w = Returned tt
  /\ ((exists e, r1 = Thrown e) \/ (exists e, r2 = Thrown e) \/ (exists e, r3 = Thrown e) ->
      diary_entries final = diary_entries w3
      /\ exists lines,
           final = set_console lines w3
           /\ Permutation lines (console w3 ++ [failure_line])%list)
  /\ (forall s t m e ts sm,
        r1 = Returned s -> r2 = Returned t -> r3 = Returned m ->
        db_up w3 = true -> diary_entries w3 !! entryId = Some e ->
        as_string_array t = Some ts -> as_string m = Some sm ->
        diary_entries final = <[entryId := enriched e s ts sm]> (diary_entries w3)
        /\ console final = (console w3 ++ [completion_line])%list)
  /\ (forall s t m e,
        r1 = Returned s -> r2 = Returned t -> r3 = Returned m ->
        result_of (diaryEntry_update entryId s t m) w3 = Thrown e ->
        final = set_console (console w3 ++ [failure_line])%list w3)
  /\ (forall js : JSBuiltins,
        ai = AIService_getInstance -> diary_entries w3 = diary_entries w).
Proof.
  intros Hsettled. unfold result_of, world_after.
  rewrite processAIAnalysis_with_effect, Hsettled.
  split; [|split; [|split; [|split]]].
  - destruct r1, r2, r3; try reflexivity.
    destruct (diaryEntry_update entryId a a0 a1 w3) as [[[]|e] w4]; reflexivity.
  - intros Hfail.
    assert (Hlogged :
      diary_entries (logged_error ("AI analysis failed for entry: " ++ entryId) w3)
        = diary_entries w3
      /\ exists lines,
           logged_error ("AI analysis failed for entry: " ++ entryId) w3
             = set_console lines w3
           /\ Permutation lines
                (console w3
                   ++ [(LogError, ("AI analysis failed for entry: " ++ entryId)%string)])%list).
    { split; [reflexivity|]. eexists. split; [reflexivity|]. reflexivity. }
    destruct r1 as [s|e1], r2 as [t|e2], r3 as [m|e3]; try exact Hlogged.
    destruct Hfail as [[e He]|[[e He]|[e He]]]; discriminate.
  - intros s t m e ts sm -> -> -> Hup He Hts Hsm.
    unfold diaryEntry_update. rewrite Hup, He, Hts, Hsm. cbn.
    split; reflexivity.
  - intros s t m e -> -> ->. unfold diaryEntry_update.
    destruct (db_up w3); [|reflexivity].
    destruct (diary_entries w3 !! entryId); [|reflexivity].
    destruct (as_string_array t); [|reflexivity].
    destruct (as_string m); [discriminate|reflexivity].
  - intros js ->. exact (settled_entries content w r1 r2 r3 w3 Hsettled).
Qed.

Lemma processAIAnalysis_all_or_nothing_witness :
  diary_entries
    (world_after (processAIAnalysis_with tags_failing_service "e1" park_content)
                 unconfigured)
    = diary_entries unconfigured
  /\ In (LogError, "AI analysis failed for entry: e1")
       (console
          (world_after (processAIAnalysis_with tags_failing_service "e1" park_content)
                       unconfigured))
  /\ diary_entries
       (world_after (processAIAnalysis (js := Reference.builtins) "e1" park_content)
                    unconfigured_with_summary)
     = <["e1" := enriched fresh_entry neutral_sentiment [] "A happy day outdoors."]>
         (diary_entries unconfigured_with_summary).
Proof.
  destruct (processAIAnalysis_all_or_nothing tags_failing_service unconfigured
              "e1" park_content
              (Returned park_sentiment)
              (Thrown (AppError "Failed to generate tags" 500))
              (Returned (JStr "A happy day outdoors.")) unconfigured eq_refl)
    as (_ & Hnothing & _).
  destruct Hnothing as (Hentries & lines & Hfinal & Hlines);
    [right; left; eexists; reflexivity|].
  split; [exact Hentries|]. split.
  - rewrite Hfinal. cbn [console set_console].
    apply (Permutation_in _ (Permutation_sym Hlines)).
    apply in_or_app. right. left. reflexivity.
  - destruct (processAIAnalysis_all_or_nothing
                (AIService_getInstance (js := Reference.builtins))
                unconfigured_with_summary "e1" park_content
                (Returned neutral_sentiment) (Returned (JArr []))
                (Returned (JStr "A happy day outdoors."))
                (snd (settled (AIService_getInstance (js := Reference.builtins))
                        park_content unconfigured_with_summary))
                ltac:(vm_compute; reflexivity))
      as (_ & _ & Hall & _ & Hframe).
    rewrite (Hframe Reference.builtins eq_refl) in Hall.
    apply (Hall neutral_sentiment (JArr []) (JStr "A happy day outdoors.")
             fresh_entry [] "A happy day outdoors.");
      try reflexivity; vm_compute; reflexivity.
Defined.

(** C1 as worded fails: without a provider and with a cold cache, sentiment
    and tags succeed and the summary fails; the entry keeps no sentiment. *)
Lemma succeeded_fields_dropped_on_partial_failure :
  ~ persists_exactly_succeeded (AIService_getInstance (js := Reference.builtins))
      unconfigured "e1" park_content.
Proof.
  intros Hclaim. specialize (Hclaim fresh_entry ltac:(vm_compute; reflexivity)).
  vm_compute in Hclaim. destruct Hclaim as (e' & He' & Hsentiment & _).
  injection He' as <-. discriminate Hsentiment.
Qed.

(** * Properties of the further code *)

Lemma is_white_space : is_white space = true.
Proof. reflexivity. Qed.

Lemma ends_ink_nonempty a b u rest : ends_ink a (u :: rest) = ends_ink b (u :: rest).
Proof. reflexivity. Qed.

Lemma trimStart_head text :
  match trimStart text with u :: _ => is_white u = false | [] => True end.
Proof.
  induction text as [|u rest IH]; cbn; [exact I|].
  destruct (is_white u) eqn:Hu; [exact IH|exact Hu].
Qed.

Lemma trimEnd_cons_ink u rest :
  is_white u = false -> trimEnd (u :: rest) = u :: trimEnd rest.
Proof. cbn. intros ->. destruct (trimEnd rest); reflexivity. Qed.

Lemma trimEnd_ends_ink text : ends_ink false (trimEnd text) = true.
Proof.
  induction text as [|u rest IH]; cbn; [reflexivity|].
  destruct (trimEnd rest) as [|v kept] eqn:Hkept.
  - destruct (is_white u) eqn:Hu; cbn; [reflexivity|]. rewrite Hu. reflexivity.
  - exact IH.
Qed.

Lemma trimEnd_head text u rest :
  trimEnd text = u :: rest -> exists tail, text = u :: tail.
Proof.
  destruct text as [|v tail]; cbn; [discriminate|].
  destruct (trimEnd tail); [destruct (is_white v)|]; intros [= -> _] || discriminate;
    eauto.
Qed.

(** After [trim] a text is empty or starts and ends with ink. *)
Lemma trim_shape text :
  match trim text with
  | [] => True
  | u :: rest => is_white u = false /\ ends_ink false rest = true
  end.
Proof.
  unfold trim. pose proof (trimStart_head text) as Hhead.
  pose proof (trimEnd_ends_ink (trimStart text)) as Hend.
  destruct (trimEnd (trimStart text)) as [|u rest] eqn:Htrim; [exact I|].
  destruct (trimEnd_head _ _ _ Htrim) as [tail Htail].
  rewrite Htail in Hhead. split; [exact Hhead|].
  cbn in Hend. rewrite Hhead in Hend. exact Hend.
Qed.

Lemma collapse_single_spaced a text :
  ends_ink a text = true -> single_spaced a (collapse_runs a text) = true.
Proof.
  revert a. induction text as [|u rest IH]; intros a Hend; cbn in *; [exact Hend|].
  destruct (is_white u) eqn:Hu.
  - destruct a; cbn.
    + apply IH. exact Hend.
    + rewrite is_white_space. cbn. apply IH. exact Hend.
  - cbn. rewrite Hu. apply IH. exact Hend.
Qed.

Lemma sanitizeText_sanitized text : sanitized (sanitizeText text) = true.
Proof.
  unfold sanitizeText. pose proof (trim_shape text) as Hshape.
  destruct (trim text) as [|u rest]; [reflexivity|]. destruct Hshape as [Hu Hend].
  cbn. rewrite Hu. cbn. rewrite Hu. apply collapse_single_spaced. exact Hend.
Qed.

Lemma single_spaced_trimEnd a text : single_spaced a text = true -> trimEnd text = text.
Proof.
  revert a. induction text as [|u rest IH]; intros a H; cbn in *; [reflexivity|].
  destruct (is_white u) eqn:Hu.
  - apply andb_true_iff in H as [_ H]. rewrite (IH _ H).
    destruct rest; [discriminate|reflexivity].
  - rewrite (IH _ H). destruct rest; reflexivity.
Qed.

Lemma single_spaced_collapse a text :
  single_spaced a text = true -> collapse_runs a text = text.
Proof.
  revert a. induction text as [|u rest IH]; intros a H; cbn in *; [reflexivity|].
  destruct (is_white u) eqn:Hu.
  - apply andb_true_iff in H as [H Hrest]. apply andb_true_iff in H as [Hsp Ha].
    apply N.eqb_eq in Hsp. destruct a; [discriminate|]. rewrite (IH _ Hrest).
    congruence.
  - rewrite (IH _ H). reflexivity.
Qed.

Lemma sanitized_fixed text : sanitized text = true -> sanitizeText text = text.
Proof.
  destruct text as [|u rest]; [reflexivity|]. intros H. cbn in H.
  destruct (is_white u) eqn:Hu.
  { rewrite andb_false_r in H. discriminate. }
  unfold sanitizeText, trim.
  assert (Hs : single_spaced true (u :: rest) = true) by (cbn; rewrite Hu; exact H).
  cbn [trimStart]. rewrite Hu, (single_spaced_trimEnd _ _ Hs).
  cbn. rewrite Hu, (single_spaced_collapse _ _ H). reflexivity.
Qed.

Lemma ink_trimStart text : ink (trimStart text) = ink text.
Proof.
  unfold ink. induction text as [|u rest IH]; cbn; [reflexivity|].
  destruct (is_white u) eqn:Hu; cbn; [exact IH|]. rewrite Hu. reflexivity.
Qed.

Lemma ink_trimEnd text : ink (trimEnd text) = ink text.
Proof.
  unfold ink. induction text as [|u rest IH]; cbn; [reflexivity|].
  rewrite <- IH. destruct (trimEnd rest); destruct (is_white u) eqn:Hu; cbn;
    rewrite ?Hu; reflexivity.
Qed.

Lemma ink_collapse a text : ink (collapse_runs a text) = ink text.
Proof.
  unfold ink. revert a. induction text as [|u rest IH]; intros a; cbn; [reflexivity|].
  destruct (is_white u) eqn:Hu; cbn.
  - destruct a; cbn; rewrite ?is_white_space; cbn; apply IH.
  - rewrite Hu. cbn. rewrite IH. reflexivity.
Qed.

Lemma length_trimStart text : (length (trimStart text) <= length text)%nat.
Proof.
  induction text as [|u rest IH]; cbn; [lia|]. destruct (is_white u); cbn; lia.
Qed.

Lemma length_trimEnd text : (length (trimEnd text) <= length text)%nat.
Proof.
  induction text as [|u rest IH]; cbn; [lia|].
  destruct (trimEnd rest); [destruct (is_white u)|]; cbn in *; lia.
Qed.

Lemma length_collapse a text : (length (collapse_runs a text) <= length text)%nat.
Proof.
  revert a. induction text as [|u rest IH]; intros a; cbn; [lia|].
  destruct (is_white u); [destruct a|]; cbn;
    [specialize (IH true)|specialize (IH true)|specialize (IH false)]; lia.
Qed.

(** X1. [sanitizeText] returns a text without white space at either end and
    with single spaces inside; it keeps the other units in order, never
    grows the text, and applying it twice changes nothing more. *)
Theorem sanitizeText_normal_form (text : Text) :
  sanitized (sanitizeText text) = true
  /\ ink (sanitizeText text) = ink text
  /\ (length (sanitizeText text) <= length text)%nat
  /\ sanitizeText (sanitizeText text) = sanitizeText text.
Proof.
  split; [apply sanitizeText_sanitized|]. split; [|split].
  - unfold sanitizeText, trim. rewrite ink_collapse, ink_trimEnd, ink_trimStart.
    reflexivity.
  - unfold sanitizeText, trim.
    pose proof (length_collapse false (trimEnd (trimStart text))).
    pose proof (length_trimEnd (trimStart text)).
    pose proof (length_trimStart text). lia.
  - apply sanitized_fixed, sanitizeText_sanitized.
Qed.

(** X2. The texts [sanitizeText] returns unchanged are exactly the texts
    in that form. *)
Theorem sanitizeText_fixed_points (text : Text) :
  sanitizeText text = text <-> sanitized text = true.
Proof.
  split; [|apply sanitized_fixed].
  intros Hfixed. rewrite <- Hfixed. apply sanitizeText_sanitized.
Qed.

Lemma sanitizeText_fixed_points_witness :
  sanitizeText [72; 105; 32; 121; 111; 117]%N = [72; 105; 32; 121; 111; 117]%N.
Proof.
  apply (sanitizeText_fixed_points [72; 105; 32; 121; 111; 117]%N). reflexivity.
Defined.

Example sanitizeText_example :
  sanitizeText [32; 9; 72; 105; 10; 10; 160; 121; 111; 117; 0x3000; 13]%N
  = [72; 105; 32; 121; 111; 117]%N.
Proof. reflexivity. Qed.

(** X3. [truncateText] returns a text that fits [maxLength] unchanged, and
    otherwise a prefix of the text followed by three dots; the result is
    [max(maxLength, 3)] units long, so it respects the bound only when
    [maxLength] is at least 3. *)
Theorem truncateText_length (text : Text) (maxLength : Z) :
  (Z.of_nat (length text) <= maxLength -> truncateText text maxLength = text)
  /\ (maxLength < Z.of_nat (length text) ->
      exists kept, truncateText text maxLength = (kept ++ ellipsis)%list
                   /\ kept `prefix_of` text
                   /\ Z.of_nat (length (truncateText text maxLength))
                      = Z.max maxLength 3).
Proof.
  unfold truncateText. split.
  - intros Hfits. destruct (Z.leb_spec (Z.of_nat (length text)) maxLength);
      [reflexivity|lia].
  - intros Hlong. destruct (Z.leb_spec (Z.of_nat (length text)) maxLength); [lia|].
    exists (substring_from_start text (maxLength - 3)). split; [reflexivity|].
    unfold substring_from_start. split.
    + exists (skipn (Z.to_nat (maxLength - 3)) text). symmetry. apply firstn_skipn.
    + rewrite length_app, length_firstn. cbn. lia.
Qed.

Lemma truncateText_length_witness :
  truncateText [72; 101; 108; 108; 111]%N 10 = [72; 101; 108; 108; 111]%N
  /\ Z.of_nat (length (truncateText [72; 101; 108; 108; 111]%N 1)) = 3.
Proof.
  split.
  - destruct (truncateText_length [72; 101; 108; 108; 111]%N 10) as (Hfits & _).
    apply Hfits. cbn. lia.
  - destruct (truncateText_length [72; 101; 108; 108; 111]%N 1) as (_ & Hlong).
    destruct Hlong as (kept & _ & _ & Hlength); [cbn; lia|]. exact Hlength.
Defined.

Lemma ceil_div_bounds (a b : Z) :
  0 < b -> (- ((- a) / b) - 1) * b < a <= - ((- a) / b) * b.
Proof.
  intros Hb. pose proof (Z.mul_div_le (- a) b Hb).
  pose proof (Z.mul_succ_div_gt (- a) b Hb). nia.
Qed.

(** X4. For a positive page size and numbers in the range of safe
    integers, [createPaginationResponse] reports the least number of pages
    that holds [total] items, a next page exactly when items remain after
    the window [skip, skip + take) computed by [calculatePagination], and a
    previous page exactly when the window does not start at the first
    item. *)
Theorem pagination_matches_window (page limit total : Z) :
  0 < limit -> 1 <= page -> 0 <= total ->
  safe_integer total -> safe_integer (page * limit) ->
  let '(skip, take) := calculatePagination (Some page) (Some limit) in
  let r := createPaginationResponse page limit total in
  (exists n, pg_totalPages r = Finite n /\ (n - 1) * limit < total <= n * limit
             /\ safe_integer n)
  /\ (pg_hasNext r = true <-> skip + take < total)
  /\ (pg_hasPrev r = true <-> 0 < skip)
  /\ safe_integer skip /\ safe_integer (skip + take).
Proof.
  intros Hlimit Hpage Htotal Hsafe_total Hsafe_window. cbn.
  unfold Math_ceil_div. destruct (Z.eqb_spec limit 0) as [|_]; [lia|]. cbn.
  pose proof (ceil_div_bounds total limit Hlimit) as Hceil.
  unfold safe_integer, max_safe_integer in *.
  split; [eexists; split; [reflexivity|split; [exact Hceil|nia]]|]. split; [|split].
  - rewrite Z.ltb_lt. split; intros H; nia.
  - rewrite Z.ltb_lt. split; intros H; nia.
  - nia.
Qed.

Lemma pagination_matches_window_witness :
  (exists n, pg_totalPages (createPaginationResponse 3 10 25) = Finite n
             /\ (n - 1) * 10 < 25 <= n * 10 /\ safe_integer n)
  /\ (pg_hasNext (createPaginationResponse 3 10 25) = true <-> 20 + 10 < 25)
  /\ (pg_hasPrev (createPaginationResponse 3 10 25) = true <-> 0 < 20)
  /\ safe_integer 20 /\ safe_integer (20 + 10).
Proof.
  apply (pagination_matches_window 3 10 25); unfold safe_integer, max_safe_integer; lia.
Defined.

(** X5. The list route never asks the database for more than 50 rows. For
    a query accepted by its schema (page at least 1, limit between 1 and
    100) whose page times the page size is a safe integer, the window has
    between 1 and 50 rows, starts at the non-negative offset
    [(page - 1) * take], and defaults to the first 10 rows. *)
Theorem entries_window_bounds (query_page query_limit : option Z) :
  let '(page, limit, (skip, take)) := entries_window query_page query_limit in
  take <= 50
  /\ (accepted_page query_page -> accepted_limit query_limit ->
      safe_integer (page * limit) ->
      1 <= page /\ 1 <= take /\ take = limit /\ skip = (page - 1) * take /\ 0 <= skip
      /\ safe_integer skip)
  /\ (query_page = None -> query_limit = None -> skip = 0 /\ take = 10).
Proof.
  unfold entries_window, calculatePagination, number_or, accepted_page, accepted_limit,
    safe_integer, max_safe_integer.
  cbn. split; [lia|]. split.
  - intros Hpage Hlimit Hsafe.
    destruct query_page as [p|], query_limit as [l|];
      repeat match goal with
             | H : context [Z.eqb ?x 0] |- _ => destruct (Z.eqb_spec x 0)
             | |- context [Z.eqb ?x 0] => destruct (Z.eqb_spec x 0)
             end; nia.
  - intros -> ->. split; reflexivity.
Qed.

Lemma entries_window_bounds_witness :
  entries_window (Some 2) (Some 100) = (2, 50, (50, 50))
  /\ 1 <= 2 /\ 1 <= 50 /\ 0 <= 50.
Proof.
  split; [reflexivity|].
  destruct (entries_window_bounds (Some 2) (Some 100)) as (_ & Hvalid & _).
  destruct Hvalid as (H1 & H2 & _ & _ & H3 & _);
    [cbn; lia|cbn; lia|unfold safe_integer, max_safe_integer; cbn; lia|].
  auto.
Defined.

(** ** The error handler *)

(** X6. The error handler answers every error, never raises, and always
    with [success: false]. The status is 400, 401, 404, 409 or 500, except
    for an [AppError], which brings its own. In production the message of an
    error it does not classify is withheld from the client. *)
Theorem errorHandler_answers_every_error (error : RouteError) (w : World) :
  exists r,
    errorHandler error w = (Returned r, logged_error "Error:" w)
    /\ get_property (res_body r) "success" = Some (JBool false)
    /\ (is_AppError error = false -> In (res_status r) [400; 401; 404; 409; 500])
    /\ (forall message status,
          error = Raised (AppError message status) -> r = failure status message)
    /\ (forall e,
          error = Raised e -> is_AppError error = false ->
          process_env w !! "NODE_ENV" = Some "production" ->
          r = failure 500 "Internal server error").
Proof.
  unfold errorHandler, logged_error. step.
  destruct error as [issues|e|code message|message|message]; cbn.
  - eexists. split; [reflexivity|]. cbn. repeat split; try discriminate. tauto.
  - destruct e as [m s|m|m|m|m]; cbn; eexists; (split; [reflexivity|]); cbn;
      (split; [reflexivity|]); (split; [try discriminate; tauto|]);
      (split; [intros ? ? [= <- <-] || (intros ? ? ?; discriminate); reflexivity|]);
      intros e0 [= <-] Hclass Hprod; try discriminate; rewrite Hprod; reflexivity.
  - destruct (String.eqb code "P2002"); [|destruct (String.eqb code "P2025")];
      cbn; eexists; (split; [reflexivity|]); cbn; repeat split; try discriminate; tauto.
  - eexists. split; [reflexivity|]. cbn. repeat split; try discriminate. tauto.
  - eexists. split; [reflexivity|]. cbn. repeat split; try discriminate. tauto.
Qed.

Lemma errorHandler_answers_every_error_witness :
  fst (errorHandler (Raised (TypeError "secret detail"))
         {| openai := None; redis := None; db_up := true; ai_cache := None;
            diary_entries := ∅; process_env := {[ "NODE_ENV" := "production" ]};
            now := 0; console := []; provider_calls := [] |})
  = Returned (failure 500 "Internal server error").
Proof.
  destruct (errorHandler_answers_every_error (Raised (TypeError "secret detail"))
              {| openai := None; redis := None; db_up := true; ai_cache := None;
                 diary_entries := ∅; process_env := {[ "NODE_ENV" := "production" ]};
                 now := 0; console := []; provider_calls := [] |})
    as (r & Hrun & _ & _ & _ & Hhide).
  rewrite Hrun. cbn. f_equal.
  apply (Hhide (TypeError "secret detail")); reflexivity.
Defined.

(** ** The analysis routes *)

Section RouteProperties.
Context {js : JSBuiltins} {zod : Schemas}.

Lemma JSON_eq_null (v : JSON) : v = JNull \/ v <> JNull.
Proof. destruct v; [left; reflexivity|right; discriminate..]. Qed.

Lemma single_analysis_rejected analysis field message body w :
  body <> JNull -> content_string (get_property body "content") = None ->
  single_analysis analysis field message body w
    = (Returned (Responded (failure 400 "Content is required and must be a string")), w).
Proof.
  intros Hbody Hcontent. unfold single_analysis, destructure. step.
  destruct body; try contradiction; step; rewrite Hcontent; reflexivity.
Qed.

Lemma single_analysis_accepted analysis field message body text w :
  body <> JNull -> content_string (get_property body "content") = Some text ->
  single_analysis analysis field message body w
    = match analysis text w with
      | (Returned result, w') =>
          (Returned (Responded (success (JObj [(field, result)]) message)), w')
      | (Thrown e, w') => (Returned (Next (Raised e)), w')
      end.
Proof.
  intros Hbody Hcontent. unfold single_analysis, destructure. step.
  destruct body; try contradiction; step; rewrite Hcontent;
    destruct (analysis text w) as [[result|e] w']; reflexivity.
Qed.

(** X7. A request to [/sentiment], [/tags] or [/summary] whose [content] is
    missing, empty or not a string is answered 400 at once: no analysis
    runs, no request reaches the provider, no store and no log changes. *)
Theorem analysis_routes_reject_bad_content (body : JSON) (w : World) :
  body <> JNull -> content_string (get_property body "content") = None ->
  let bad := (Returned (Responded
                (failure 400 "Content is required and must be a string")), w) in
  post_sentiment body w = bad /\ post_tags body w = bad /\ post_summary body w = bad.
Proof.
  intros Hbody Hcontent. unfold post_sentiment, post_tags, post_summary.
  repeat split; apply single_analysis_rejected; assumption.
Qed.

(** X8. With a provider configured, [/sentiment] and [/tags] never answer
    200: every request is answered 400 or 500. A request with a usable
    [content] is answered 500 with the message of the failed analysis,
    after exactly one request to the provider, for its own kind. *)
Theorem configured_routes_answer_500 (body : JSON) (w : World) :
  is_Some (openai w) ->
  (forall text,
     content_string (get_property body "content") = Some text ->
     result_of (serve (post_sentiment body)) w
       = Returned (failure 500 "Failed to analyze sentiment")
     /\ result_of (serve (post_tags body)) w
        = Returned (failure 500 "Failed to generate tags")
     /\ provider_calls (world_after (serve (post_sentiment body)) w)
        = (provider_calls w ++ [("sentiment", text)])%list
     /\ provider_calls (world_after (serve (post_tags body)) w)
        = (provider_calls w ++ [("tags", text)])%list)
  /\ exists r_sentiment r_tags,
       result_of (serve (post_sentiment body)) w = Returned r_sentiment
       /\ result_of (serve (post_tags body)) w = Returned r_tags
       /\ In (res_status r_sentiment) [400; 500]
       /\ In (res_status r_tags) [400; 500].
Proof.
  intros [provider Hp].
  assert (Husable : forall text,
    content_string (get_property body "content") = Some text ->
    serve (post_sentiment body) w
      = (Returned (failure 500 "Failed to analyze sentiment"),
         logged_error "Error:"
           (logged_error "Sentiment analysis failed:"
              (set_provider_calls (provider_calls w ++ [("sentiment", text)]) w)))
    /\ serve (post_tags body) w
       = (Returned (failure 500 "Failed to generate tags"),
          logged_error "Error:"
            (logged_error "Tag generation failed:"
               (set_provider_calls (provider_calls w ++ [("tags", text)]) w)))).
  { intros text Hcontent.
    assert (Hbody : body <> JNull) by (intros ->; discriminate).
    unfold serve, post_sentiment, post_tags. step.
    rewrite !(single_analysis_accepted _ _ _ _ text) by assumption.
    rewrite (analyzeSentiment_configured _ _ _ Hp), (generateTags_configured _ _ _ Hp).
    split; reflexivity. }
  split.
  - intros text Hcontent. destruct (Husable text Hcontent) as [Hs Ht].
    unfold result_of, world_after. rewrite Hs, Ht. repeat split; reflexivity.
  - destruct (content_string (get_property body "content")) as [text|] eqn:Hcontent.
    + destruct (Husable text eq_refl) as [Hs Ht].
      unfold result_of. rewrite Hs, Ht. do 2 eexists.
      repeat split; cbn; tauto.
    + destruct (JSON_eq_null body) as [->|Hbody].
      * unfold result_of, serve, post_sentiment, post_tags, single_analysis,
          destructure. step. do 2 eexists. repeat split; cbn; tauto.
      * unfold result_of, serve, post_sentiment, post_tags. step.
        rewrite !single_analysis_rejected by assumption.
        do 2 eexists. repeat split; cbn; tauto.
Qed.

(** X9. When [/analyze] answers, the status is 200 and [data] holds a
    field for exactly the features that were requested, however often a
    feature was listed. *)
Theorem post_analyze_fields (body : JSON) (content : string)
    (features : list string) (w w' : World) (r : Response) :
  aiAnalysisSchema body = Valid (content, features) ->
  post_analyze body w = (Returned (Responded r), w') ->
  res_status r = 200
  /\ exists data,
       get_property (res_body r) "data" = Some data
       /\ forall name,
            In name ["sentiment"; "tags"; "summary"] ->
            (is_Some (get_property data name) <-> includes_feature features name = true).
Proof.
  intros Hparse. unfold post_analyze, feature_promises. rewrite Hparse.
  set (p1 := analyzeSentiment content). set (p2 := generateTags content).
  set (p3 := generateSummary content). clearbody p1 p2 p3.
  destruct (includes_feature features "sentiment") eqn:H1,
           (includes_feature features "tags") eqn:H2,
           (includes_feature features "summary") eqn:H3;
    unfold try_catch, bind, ret; cbn;
    repeat match goal with
           | |- context [?p w] =>
               match type of p with M JSON => destruct (p w) as [[?v|?e] ?w1] end
           | |- context [?p ?w1] =>
               match type of p with M JSON => destruct (p w1) as [[?v|?e] ?w2] end
           end; cbn; intros [= <- <-] || (intros; discriminate);
    (split; [reflexivity|]); eexists; (split; [reflexivity|]);
    intros name [<-|[<-|[<-|[]]]]; cbn; rewrite ?H1, ?H2, ?H3;
    split; intros H; try discriminate; try (eexists; reflexivity);
    destruct H; discriminate.
Qed.

(** X10. What [/analyze] answers depends on the provider only. Without a
    provider, a request for sentiment and tags alone is always answered 200
    with the neutral sentiment and the empty tag list, and writes no store.
    With a provider configured, a request that lists sentiment or tags is
    always answered 500. *)
Theorem post_analyze_by_configuration (body : JSON) (content : string)
    (features : list string) (w : World) :
  aiAnalysisSchema body = Valid (content, features) ->
  (openai w = None -> includes_feature features "summary" = false ->
     result_of (post_analyze body) w
       = Returned (Responded (success
           (results_json
              {| an_sentiment := if includes_feature features "sentiment"
                                 then Some neutral_sentiment else None;
                 an_tags := if includes_feature features "tags"
                            then Some (JArr []) else None;
                 an_summary := None |})
           "AI analysis completed successfully"))
     /\ same_stores w (world_after (post_analyze body) w))
  /\ (is_Some (openai w) ->
      includes_feature features "sentiment" || includes_feature features "tags" = true ->
      exists message,
        result_of (serve (post_analyze body)) w = Returned (failure 500 message)).
Proof.
  intros Hparse. unfold result_of, world_after, serve, post_analyze, feature_promises.
  rewrite Hparse. split.
  - intros Hp Hsummary. rewrite Hsummary.
    destruct (includes_feature features "sentiment"),
             (includes_feature features "tags");
      unfold try_catch, bind, ret; cbn -[analyzeSentiment generateTags];
      rewrite ?(analyzeSentiment_unconfigured _ _ Hp);
      cbn -[analyzeSentiment generateTags];
      rewrite ?generateTags_unconfigured by exact Hp; cbn;
      (split; [reflexivity|repeat split; reflexivity]).
  - intros [provider Hp] Hrequested.
    set (p3 := generateSummary content). clearbody p3.
    destruct (includes_feature features "sentiment"),
             (includes_feature features "tags"); try discriminate;
      destruct (includes_feature features "summary");
      unfold try_catch, bind, ret; cbn -[analyzeSentiment generateTags];
      rewrite ?(analyzeSentiment_configured _ _ _ Hp);
      cbn -[analyzeSentiment generateTags];
      rewrite ?(generateTags_configured _ content provider) by exact Hp; cbn;
      repeat match goal with
             | |- context [p3 ?w1] => destruct (p3 w1) as [[?v|?e] ?w2]
             end; cbn; eexists; reflexivity.
Qed.

(** X11. A body that a schema refuses is answered 400 by the error handler,
    with one detail per issue; no analysis runs and nothing is stored. *)
Theorem refused_bodies_answer_400 (body : JSON) (issues : list ZodIssue) (w : World) :
  let refused (route : JSON -> M Handled) :=
    exists r,
      result_of (serve (route body)) w = Returned r
      /\ res_status r = 400
      /\ get_property (res_body r) "error" = Some (JStr "Validation failed")
      /\ (exists details,
            get_property (res_body r) "details" = Some (JArr details)
            /\ length details = length issues)
      /\ provider_calls (world_after (serve (route body)) w) = provider_calls w
      /\ same_stores w (world_after (serve (route body)) w) in
  (aiAnalysisSchema body = Invalid issues -> refused post_analyze)
  /\ (writingAssistSchema body = Invalid issues -> refused post_writing_assist).
Proof.
  cbv zeta. unfold result_of, world_after, serve, post_analyze, post_writing_assist.
  split; intros ->; step; (eexists; split; [reflexivity|]); cbn;
    (split; [reflexivity|]); (split; [reflexivity|]);
    (split; [eexists; split; [reflexivity|apply length_map]|]);
    repeat split; reflexivity.
Qed.

End RouteProperties.

(** ** [assistWriting] *)

Section WritingAssistance.
Context {js : JSBuiltins}.

Lemma assistWriting_effect prompt context maxTokens w :
  assistWriting prompt context maxTokens w
  = let failed w' := (Thrown (AppError "Failed to provide writing assistance" 500),
                      logged_error "Writing assistance failed:" w') in
    match openai w with
    | None => failed w
    | Some provider =>
        let request := writing_request (default (500, 0) maxTokens) in
        let message := writing_message prompt context in
        let w1 := set_provider_calls (provider_calls w ++ [(request, message)]) w in
        match provider request message with
        | Rejected _ => failed w1
        | Completed c =>
            match JSON_parse (or_default c "[]") with
            | Some (JArr items) => (Returned (JArr items), w1)
            | Some v => (Returned (JArr [v]), w1)
            | None => failed w1
            end
        end
    end.
Proof.
  assert (Hmessage :
    (if opt_truthy context
     then "Context: " ++ or_default context "" ++ newline ++ newline
          ++ "Prompt: " ++ prompt
     else prompt) = writing_message prompt context).
  { unfold writing_message, opt_truthy, or_default.
    destruct context as [c|]; [destruct (string_truthy c)|]; reflexivity. }
  unfold assistWriting. rewrite Hmessage.
  generalize (writing_message prompt context) as message.
  generalize (writing_request (default (500, 0) maxTokens)) as request.
  intros request message.
  unfold chat_completions_create, JSON_parse_or_throw, logged_error. step.
  destruct (openai w) as [provider|]; [|reflexivity].
  destruct (provider request message) as [e|c]; [reflexivity|]. cbn.
  destruct (JSON_parse (or_default c "[]")) as [[]|]; reflexivity.
Qed.

(** X12. [assistWriting] returns arrays only: an answer of the provider
    that parses to an array is returned as it is, any other answer that
    parses is wrapped into an array of that one value, and an answer that
    does not parse, like a rejected request, makes the call reject. It
    never reads or writes the cache or the entries. Without a provider it
    always rejects with its [AppError] of status 500; with one it sends
    exactly one request, the prompt preceded by the context when there is
    one. *)
Theorem assistWriting_returns_arrays (prompt : string) (context : option string)
    (maxTokens : option (Z * Z)) (w : World) :
  let w' := world_after (assistWriting prompt context maxTokens) w in
  let request := writing_request (default (500, 0) maxTokens) in
  let message := writing_message prompt context in
  let failed := Thrown (AppError "Failed to provide writing assistance" 500) in
  (forall v, result_of (assistWriting prompt context maxTokens) w = Returned v ->
             exists items, v = JArr items)
  /\ (forall provider c v,
        openai w = Some provider -> provider request message = Completed c ->
        JSON_parse (or_default c "[]") = Some v ->
        result_of (assistWriting prompt context maxTokens) w
          = Returned (match v with JArr _ => v | _ => JArr [v] end))
  /\ (forall provider,
        openai w = Some provider ->
        (exists e, provider request message = Rejected e)
        \/ (exists c, provider request message = Completed c
                      /\ JSON_parse (or_default c "[]") = None) ->
        result_of (assistWriting prompt context maxTokens) w = failed)
  /\ (forall e, result_of (assistWriting prompt context maxTokens) w = Thrown e ->
                e = AppError "Failed to provide writing assistance" 500)
  /\ (redis w' = redis w /\ ai_cache w' = ai_cache w
      /\ diary_entries w' = diary_entries w)
  /\ (openai w = None ->
      result_of (assistWriting prompt context maxTokens) w = failed
      /\ provider_calls w' = provider_calls w)
  /\ (is_Some (openai w) ->
      provider_calls w' = (provider_calls w ++ [(request, message)])%list).
Proof.
  unfold result_of, world_after. rewrite assistWriting_effect. cbv zeta.
  set (request := writing_request (default (500, 0) maxTokens)).
  set (message := writing_message prompt context).
  split; [|split; [|split; [|split; [|split; [|split]]]]].
  - destruct (openai w) as [provider|];
      [destruct (provider request message) as [e|c];
       [|destruct (JSON_parse (or_default c "[]")) as [[]|]]|];
      cbn; intros v Hv; try discriminate; injection Hv as <-; eauto.
  - intros provider c v Hp Hanswer Hparse. rewrite Hp, Hanswer, Hparse.
    destruct v; reflexivity.
  - intros provider Hp [[e He]|(c & Hc & Hnone)]; rewrite Hp;
      [rewrite He|rewrite Hc, Hnone]; reflexivity.
  - destruct (openai w) as [provider|];
      [destruct (provider request message) as [e|c];
       [|destruct (JSON_parse (or_default c "[]")) as [[]|]]|];
      cbn; intros e' He'; try discriminate; injection He' as <-; reflexivity.
  - destruct (openai w) as [provider|];
      [destruct (provider request message) as [e|c];
       [|destruct (JSON_parse (or_default c "[]")) as [[]|]]|];
      cbn; repeat split; reflexivity.
  - intros ->. split; reflexivity.
  - intros [provider ->].
    destruct (provider request message) as [e|c];
      [|destruct (JSON_parse (or_default c "[]")) as [[]|]]; reflexivity.
Qed.

Lemma assistWriting_cases prompt context maxTokens w :
  (exists items w',
     assistWriting prompt context maxTokens w = (Returned (JArr items), w')
     /\ is_Some (openai w))
  \/ (exists w',
        assistWriting prompt context maxTokens w
        = (Thrown (AppError "Failed to provide writing assistance" 500), w')).
Proof.
  rewrite assistWriting_effect. cbv zeta.
  destruct (openai w) as [provider|]; [|right; eauto].
  destruct (provider _ _) as [e|c]; [right; eauto|].
  destruct (JSON_parse (or_default c "[]")) as [[]|]; [left..|right]; eauto.
Qed.

(** X13. [POST /writing-assist] on a body its schema accepts: without a
    provider the answer is always 500; otherwise it is 200 or 500, and an
    answer with status 200 always carries an array of suggestions. *)
Theorem post_writing_assist_answers {zod : Schemas} (body : JSON) (prompt : string)
    (context : option string) (maxTokens : option (Z * Z)) (w : World) :
  writingAssistSchema body = Valid (prompt, context, maxTokens) ->
  (openai w = None ->
   result_of (serve (post_writing_assist body)) w
     = Returned (failure 500 "Failed to provide writing assistance"))
  /\ exists r,
       result_of (serve (post_writing_assist body)) w = Returned r
       /\ (res_status r = 200 \/ res_status r = 500)
       /\ (res_status r = 200 ->
           exists items,
             get_property (res_body r) "data"
               = Some (JObj [("suggestions", JArr items)])).
Proof.
  intros Hparse. unfold result_of, serve, post_writing_assist. rewrite Hparse.
  destruct (assistWriting_cases prompt context maxTokens w)
    as [(items & w' & Hrun & [provider Hp])|(w' & Hrun)]; step; rewrite Hrun; cbn.
  - split; [rewrite Hp; discriminate|].
    eexists. split; [reflexivity|]. cbn. split; [left; reflexivity|]. eauto.
  - split; [reflexivity|].
    eexists. split; [reflexivity|]. cbn. split; [right; reflexivity|]. discriminate.
Qed.

End WritingAssistance.

(** ** Health and start *)

Section ServerProperties.
Context {js : JSBuiltins}.
Variable toISOString : Z -> string.

(** X14. [GET /health] answers 200 with [success: true] and
    [status: "healthy"] in every state; only [services.database] tells
    whether the database answers. The branch that answers 500 is never
    taken. *)
Theorem health_always_200 (w : World) :
  exists body services,
    result_of (get_health toISOString) w = Returned {| res_status := 200; res_body := body |}
    /\ get_property body "success" = Some (JBool true)
    /\ get_property body "status" = Some (JStr "healthy")
    /\ get_property body "services" = Some services
    /\ get_property services "database"
       = Some (JStr (if db_up w then "healthy" else "unhealthy"))
    /\ same_stores w (world_after (get_health toISOString) w).
Proof.
  unfold result_of, world_after, get_health, healthCheck. step.
  destruct (db_up w); cbn; do 2 eexists; (split; [reflexivity|]);
    cbn; repeat split; reflexivity.
Qed.

Lemma DatabaseService_connect_effect w :
  DatabaseService_connect w
  = if db_up w
    then (Returned tt,
          set_console (console w ++ [(LogInfo, "Database connected successfully")]) w)
    else (Thrown (AppError "Database connection failed" 500),
          logged_error "Database connection failed:" w).
Proof. unfold DatabaseService_connect. destruct (db_up w); reflexivity. Qed.

Lemma listening_banner_frame w :
  ai_cache (snd (listening_banner w)) = ai_cache w
  /\ redis (snd (listening_banner w)) = redis w
  /\ diary_entries (snd (listening_banner w)) = diary_entries w.
Proof. unfold listening_banner. step. repeat split; reflexivity. Qed.

Lemma sweep_leaves_no_past_row w key row :
  db_up w = true ->
  durable_row (world_after cleanupExpiredCache w) key = Some row ->
  now w <= row_expiresAt row.
Proof.
  intros Hup. destruct (ai_cache w) as [rows|] eqn:Hrows.
  - rewrite (cleanupExpiredCache_durable_row w rows key Hup Hrows).
    destruct (rows !! key) as [row0|]; [|discriminate].
    destruct (Z.ltb_spec (row_expiresAt row0) (now w)); [discriminate|].
    intros [= <-]. lia.
  - unfold world_after, durable_row. rewrite cleanupExpiredCache_effect.
    cbn [snd]. rewrite Hup, Hrows. cbn. rewrite Hrows. discriminate.
Qed.

(** X15. [startServer]: when the database cannot be reached the process
    exits with code 1 and neither listens, nor sweeps, nor schedules a
    sweep. When it can be reached and the port can be used, the server
    listens and one hourly sweep is scheduled whatever the start-up sweep
    met: a missing cache table does not stop the start, and no row that
    expired before now is left in an existing table. *)
Theorem startServer_outcome (listen_ok : bool) (p : Process) :
  let p' := startServer listen_ok p in
  (db_up (proc_world p) = false ->
     exit_code p' = Some 1 /\ listening p' = listening p
     /\ sweep_timers p' = sweep_timers p
     /\ ai_cache (proc_world p') = ai_cache (proc_world p))
  /\ (db_up (proc_world p) = true -> listen_ok = true ->
      listening p' = true /\ sweep_timers p' = S (sweep_timers p)
      /\ exit_code p' = exit_code p
      /\ forall key row,
           durable_row (proc_world p') key = Some row ->
           now (proc_world p) <= row_expiresAt row).
Proof.
  unfold startServer. rewrite DatabaseService_connect_effect. split.
  - intros Hdown. rewrite Hdown. cbn. repeat split; reflexivity.
  - intros Hup ->. rewrite Hup.
    set (w1 := set_console _ (proc_world p)).
    pose proof (sweep_leaves_no_past_row w1) as Hsweep.
    unfold world_after in Hsweep. rewrite cleanupExpiredCache_effect in *.
    cbn [fst snd] in *. repeat split.
    intros key row Hrow. apply (Hsweep key row Hup).
    unfold durable_row in *.
    cbn [proc_world] in Hrow.
    match type of Hrow with
    | context [ai_cache (snd (listening_banner ?w2))] =>
        destruct (listening_banner_frame w2) as (Hcache & _)
    end.
    rewrite Hcache in Hrow. exact Hrow.
Qed.

End ServerProperties.

(** ** The properties at concrete requests *)

Lemma analysis_routes_reject_bad_content_witness :
  result_of (post_summary (js := Reference.builtins) (JObj [("content", JNum 5 0)]))
            configured
  = Returned (Responded (failure 400 "Content is required and must be a string")).
Proof.
  destruct (analysis_routes_reject_bad_content (js := Reference.builtins)
              (JObj [("content", JNum 5 0)]) configured) as (_ & _ & Hsummary);
    [discriminate|reflexivity|].
  unfold result_of. rewrite Hsummary. reflexivity.
Defined.

Lemma configured_routes_answer_500_witness :
  result_of (serve (post_tags (js := Reference.builtins)
                      (JObj [("content", JStr park_content)]))) configured
  = Returned (failure 500 "Failed to generate tags")
  /\ provider_calls
       (world_after (serve (post_tags (js := Reference.builtins)
                              (JObj [("content", JStr park_content)]))) configured)
     = [("tags", park_content)].
Proof.
  destruct (configured_routes_answer_500 (js := Reference.builtins)
              (JObj [("content", JStr park_content)]) configured)
    as (Husable & _); [eexists; reflexivity|].
  destruct (Husable park_content eq_refl) as (_ & Htags & _ & Hcalls).
  split; [exact Htags|]. rewrite Hcalls. reflexivity.
Defined.

Lemma post_analyze_fields_witness :
  exists r w',
    post_analyze (js := Reference.builtins) (zod := ReferenceSchemas.schemas)
      twice_sentiment_request unconfigured = (Returned (Responded r), w')
    /\ res_status r = 200.
Proof.
  destruct (post_analyze (js := Reference.builtins) (zod := ReferenceSchemas.schemas)
              twice_sentiment_request unconfigured) as [[[r|e]|e] w'] eqn:Hrun;
    try (vm_compute in Hrun; discriminate).
  exists r, w'. split; [reflexivity|].
  apply (post_analyze_fields (js := Reference.builtins) (zod := ReferenceSchemas.schemas)
           twice_sentiment_request park_content ["sentiment"; "tags"; "sentiment"]
           unconfigured w' r); [reflexivity|exact Hrun].
Defined.

Lemma post_analyze_by_configuration_witness :
  same_stores unconfigured
    (world_after (post_analyze (js := Reference.builtins)
                    (zod := ReferenceSchemas.schemas) twice_sentiment_request)
       unconfigured)
  /\ exists message,
       result_of (serve (post_analyze (js := Reference.builtins)
                           (zod := ReferenceSchemas.schemas) twice_sentiment_request))
         configured = Returned (failure 500 message).
Proof.
  split.
  - destruct (post_analyze_by_configuration (js := Reference.builtins)
                (zod := ReferenceSchemas.schemas) twice_sentiment_request park_content
                ["sentiment"; "tags"; "sentiment"] unconfigured) as [Hwithout _];
      [reflexivity|].
    apply Hwithout; reflexivity.
  - destruct (post_analyze_by_configuration (js := Reference.builtins)
                (zod := ReferenceSchemas.schemas) twice_sentiment_request park_content
                ["sentiment"; "tags"; "sentiment"] configured) as [_ Hwith];
      [reflexivity|].
    apply Hwith; [eexists; reflexivity|reflexivity].
Defined.

Lemma assistWriting_returns_arrays_witness :
  result_of (assistWriting (js := Reference.builtins) "Continue" (Some "Monday") None)
    terse_world
  = Returned (JArr [JNum 42 0])
  /\ provider_calls
       (world_after (assistWriting (js := Reference.builtins) "Continue" (Some "Monday") None)
          terse_world)
     = [("writing-assist max_tokens=500e0",
         "Context: Monday" ++ newline ++ newline ++ "Prompt: Continue")].
Proof.
  destruct (assistWriting_returns_arrays (js := Reference.builtins)
              "Continue" (Some "Monday") None terse_world)
    as (_ & Hwrap & _ & _ & _ & _ & Hsent).
  split.
  - apply (Hwrap (fun _ _ => Completed (Some "42")) (Some "42") (JNum 42 0));
      reflexivity.
  - rewrite Hsent; [reflexivity|eexists; reflexivity].
Defined.

Lemma startServer_outcome_witness :
  listening (startServer (js := Reference.builtins) true
               {| proc_world := at_expiry; listening := false;
                  sweep_timers := 0; exit_code := None |}) = true.
Proof.
  destruct (startServer_outcome (js := Reference.builtins) true
              {| proc_world := at_expiry; listening := false;
                 sweep_timers := 0; exit_code := None |}) as [_ Hstart].
  destruct Hstart as (Hlistening & _); [reflexivity|reflexivity|].
  exact Hlistening.
Defined.

Lemma refused_bodies_answer_400_witness :
  exists r,
    result_of (serve (post_analyze (js := Reference.builtins)
                        (zod := ReferenceSchemas.schemas) (JObj []))) configured
    = Returned r
    /\ res_status r = 400.
Proof.
  destruct (refused_bodies_answer_400 (js := Reference.builtins)
              (zod := ReferenceSchemas.schemas) (JObj [])
              [ReferenceSchemas.issue ["content"] "Invalid input"] configured)
    as [Hanalyze _].
  destruct Hanalyze as (r & Hrun & Hstatus & _); [reflexivity|].
  exists r. split; [exact Hrun|exact Hstatus].
Defined.

Lemma post_writing_assist_answers_witness :
  result_of (serve (post_writing_assist (js := Reference.builtins)
                      (zod := ReferenceSchemas.schemas)
                      (JObj [("prompt", JStr "Continue"); ("maxTokens", JNum 15 1)])))
    unconfigured
  = Returned (failure 500 "Failed to provide writing assistance").
Proof.
  destruct (post_writing_assist_answers (js := Reference.builtins)
              (zod := ReferenceSchemas.schemas)
              (JObj [("prompt", JStr "Continue"); ("maxTokens", JNum 15 1)])
              "Continue" None (Some (15, 1)) unconfigured) as [Hwithout _];
    [reflexivity|].
  apply Hwithout. reflexivity.
Defined.

(** ** The sweep and the lookups *)

Section SweepAndLookup.
Context {js : JSBuiltins}.

Lemma sweep_frame w :
  let w' := world_after cleanupExpiredCache w in
  redis w' = redis w /\ now w' = now w /\ db_up w' = db_up w
  /\ diary_entries w' = diary_entries w /\ provider_calls w' = provider_calls w
  /\ openai w' = openai w /\ process_env w' = process_env w.
Proof.
  unfold world_after. rewrite cleanupExpiredCache_effect. cbn [snd].
  destruct (db_up w) eqn:Hup; [destruct (ai_cache w) as [rows|]|]; cbv zeta;
    try destruct (0 <? size rows - size (swept (now w) rows))%nat;
    cbn; repeat split; congruence.
Qed.

Lemma sweep_durable_row w key :
  durable_row (world_after cleanupExpiredCache w) key
  = match durable_row w key with
    | Some row =>
        if db_up w && (row_expiresAt row <? now w)%Z then None else Some row
    | None => None
    end.
Proof.
  unfold durable_row, world_after. rewrite cleanupExpiredCache_effect. cbn [snd].
  destruct (db_up w); [destruct (ai_cache w) as [rows|] eqn:Hrows|]; cbv zeta.
  - destruct (0 <? size rows - size (swept (now w) rows))%nat; cbn;
      rewrite swept_lookup; reflexivity.
  - cbn. rewrite Hrows. reflexivity.
  - cbn. destruct (ai_cache w) as [rows|]; [destruct (rows !! key)|]; reflexivity.
Qed.

(** What the durable tier answers depends on the row under the key, on the
    clock and on the volatile client. *)
Lemma durable_phase_result key type w :
  fst (durable_phase key type w)
  = match (if db_up w then durable_row w key else None) with
    | Some row =>
        if String.eqb (row_type row) type && (now w <? row_expiresAt row)%Z then
          match redis w with
          | Some c => if redis_writes_ok c then Returned (row_result row)
                      else Returned JNull
          | None => Returned (row_result row)
          end
        else Returned JNull
    | None => Returned JNull
    end.
Proof.
  unfold durable_phase, durable_row. destruct (db_up w); [|reflexivity].
  destruct (ai_cache w) as [rows|]; [|reflexivity].
  destruct (rows !! key) as [row|]; [|reflexivity].
  destruct (String.eqb (row_type row) type && (now w <? row_expiresAt row)%Z);
    [|reflexivity].
  destruct (redis w) as [c|]; [destruct (redis_writes_ok c)|]; reflexivity.
Qed.

Lemma durable_phase_after_sweep key type w :
  fst (durable_phase key type (world_after cleanupExpiredCache w))
  = fst (durable_phase key type w).
Proof.
  rewrite !durable_phase_result, sweep_durable_row.
  destruct (sweep_frame w) as (-> & -> & -> & _).
  destruct (db_up w); [|reflexivity]. cbn.
  destruct (durable_row w key) as [row|]; [|reflexivity].
  destruct (Z.ltb_spec (row_expiresAt row) (now w)); [|reflexivity].
  destruct (Z.ltb_spec (now w) (row_expiresAt row)); [lia|].
  rewrite andb_false_r. reflexivity.
Qed.

Lemma sweep_ai_cache w :
  ai_cache (world_after cleanupExpiredCache w)
  = if db_up w then option_map (swept (now w)) (ai_cache w) else ai_cache w.
Proof.
  unfold world_after. rewrite cleanupExpiredCache_effect. cbn [snd].
  destruct (db_up w); [destruct (ai_cache w) as [rows|] eqn:Hrows|]; cbv zeta.
  - destruct (0 <? size rows - size (swept (now w) rows))%nat; reflexivity.
  - cbn. exact Hrows.
  - reflexivity.
Qed.

Lemma swept_twice date rows : swept date (swept date rows) = swept date rows.
Proof.
  apply swept_nothing. intros key row. rewrite swept_lookup.
  destruct (rows !! key) as [row0|]; [|discriminate].
  destruct (Z.ltb_spec (row_expiresAt row0) date); [discriminate|].
  intros [= <-]. assumption.
Qed.

(** X16. The sweep is a garbage collection and nothing more. No lookup can tell
    that it ran: [getCachedResult] returns after the sweep what it returned
    before, for every key, kind and state. It touches no store but the
    durable table, from which it only removes rows, and a second sweep at
    the same instant removes nothing more. *)
Theorem sweep_invisible_to_lookups (key type : string) (w : World) :
  let w' := world_after cleanupExpiredCache w in
  result_of (getCachedResult key type) w' = result_of (getCachedResult key type) w
  /\ redis w' = redis w /\ diary_entries w' = diary_entries w
  /\ provider_calls w' = provider_calls w
  /\ (forall k row, durable_row w' k = Some row -> durable_row w k = Some row)
  /\ ai_cache (world_after cleanupExpiredCache w') = ai_cache w'.
Proof.
  cbv zeta. destruct (sweep_frame w) as (Hredis & Hnow & Hup & Hentries & Hcalls & _).
  split; [|split; [exact Hredis|split; [exact Hentries|split; [exact Hcalls|split]]]].
  - unfold result_of. rewrite !getCachedResult_by_tier, Hredis, Hnow.
    pose proof (durable_phase_after_sweep key type w) as Hdurable.
    destruct (redis w) as [c|]; [|exact Hdurable].
    destruct (redis_reads_ok c); [|reflexivity].
    destruct (redis_lookup c key (now w)) as [text|]; [|exact Hdurable].
    destruct (string_truthy text); [|exact Hdurable].
    destruct (JSON_parse text); reflexivity.
  - intros k row. rewrite sweep_durable_row.
    destruct (durable_row w k) as [row0|]; [|discriminate].
    destruct (db_up w && (row_expiresAt row0 <? now w)%Z); [discriminate|tauto].
  - rewrite !sweep_ai_cache, Hup, Hnow.
    destruct (db_up w); [|reflexivity].
    destruct (ai_cache w) as [rows|]; [|reflexivity]. cbn. rewrite swept_twice.
    reflexivity.
Qed.

End SweepAndLookup.

(** ** [generateSummary] and its cache *)

Section SummaryCache.
Context {js : JSBuiltins}.

(** X17. Where a summary comes from. A summary that [generateSummary] returns
    is either a non-empty value of the cache, returned without a request
    to the provider, or a text the provider has just been asked for. An
    empty summary is never served from the cache: it costs a request at
    every call. *)
Theorem generateSummary_origin (content : string) (w w' : World) (v : JSON) :
  generateSummary content w = (Returned v, w') ->
  (truthy v = true
   /\ getCachedResult (generateCacheKey content "summary") "summary" w
      = (Returned v, w')
   /\ provider_calls w' = provider_calls w)
  \/ ((exists text, v = JStr text)
      /\ is_Some (openai w)
      /\ provider_calls w' = (provider_calls w ++ [("summary", content)])%list).
Proof.
  destruct (getCachedResult_never_raises (generateCacheKey content "summary")
              "summary" w) as [cached Hcached].
  unfold result_of in Hcached.
  destruct (getCachedResult (generateCacheKey content "summary") "summary" w)
    as [r w1] eqn:Hget. cbn in Hcached. subst r.
  pose proof (getCachedResult_frame (generateCacheKey content "summary")
                "summary" w) as Hframe.
  unfold world_after in Hframe. rewrite Hget in Hframe. cbn in Hframe.
  destruct Hframe as (Hopenai & _ & _ & _ & _ & _ & Hcalls).
  destruct (truthy cached) eqn:Htruthy.
  - rewrite (generateSummary_on_hit content w cached w1 Hget Htruthy).
    intros [= <- <-]. left. repeat split; assumption.
  - rewrite (generateSummary_on_miss content w cached w1 Hget Htruthy).
    destruct (openai w) as [provider|]; [|discriminate]. cbv zeta.
    destruct (provider "summary" content) as [e|c]; [discriminate|].
    intros [= <- <-]. right. split; [eauto|]. split; [eauto|].
    pose proof (after_put_frame (generateCacheKey content "summary") "summary"
                  (JStr (or_default c ""))
                  (set_provider_calls (provider_calls w1 ++ [("summary", content)]) w1))
      as (_ & _ & _ & _ & _ & Hput).
    rewrite Hput. cbn. rewrite Hcalls. reflexivity.
Qed.

Lemma durable_phase_miss key type w :
  db_up w = true -> is_Some (ai_cache w) ->
  (forall row, durable_row w key = Some row -> row_expiresAt row <= now w) ->
  durable_phase key type w = (Returned JNull, w).
Proof.
  unfold durable_phase, durable_row. intros -> [rows ->] Hexpired.
  destruct (rows !! key) as [row|]; [|reflexivity].
  specialize (Hexpired row eq_refl).
  destruct (Z.ltb_spec (now w) (row_expiresAt row)); [lia|].
  rewrite andb_false_r. reflexivity.
Qed.

(** X18. A summary is computed once per time to live. In a process without a
    volatile client, with the durable tier reachable and no live row for
    the content, a call asks the provider and returns its non-empty text;
    when the expiry [now + ttl] is a valid date, a second call before the
    time to live has passed returns the same text and changes nothing: no
    request, no write, no log line. Once the time to live has passed the
    provider is asked again. When the expiry is not a valid date nothing is
    cached, and the provider is asked again at once. *)
Theorem generateSummary_once_per_ttl (content text : string) (provider : Provider)
    (w : World) (ttl elapsed : Z) :
  openai w = Some provider ->
  provider "summary" content = Completed (Some text) -> string_truthy text = true ->
  redis w = None -> db_up w = true -> is_Some (ai_cache w) ->
  cache_ttl w = Some ttl -> 0 < ttl ->
  (forall row, durable_row w (generateCacheKey content "summary") = Some row ->
               row_expiresAt row <= now w) ->
  0 <= elapsed ->
  let later := advance elapsed (world_after (generateSummary content) w) in
  let asked_twice :=
    result_of (generateSummary content) later = Returned (JStr text)
    /\ provider_calls (world_after (generateSummary content) later)
       = (provider_calls w ++ [("summary", content); ("summary", content)])%list in
  result_of (generateSummary content) w = Returned (JStr text)
  /\ (valid_time (now w + ttl * 1000) = true -> elapsed < ttl * 1000 ->
      generateSummary content later = (Returned (JStr text), later))
  /\ (valid_time (now w + ttl * 1000) = true -> ttl * 1000 <= elapsed -> asked_twice)
  /\ (valid_time (now w + ttl * 1000) = false -> asked_twice).
Proof.
  intros Hp Hanswer Htruthy Hr Hup [rows Hrows] Httl Hpos Hcold Helapsed.
  set (key := generateCacheKey content "summary") in *.
  assert (Htext : or_default (Some text) "" = text).
  { unfold or_default. rewrite Htruthy. reflexivity. }
  assert (Hmiss : getCachedResult key "summary" w = (Returned JNull, w)).
  { rewrite getCachedResult_by_tier, Hr. apply durable_phase_miss; eauto. }
  pose proof (generateSummary_on_miss content w JNull w Hmiss eq_refl) as Hfirst.
  fold key in Hfirst. rewrite Hp in Hfirst. cbv zeta in Hfirst.
  rewrite Hanswer, Htext in Hfirst.
  set (asked := set_provider_calls (provider_calls w ++ [("summary", content)]) w)
    in *.
  assert (Hput :
    after_put key "summary" (JStr text) asked
    = if valid_time (now w + ttl * 1000)
      then set_ai_cache
             (Some (<[key := stored_row w "summary" (JStr text) ttl]> rows)) asked
      else logged_error "Cache storage failed:" asked).
  { unfold after_put, cache_ttl in *. cbn. rewrite Hr, Hup, Hrows, Httl. reflexivity. }
  rewrite Hput in Hfirst. unfold result_of, world_after. rewrite Hfirst.
  cbn [fst snd]. split; [reflexivity|].
  assert (Hagain : forall w1,
    openai w1 = Some provider -> redis w1 = None -> db_up w1 = true ->
    is_Some (ai_cache w1) ->
    provider_calls w1 = (provider_calls w ++ [("summary", content)])%list ->
    (forall row, durable_row w1 key = Some row -> row_expiresAt row <= now w1) ->
    fst (generateSummary content w1) = Returned (JStr text)
    /\ provider_calls (snd (generateSummary content w1))
       = (provider_calls w ++ [("summary", content); ("summary", content)])%list).
  { intros w1 Hp1 Hr1 Hup1 Htable1 Hcalls1 Hcold1.
    assert (Hmiss1 : getCachedResult key "summary" w1 = (Returned JNull, w1)).
    { rewrite getCachedResult_by_tier, Hr1. apply durable_phase_miss; assumption. }
    pose proof (generateSummary_on_miss content w1 JNull w1 Hmiss1 eq_refl) as Hsecond.
    fold key in Hsecond. rewrite Hp1 in Hsecond. cbv zeta in Hsecond.
    rewrite Hanswer, Htext in Hsecond. rewrite Hsecond. cbn [fst snd].
    split; [reflexivity|].
    pose proof (after_put_frame key "summary" (JStr text)
                  (set_provider_calls (provider_calls w1 ++ [("summary", content)]) w1))
      as (_ & _ & _ & _ & _ & Hcalls).
    rewrite Hcalls. cbn. rewrite Hcalls1, <- app_assoc. reflexivity. }
  split; [|split].
  - intros Hdate Hwithin. rewrite Hdate.
    set (w1 := advance elapsed _).
    apply generateSummary_on_hit; [|exact Htruthy]. fold key.
    rewrite getCachedResult_by_tier. cbn [w1 advance redis set_ai_cache
      set_provider_calls asked]. rewrite Hr.
    rewrite (durable_phase_live key "summary" w1
               (stored_row w "summary" (JStr text) ttl)).
    + cbn. rewrite Hr. reflexivity.
    + unfold durable_live, durable_row. cbn.
      repeat split; [assumption|apply lookup_insert_eq|lia].
  - intros Hdate Hpassed. rewrite Hdate. apply Hagain; cbn; try assumption; eauto.
    intros row. unfold durable_row. cbn. rewrite lookup_insert_eq.
    intros [= <-]. cbn. lia.
  - intros Hdate. rewrite Hdate. apply Hagain; cbn; try assumption; eauto.
    intros row Hrow. change (durable_row w key = Some row) in Hrow.
    specialize (Hcold row Hrow). cbn. lia.
Qed.

End SummaryCache.

Lemma generateSummary_origin_witness :
  provider_calls
    (world_after (generateSummary (js := Reference.builtins) park_content) silent_world)
  = [("summary", park_content)].
Proof.
  destruct (generateSummary (js := Reference.builtins) park_content silent_world)
    as [r w1] eqn:Hfirst.
  assert (Hr : r = Returned (JStr "")).
  { pose proof Hfirst as Hrun. vm_compute in Hrun. congruence. }
  subst r. unfold world_after. rewrite Hfirst. cbn [snd].
  destruct (generateSummary_origin (js := Reference.builtins) park_content
              silent_world w1 (JStr "") Hfirst) as [(Hserved & _)|(_ & _ & Hasked)];
    [discriminate|].
  rewrite Hasked. reflexivity.
Defined.

Lemma generateSummary_once_per_ttl_witness :
  generateSummary (js := Reference.builtins) park_content
    (advance 1000
       (world_after (generateSummary (js := Reference.builtins) park_content)
          steady_world))
  = (Returned (JStr "A happy day outdoors."),
     advance 1000
       (world_after (generateSummary (js := Reference.builtins) park_content)
          steady_world)).
Proof.
  assert (Hcold : forall row,
            durable_row steady_world (generateCacheKey park_content "summary")
              = Some row -> row_expiresAt row <= now steady_world).
  { intros row. unfold durable_row. cbn. rewrite lookup_empty. discriminate. }
  assert (Httl : cache_ttl (js := Reference.builtins) steady_world = Some 3600)
    by reflexivity.
  assert (Htable : is_Some (ai_cache steady_world)) by (eexists; reflexivity).
  destruct (generateSummary_once_per_ttl (js := Reference.builtins) park_content
              "A happy day outdoors."
              (fun _ _ => Completed (Some "A happy day outdoors."))
              steady_world 3600 1000 eq_refl eq_refl eq_refl eq_refl eq_refl
              Htable Httl ltac:(lia) Hcold ltac:(lia)) as (_ & Hwithin & _).
  apply Hwithin; [reflexivity|lia].
Defined.

Lemma sweep_invisible_to_lookups_witness :
  result_of (getCachedResult (js := Reference.builtins) park_key "tags")
    (world_after cleanupExpiredCache at_expiry)
  = result_of (getCachedResult (js := Reference.builtins) park_key "tags") at_expiry.
Proof.
  destruct (sweep_invisible_to_lookups (js := Reference.builtins) park_key "tags"
              at_expiry) as (Hsame & _).
  exact Hsame.
Defined.

(** ** The header and the token at concrete inputs *)

Example split_on_dots : split_on "." "h.p.s" = ["h"; "p"; "s"].
Proof. reflexivity. Qed.

Example split_on_trailing_space : split_on " " "Bearer " = ["Bearer"; ""].
Proof. reflexivity. Qed.

Example bearer_token_examples :
  bearer_token (Some "Bearer abc.def.ghi") = Some "abc.def.ghi"
  /\ bearer_token (Some "Bearer") = None
  /\ bearer_token (Some "Bearer ") = None
  /\ bearer_token (Some "") = None
  /\ bearer_token None = None.
Proof. repeat split; reflexivity. Qed.

Example base64_decode_hello : ReferenceAuth.base64_decode "SGVsbG8" = "Hello".
Proof. reflexivity. Qed.

(** ** The middleware *)

Section AuthenticationProperties.
Context {js : JSBuiltins} {lib : AuthLibraries}.

Lemma find_by_id users id u :
  find (fun u => String.eqb (user_id u) id) users = Some u ->
  In u users /\ user_id u = id.
Proof.
  intros Hfind. apply find_some in Hfind as [Hin Heq].
  apply String.eqb_eq in Heq. split; assumption.
Qed.

(** X19. [authenticateToken] lets a request through only when the header
    carries a token that [verifyToken] accepts and whose payload names, by
    [id], a user of the table; [req.user] is then that row. Whatever else
    happens is answered 401 with one of three messages, never passed to the
    error handler: a database that cannot be reached is reported to the
    client as an invalid token. [optionalAuth] accepts at least the same
    tokens, without asking the table. *)
Theorem authenticateToken_outcomes (users : list User)
    (authorization : option string) (w : World) :
  match authenticateToken users authorization w with
  | Authenticated user =>
      exists token payload row,
        bearer_token authorization = Some token
        /\ verifyToken token w = inr payload
        /\ get_property payload "id" = Some (JStr (ru_id user))
        /\ In row users /\ user = request_user row
        /\ db_up w = true
        /\ optionalAuth authorization w = Some payload
  | Denied r =>
      r = failure 401 "Access token required"
      \/ r = failure 401 "User not found"
      \/ (r = failure 401 "Invalid or expired token"
          /\ is_Some (bearer_token authorization))
  end
  /\ (db_up w = false -> is_Some (bearer_token authorization) ->
      authenticateToken users authorization w
        = Denied (failure 401 "Invalid or expired token")).
Proof.
  unfold authenticateToken, optionalAuth, attempt_bind.
  destruct (bearer_token authorization) as [token|] eqn:Htoken.
  2: { split; [left; reflexivity|]. intros _ [? [=]]. }
  assert (Hsecret : forall e, verifyToken token w = inl e ->
            match e with Raised (AppError _ _) => False | _ => True end).
  { unfold verifyToken. intros e.
    destruct (process_env w !! "JWT_SECRET") as [secret|];
      [destruct (string_truthy secret);
       [destruct (jwt_verify token secret) as [[]|]|]|];
      intros [= <-]; exact I. }
  destruct (verifyToken token w) as [e|payload] eqn:Hverify.
  { specialize (Hsecret e eq_refl).
    destruct e as [| [] | | |]; try contradiction;
      (split; [right; right; eauto|intros; reflexivity]). }
  unfold member, user_findUnique_id.
  destruct payload as [|b|m e|s|items|fields] eqn:Hpayload; cbn;
    try (split; [right; right; eauto|intros; reflexivity]).
  destruct (assoc_property fields "id") as [[|b|m e|id|items|fs]|] eqn:Hid;
    try (split; [right; right; eauto|intros; reflexivity]).
  destruct (db_up w) eqn:Hup;
    [|split; [right; right; eauto|intros; reflexivity]].
  destruct (find _ users) as [row|] eqn:Hfind.
  - split; [|discriminate].
    destruct (find_by_id _ _ _ Hfind) as [Hin Heq].
    exists token, (JObj fields), row. cbn. rewrite Heq.
    repeat split; try assumption; reflexivity.
  - split; [right; left; reflexivity|discriminate].
Qed.

(** ** The routes that read a token themselves *)

(** X20. [GET /me] and [POST /refresh] decode the middle segment of the token
    and never verify the token: a token that [jwt.verify] refuses, and
    that the middleware therefore answers 401, is still exchanged by
    [/refresh] for a freshly signed token of the user its payload names,
    and [/me] still returns that user's profile. *)
Theorem unverified_token_is_served (users : list User) (authorization : option string)
    (w : World) (token segment secret id fresh : string) (payload : JSON)
    (refusal : JwtRefusal) (u : User) :
  bearer_token authorization = Some token ->
  nth_error (split_on "." token) 1 = Some segment ->
  JSON_parse (Buffer_from_base64 segment) = Some payload ->
  get_property payload "id" = Some (JStr id) ->
  db_up w = true ->
  find (fun u => String.eqb (user_id u) id) users = Some u ->
  process_env w !! "JWT_SECRET" = Some secret -> string_truthy secret = true ->
  jwt_sign (JObj [("id", JStr (user_id u)); ("email", JStr (user_email u))]) secret
    (or_default (process_env w !! "JWT_EXPIRES_IN") "7d") = inr fresh ->
  jwt_verify token secret = inl refusal ->
  authenticateToken users authorization w
    = Denied (failure 401 "Invalid or expired token")
  /\ post_refresh users authorization w
     = (Returned (Responded (success (JObj [("token", JStr fresh)])
                               "Token refreshed successfully")), w)
  /\ exists profile,
       get_me users authorization w
         = (Returned (Responded {| res_status := 200;
                                   res_body := JObj [("success", JBool true);
                                                     ("data", profile)] |}), w)
       /\ get_property profile "id" = Some (JStr id)
       /\ get_property profile "email" = Some (JStr (user_email u)).
Proof.
  intros Htoken Hsegment Hparse Hid Hup Hfind Hsecret Htruthy Hsign Hverify.
  assert (Hobject : payload <> JNull) by (intros ->; discriminate).
  destruct (find_by_id _ _ _ Hfind) as [_ Hu].
  split; [|split].
  - unfold authenticateToken, verifyToken, attempt_bind.
    rewrite Htoken, Hsecret, Htruthy, Hverify. destruct refusal; reflexivity.
  - unfold post_refresh, handled, unverified_payload, generateToken, attempt_bind,
      member, user_findUnique_id, ret.
    rewrite Htoken, Hsegment, Hparse.
    destruct payload; try contradiction; rewrite Hid, Hup, Hfind, Hsecret, Htruthy,
      Hsign; reflexivity.
  - unfold get_me, handled, unverified_payload, attempt_bind, member,
      user_findUnique_id, ret.
    rewrite Htoken, Hsegment, Hparse.
    destruct payload; try contradiction; rewrite Hid, Hup, Hfind;
      eexists; (split; [reflexivity|]); cbn; rewrite Hu; split; reflexivity.
Qed.

Section Login.
Context {zod : AuthSchemas}.

(** X21. [POST /login] answers a wrong password and an unknown address alike:
    401 with the same message. It answers 200 only when the address is in
    the table and [bcrypt.compare] accepts the password against the stored
    hash, and the token it returns is signed for that user. *)
Theorem login_outcomes (users : list User) (body : JSON) (email password : string)
    (w : World) :
  loginSchema body = Valid (email, password) -> db_up w = true ->
  let found := find (fun u => String.eqb (user_email u) email) users in
  ((found = None
    \/ exists u, found = Some u /\ bcrypt_compare password (user_password u) = false) ->
   result_of (serve (post_login users body)) w
     = Returned (failure 401 "Invalid email or password"))
  /\ (forall r,
        result_of (post_login users body) w = Returned (Responded r) ->
        exists u token,
          found = Some u /\ user_email u = email
          /\ bcrypt_compare password (user_password u) = true
          /\ generateToken (JObj [("id", JStr (user_id u));
                                  ("email", JStr (user_email u))]) w = inr token
          /\ res_status r = 200
          /\ get_property (res_body r) "data"
             = Some (JObj [("user", JObj [("id", JStr (user_id u));
                                          ("email", JStr (user_email u));
                                          ("name", nullable (user_name u))]);
                           ("token", JStr token)])).
Proof.
  intros Hparse Hup. cbv zeta.
  unfold result_of, serve, post_login, handled, user_findUnique_email, attempt_bind.
  step. rewrite Hparse, Hup. split.
  - intros [Hnone|(u & Hsome & Hwrong)].
    + rewrite Hnone. reflexivity.
    + rewrite Hsome, Hwrong. reflexivity.
  - intros r. destruct (find _ users) as [u|] eqn:Hfind; [|discriminate].
    destruct (bcrypt_compare password (user_password u)) eqn:Hcompare;
      [|discriminate].
    destruct (generateToken _ w) as [e|token] eqn:Hsign; [discriminate|].
    cbn. intros [= <-]. exists u, token.
    apply find_some in Hfind as [_ Hemail]. apply String.eqb_eq in Hemail.
    repeat split; try assumption; reflexivity.
Qed.

End Login.

End AuthenticationProperties.

Lemma authenticateToken_outcomes_witness :
  authenticateToken (lib := ReferenceAuth.libraries)
    [ReferenceAuth.ada] ReferenceAuth.forged_header
    ReferenceAuth.keyed_world_offline
  = Denied (failure 401 "Invalid or expired token").
Proof.
  destruct (authenticateToken_outcomes
              (lib := ReferenceAuth.libraries) [ReferenceAuth.ada]
              ReferenceAuth.forged_header ReferenceAuth.keyed_world_offline)
    as [_ Hdown].
  apply Hdown; [reflexivity|eexists; reflexivity].
Defined.

Lemma unverified_token_is_served_witness :
  post_refresh (js := Reference.builtins) (lib := ReferenceAuth.libraries)
    [ReferenceAuth.ada] ReferenceAuth.forged_header ReferenceAuth.keyed_world
  = (Returned
       (Responded
          (success
             (JObj [("token",
                     JStr ("signed."
                           ++ Reference.stringify
                                (JObj [("id", JStr "u1");
                                       ("email", JStr "ada@example.org")])
                           ++ ".k"))])
             "Token refreshed successfully")),
     ReferenceAuth.keyed_world).
Proof.
  destruct (unverified_token_is_served (js := Reference.builtins)
              (lib := ReferenceAuth.libraries) [ReferenceAuth.ada]
              ReferenceAuth.forged_header ReferenceAuth.keyed_world
              "h.eyJpZCI6InUxIn0.s" "eyJpZCI6InUxIn0" "k" "u1"
              ("signed."
               ++ Reference.stringify
                    (JObj [("id", JStr "u1"); ("email", JStr "ada@example.org")])
               ++ ".k")
              (JObj [("id", JStr "u1")]) (Malformed "invalid signature")
              ReferenceAuth.ada eq_refl eq_refl eq_refl eq_refl eq_refl eq_refl
              eq_refl eq_refl eq_refl eq_refl) as (_ & Hrefresh & _).
  exact Hrefresh.
Defined.

Lemma login_outcomes_witness :
  result_of (serve (post_login
                      (lib := ReferenceAuth.libraries) (zod := ReferenceAuth.schemas)
                      [ReferenceAuth.ada]
                      (JObj [("email", JStr "eve@example.org");
                             ("password", JStr "guess")])))
    ReferenceAuth.keyed_world
  = Returned (failure 401 "Invalid email or password").
Proof.
  destruct (login_outcomes (lib := ReferenceAuth.libraries)
              (zod := ReferenceAuth.schemas) [ReferenceAuth.ada]
              (JObj [("email", JStr "eve@example.org"); ("password", JStr "guess")])
              "eve@example.org" "guess" ReferenceAuth.keyed_world)
    as [Hrefused _]; [reflexivity|reflexivity|].
  apply Hrefused. left. reflexivity.
Defined.

(** ** The routes of one entry *)

Section EntryRouteProperties.
Context {js : JSBuiltins} {zod : EntrySchemas}.
Variable transformedEntry : string -> DiaryEntry -> JSON.

Lemma processAIAnalysis_returns id content w :
  fst (processAIAnalysis id content w) = Returned tt.
Proof.
  unfold processAIAnalysis. rewrite processAIAnalysis_with_effect.
  destruct (settled AIService_getInstance content w) as [[[r1 r2] r3] w3].
  destruct r1 as [s|e1], r2 as [t|e2], r3 as [m|e3]; try reflexivity.
  destruct (diaryEntry_update id s t m w3) as [[[]|e4] w4]; reflexivity.
Qed.

(** The pass writes the diary table at its own row only. *)
Lemma processAIAnalysis_entries id content w :
  let w' := snd (processAIAnalysis id content w) in
  diary_entries w' = diary_entries w
  \/ exists e s ts sm,
       diary_entries w !! id = Some e
       /\ diary_entries w' = <[id := enriched e s ts sm]> (diary_entries w).
Proof.
  cbv zeta. unfold processAIAnalysis. rewrite processAIAnalysis_with_effect.
  destruct (settled AIService_getInstance content w) as [[[r1 r2] r3] w3] eqn:Hsettled.
  pose proof (settled_entries content w r1 r2 r3 w3 Hsettled) as Hentries.
  destruct r1 as [s|e1], r2 as [t|e2], r3 as [m|e3]; try (left; exact Hentries).
  pose proof (diaryEntry_update_entries id s t m w3) as Hupdate.
  destruct (diaryEntry_update id s t m w3) as [[[]|e4] w4]; cbn in *.
  all: rewrite Hupdate; destruct (db_up w3); [|left; exact Hentries];
    rewrite Hentries;
    destruct (diary_entries w !! id) as [e|] eqn:He; [|left; reflexivity];
    destruct (as_string_array t) as [ts|]; [|left; reflexivity];
    destruct (as_string m) as [sm|]; [|left; reflexivity];
    right; exists e, s, ts, sm; split; reflexivity.
Qed.

(** With a provider configured the pass writes nothing: its first
    analysis is rejected. *)
Lemma processAIAnalysis_configured_entries id content w :
  is_Some (openai w) ->
  diary_entries (snd (processAIAnalysis id content w)) = diary_entries w.
Proof.
  intros [provider Hp]. unfold processAIAnalysis.
  rewrite processAIAnalysis_with_effect.
  destruct (settled AIService_getInstance content w) as [[[r1 r2] r3] w3] eqn:Hsettled.
  pose proof (settled_entries content w r1 r2 r3 w3 Hsettled) as Hentries.
  unfold settled in Hsettled.
  cbn [svc_analyzeSentiment svc_generateTags svc_generateSummary
       AIService_getInstance] in Hsettled.
  rewrite (analyzeSentiment_configured w content provider Hp) in Hsettled.
  destruct (generateTags content _) as [o2 w2].
  destruct (generateSummary content w2) as [o3 w3'].
  injection Hsettled as <- <- <- <-. exact Hentries.
Qed.

Lemma background_analysis_is_the_pass id content w :
  background_analysis id content w = (Returned tt, snd (processAIAnalysis id content w)).
Proof.
  unfold background_analysis, try_catch.
  pose proof (processAIAnalysis_returns id content w) as Hreturns.
  destruct (processAIAnalysis id content w) as [[[]|e] w']; [reflexivity|discriminate].
Qed.

Lemma owned_entry_row w id owner e :
  owned_entry w id owner = Some e ->
  diary_entries w !! id = Some e /\ userId e = owner.
Proof.
  unfold owned_entry. destruct (diary_entries w !! id) as [e0|]; [|discriminate].
  destruct (String.eqb_spec (userId e0) owner); [|discriminate].
  intros [= <-]. split; [reflexivity|assumption].
Qed.

Lemma diaryEntry_findFirst_effect id owner w :
  diaryEntry_findFirst id owner w
  = if db_up w then (Returned (owned_entry w id owner), w)
    else (Thrown db_unreachable, w).
Proof. reflexivity. Qed.

(** X22. An entry that is not the caller's is not found. On an identifier
    that names no row of [owner], [GET], [PUT] and [DELETE] are answered
    404 with the same message, whether the row exists or not, and change
    nothing but the error log. *)
Theorem foreign_entry_is_not_found (owner id : string) (body : JSON) (w : World) :
  string_truthy id = true -> db_up w = true -> owned_entry w id owner = None ->
  let not_found := (Returned (failure 404 "Entry not found"), logged_error "Error:" w) in
  serve (get_entry transformedEntry owner id) w = not_found
  /\ serve (delete_entry owner id) w = not_found
  /\ (forall data,
        updateEntrySchema body = Valid data ->
        serve (put_entry transformedEntry owner id body) w = not_found).
Proof.
  intros Hid Hup Hforeign. cbv zeta.
  unfold serve, get_entry, delete_entry, put_entry. rewrite Hid. step.
  rewrite !diaryEntry_findFirst_effect, Hup, Hforeign. cbn.
  split; [reflexivity|]. split; [reflexivity|].
  intros [new_title new_content] ->. step.
  rewrite diaryEntry_findFirst_effect, Hup, Hforeign. reflexivity.
Qed.

Lemma background_analysis_other id content w k :
  k <> id ->
  diary_entries (snd (background_analysis id content w)) !! k = diary_entries w !! k.
Proof.
  intros Hk. rewrite background_analysis_is_the_pass. cbn [snd].
  destruct (processAIAnalysis_entries id content w) as [->|(e & s & ts & sm & _ & ->)];
    [reflexivity|].
  apply lookup_insert_ne. congruence.
Qed.

(** X23. No route of one entry changes a row of another user. Whatever the
    request and the state of the process, after [GET], [POST], [PUT] or
    [DELETE] by [owner], once the analysis started in the background has
    settled, every row that belongs to someone else is as it was. *)
Theorem entry_routes_isolate_users (owner id new_id : string) (body : JSON)
    (w : World) (k : string) (other : DiaryEntry) :
  diary_entries w !! k = Some other -> userId other <> owner ->
  let kept (route : M Handled) :=
    diary_entries (world_after (serve route) w) !! k = Some other in
  kept (get_entry transformedEntry owner id)
  /\ kept (post_entry transformedEntry owner new_id body)
  /\ kept (put_entry transformedEntry owner id body)
  /\ kept (delete_entry owner id).
Proof.
  intros Hrow Hforeign. cbv zeta.
  assert (Hserve : forall (route : M Handled),
            diary_entries (snd (route w)) !! k = Some other ->
            diary_entries (world_after (serve route) w) !! k = Some other).
  { intros route Hroute. unfold world_after, serve, bind.
    destruct (route w) as [[[r|e]|e] w']; cbn in *; try exact Hroute.
    unfold errorHandler. step.
    destruct e as [issues|[]|code ?| |]; cbn; try exact Hroute.
    destruct (String.eqb code "P2002"); [|destruct (String.eqb code "P2025")];
      exact Hroute. }
  assert (Hnot_own : forall e, owned_entry w id owner = Some e -> k <> id).
  { intros e Hown ->. apply owned_entry_row in Hown as [Hid Howner].
    rewrite Hid in Hrow. congruence. }
  repeat split; apply Hserve.
  - unfold get_entry. destruct (string_truthy id); [|exact Hrow]. step.
    rewrite diaryEntry_findFirst_effect.
    destruct (db_up w); [destruct (owned_entry w id owner)|]; exact Hrow.
  - unfold post_entry.
    destruct (createEntrySchema body) as [[new_title new_content]|issues];
      [|exact Hrow].
    unfold diaryEntry_create. step.
    destruct (db_up w); [|exact Hrow].
    destruct (diary_entries w !! new_id) eqn:Hnew; [exact Hrow|].
    assert (Hk : k <> new_id) by congruence.
    pose proof (background_analysis_other new_id new_content
                  (set_diary_entries
                     (<[new_id := {| title := new_title; entry_content := new_content;
                                     userId := owner; aiSentiment := None;
                                     aiTags := None; aiSummary := None |}]>
                        (diary_entries w)) w) k Hk) as Hbackground.
    rewrite background_analysis_is_the_pass in *. cbn [fst snd] in *.
    rewrite Hbackground. cbn. rewrite lookup_insert_ne by congruence. exact Hrow.
  - unfold put_entry. destruct (string_truthy id); [|exact Hrow].
    destruct (updateEntrySchema body) as [[new_title new_content]|issues];
      [|exact Hrow].
    step. rewrite diaryEntry_findFirst_effect.
    destruct (db_up w) eqn:Hup; [|exact Hrow].
    destruct (owned_entry w id owner) as [e|] eqn:Hown; [|exact Hrow].
    pose proof (Hnot_own e eq_refl) as Hk.
    apply owned_entry_row in Hown as [Hid _].
    unfold diaryEntry_update_text. rewrite Hup, Hid.
    destruct (opt_truthy new_content).
    + match goal with
      | |- context [background_analysis ?i ?c ?w1] =>
          pose proof (background_analysis_other i c w1 k Hk) as Hbackground;
          rewrite background_analysis_is_the_pass in *
      end.
      cbn [fst snd] in *. rewrite Hbackground. cbn.
      rewrite lookup_insert_ne by congruence. exact Hrow.
    + cbn. rewrite lookup_insert_ne by congruence. exact Hrow.
  - unfold delete_entry. destruct (string_truthy id); [|exact Hrow]. step.
    rewrite diaryEntry_findFirst_effect.
    destruct (db_up w) eqn:Hup; [|exact Hrow].
    destruct (owned_entry w id owner) as [e|] eqn:Hown; [|exact Hrow].
    pose proof (Hnot_own e eq_refl) as Hk.
    apply owned_entry_row in Hown as [Hid _].
    unfold diaryEntry_delete. rewrite Hup, Hid. cbn.
    rewrite lookup_delete_ne by congruence. exact Hrow.
Qed.

(** X24. [PUT /:id] on a row of the caller answers 200 with the row as the
    update left it. An update that carries no content starts no analysis
    and changes that row alone. With a provider configured, an update of
    the content leaves the analysis fields as they were: they go on
    describing the previous content. *)
Theorem put_entry_effect (owner id : string) (body : JSON)
    (new_title new_content : option string) (e : DiaryEntry) (w : World) :
  string_truthy id = true -> db_up w = true -> owned_entry w id owner = Some e ->
  updateEntrySchema body = Valid (new_title, new_content) ->
  let updated := {| title := or_default new_title (title e);
                    entry_content := or_default new_content (entry_content e);
                    userId := userId e; aiSentiment := aiSentiment e;
                    aiTags := aiTags e; aiSummary := aiSummary e |} in
  let w' := world_after (put_entry transformedEntry owner id body) w in
  result_of (put_entry transformedEntry owner id body) w
    = Returned (Responded (success (transformedEntry id updated)
                             "Entry updated successfully"))
  /\ (opt_truthy new_content = false ->
      w' = set_diary_entries (<[id := updated]> (diary_entries w)) w)
  /\ (is_Some (openai w) ->
      diary_entries w' = <[id := updated]> (diary_entries w)).
Proof.
  intros Hid Hup Hown Hparse. cbv zeta.
  destruct (owned_entry_row _ _ _ _ Hown) as [Hrow _].
  unfold result_of, world_after, put_entry. rewrite Hid, Hparse. step.
  rewrite diaryEntry_findFirst_effect, Hup, Hown.
  unfold diaryEntry_update_text. rewrite Hup, Hrow.
  destruct (opt_truthy new_content).
  - rewrite background_analysis_is_the_pass. cbn [fst snd].
    split; [reflexivity|]. split; [discriminate|].
    intros Hp. rewrite processAIAnalysis_configured_entries; [reflexivity|exact Hp].
  - cbn. repeat split; reflexivity.
Qed.

(** X25. [POST /] answers 201 with the new row, whose analysis fields are not
    set; with a provider configured they are never set afterwards
    either: the pass started in the background persists nothing. *)
Theorem post_entry_effect (owner new_id : string) (body : JSON)
    (new_title new_content : string) (w : World) :
  db_up w = true -> diary_entries w !! new_id = None ->
  createEntrySchema body = Valid (new_title, new_content) ->
  let created := {| title := new_title; entry_content := new_content;
                    userId := owner; aiSentiment := None; aiTags := None;
                    aiSummary := None |} in
  let w' := world_after (post_entry transformedEntry owner new_id body) w in
  (exists r,
     result_of (post_entry transformedEntry owner new_id body) w
       = Returned (Responded r)
     /\ res_status r = 201
     /\ get_property (res_body r) "data" = Some (transformedEntry new_id created))
  /\ (is_Some (openai w) ->
      diary_entries w' = <[new_id := created]> (diary_entries w)).
Proof.
  intros Hup Hfree Hparse. cbv zeta.
  unfold result_of, world_after, post_entry. rewrite Hparse. step.
  unfold diaryEntry_create. rewrite Hup, Hfree.
  rewrite background_analysis_is_the_pass. cbn [fst snd]. split.
  - eexists. split; [reflexivity|]. split; reflexivity.
  - intros Hp. rewrite processAIAnalysis_configured_entries; [reflexivity|exact Hp].
Qed.

(** X26. [DELETE /:id] removes a row only when it answers 200, and then the
    row of the caller under that identifier and no other; every other
    answer (400, 404, 500) leaves the table as it was. *)
Theorem delete_entry_outcomes (owner id : string) (w : World) :
  let w' := world_after (serve (delete_entry owner id)) w in
  exists r,
    result_of (serve (delete_entry owner id)) w = Returned r
    /\ ((res_status r = 200 /\ is_Some (owned_entry w id owner)
         /\ diary_entries w' = delete id (diary_entries w))
        \/ (In (res_status r) [400; 404; 500]
            /\ diary_entries w' = diary_entries w)).
Proof.
  cbv zeta. unfold result_of, world_after, serve, delete_entry.
  destruct (string_truthy id).
  2: { step. eexists. split; [reflexivity|]. right. cbn. tauto. }
  step. rewrite diaryEntry_findFirst_effect.
  destruct (db_up w) eqn:Hup.
  2: { cbn. eexists. split; [reflexivity|]. right. cbn. tauto. }
  destruct (owned_entry w id owner) as [e|] eqn:Hown.
  2: { cbn. eexists. split; [reflexivity|]. right. cbn. tauto. }
  destruct (owned_entry_row _ _ _ _ Hown) as [Hrow _].
  unfold diaryEntry_delete. rewrite Hup, Hrow. cbn.
  eexists. split; [reflexivity|]. left. cbn. eauto.
Qed.

End EntryRouteProperties.

Lemma foreign_entry_is_not_found_witness :
  result_of (serve (delete_entry "u1" "e2")) ReferenceEntries.shared_table
  = Returned (failure 404 "Entry not found").
Proof.
  destruct (foreign_entry_is_not_found (js := Reference.builtins)
              (zod := ReferenceEntries.schemas)
              ReferenceEntries.rendered "u1" "e2" (JObj [])
              ReferenceEntries.shared_table eq_refl eq_refl eq_refl)
    as (_ & Hdelete & _).
  unfold result_of. rewrite Hdelete. reflexivity.
Defined.

Lemma entry_routes_isolate_users_witness :
  diary_entries
    (world_after
       (serve (put_entry (js := Reference.builtins) (zod := ReferenceEntries.schemas)
                 ReferenceEntries.rendered "u1" "e2"
                 (JObj [("content", JStr "Mine now")])))
       ReferenceEntries.shared_table) !! "e2"
  = diary_entries ReferenceEntries.shared_table !! "e2".
Proof.
  destruct (entry_routes_isolate_users (js := Reference.builtins)
              (zod := ReferenceEntries.schemas) ReferenceEntries.rendered
              "u1" "e2" "e3" (JObj [("content", JStr "Mine now")])
              ReferenceEntries.shared_table "e2"
              {| title := "Private"; entry_content := "Nobody else reads this";
                 userId := "someone-else"; aiSentiment := None; aiTags := None;
                 aiSummary := None |}) as (_ & _ & Hput & _);
    [reflexivity|discriminate|].
  rewrite Hput. reflexivity.
Defined.

Lemma put_entry_effect_witness :
  diary_entries
    (world_after
       (put_entry (js := Reference.builtins) (zod := ReferenceEntries.schemas)
          ReferenceEntries.rendered "u1" "e1"
          (JObj [("content", JStr "It rained all day")]))
       ReferenceEntries.shared_table) !! "e1"
  = Some {| title := "Monday"; entry_content := "It rained all day";
            userId := "u1"; aiSentiment := None; aiTags := None;
            aiSummary := None |}.
Proof.
  destruct (put_entry_effect (js := Reference.builtins)
              (zod := ReferenceEntries.schemas) ReferenceEntries.rendered
              "u1" "e1" (JObj [("content", JStr "It rained all day")])
              None (Some "It rained all day") fresh_entry
              ReferenceEntries.shared_table eq_refl eq_refl eq_refl eq_refl)
    as (_ & _ & Hstale).
  rewrite Hstale; [reflexivity|eexists; reflexivity].
Defined.

Lemma post_entry_effect_witness :
  diary_entries
    (world_after
       (post_entry (js := Reference.builtins) (zod := ReferenceEntries.schemas)
          ReferenceEntries.rendered "u1" "e3"
          (JObj [("title", JStr "Tuesday"); ("content", JStr "It rained all day")]))
       ReferenceEntries.shared_table) !! "e3"
  = Some {| title := "Tuesday"; entry_content := "It rained all day";
            userId := "u1"; aiSentiment := None; aiTags := None;
            aiSummary := None |}.
Proof.
  destruct (post_entry_effect (js := Reference.builtins)
              (zod := ReferenceEntries.schemas) ReferenceEntries.rendered
              "u1" "e3"
              (JObj [("title", JStr "Tuesday"); ("content", JStr "It rained all day")])
              "Tuesday" "It rained all day"
              ReferenceEntries.shared_table eq_refl eq_refl eq_refl)
    as (_ & Hbare).
  rewrite Hbare; [reflexivity|eexists; reflexivity].
Defined.
